(** * Verification of the agentic course exercises

    A shallow embedding of the repository's own Python code:
    - course-01: the intent-routing LangGraph workflow ([agent.py]);
    - course-02: the EcoHome synthetic data tools ([tools.py]);
    - course-03: the CultPass database tools and the orchestrator wiring.

    Python [float] is IEEE-754 binary64, modelled by Rocq's primitive floats.
    The builtin [round(x, ndigits)], the [random] module, the clock and the
    language model are library code: they appear as section variables, so
    every theorem holds for each implementation of them. *)

From Stdlib Require Import ZArith List String Ascii Bool Lia.
From Stdlib Require Import Floats.
From Stdlib Require Import Sorted Permutation.
Import ListNotations.

(* Decimal literals denote the nearest binary64 value, as in Python. *)
Set Warnings "-inexact-float,-register-all".

Local Open Scope string_scope.
Local Open Scope list_scope.
Local Open Scope Z_scope.

(** * Python values shared by the three courses *)

(** A Python number as the tools return it: [int] or [float]. *)
Inductive py_num : Type :=
| PInt (n : Z)
| PFloat (x : float).

(** Outcome of a Python call: a returned value or a raised exception. *)
Inductive exn : Type :=
| ZeroDivisionError
| KeyError
| ValueError
| RecursionError
| OperationalError
| StatementError
| ObjectDeletedError.

Inductive outcome (A : Type) : Type :=
| Return (a : A)
| Raise (e : exn).
Arguments Return {A} a.
Arguments Raise {A} e.

Definition obind {A B} (c : outcome A) (k : A -> outcome B) : outcome B :=
  match c with
  | Return a => k a
  | Raise e => Raise e
  end.

(** [x / y] on floats: Python raises on a zero divisor, whatever its sign. *)
Definition float_truediv (x y : float) : outcome float :=
  if PrimFloat.eqb y 0%float then Raise ZeroDivisionError
  else Return (PrimFloat.div x y).

(** [float(n)] for a Python int in the exactly representable range. *)
Definition float_of_Z (n : Z) : float :=
  if n <? 0 then PrimFloat.opp (PrimFloat.of_uint63 (Uint63.of_Z (- n)))
  else PrimFloat.of_uint63 (Uint63.of_Z n).

(** [range(lo, hi)]. *)
Definition range (lo hi : Z) : list Z :=
  map (fun i => lo + Z.of_nat i) (seq 0 (Z.to_nat (hi - lo))).

(** A Python number used where a float is expected. *)
Definition to_float (v : py_num) : float :=
  match v with
  | PInt n => float_of_Z n
  | PFloat x => x
  end.

(** [max(0, x)] for a float [x]: the int [0] stays unless [x > 0]. *)
Definition py_max0 (x : float) : py_num :=
  if PrimFloat.ltb 0%float x then PFloat x else PInt 0.

(** [max(l)] and [min(l)] on a list of floats; both raise on an empty list
    and keep the first extremal item. *)
Definition py_max (l : list float) : outcome float :=
  match l with
  | [] => Raise ValueError
  | x :: xs =>
      Return (fold_left (fun m y => if PrimFloat.ltb m y then y else m) xs x)
  end.

Definition py_min (l : list float) : outcome float :=
  match l with
  | [] => Raise ValueError
  | x :: xs =>
      Return (fold_left (fun m y => if PrimFloat.ltb y m then y else m) xs x)
  end.

(** * course-02: EcoHome tools *)

Module EcoHome.

(** ** Data returned by the tools *)

Record weather_type : Type := mkWeatherType {
  irradiance_range : Z * Z;
  weight : float
}.

Record current_weather : Type := mkCurrent {
  cur_temperature_c : float;
  cur_condition : string;
  cur_humidity : Z;
  cur_wind_speed : float
}.

Record hourly_entry : Type := mkHourly {
  h_day : Z;
  h_hour : Z;
  h_temperature_c : float;
  h_condition : string;
  h_solar_irradiance : py_num;
  h_humidity : Z;
  h_wind_speed : float
}.

Record daily_entry : Type := mkDaily {
  d_day : Z;
  d_date : string;
  d_condition : string;
  d_high_temp_c : float;
  d_low_temp_c : float;
  d_solar_generation_potential_kwh : py_num
}.

Record forecast : Type := mkForecast {
  fc_location : string;
  fc_forecast_days : Z;
  fc_current : current_weather;
  fc_hourly : list hourly_entry;
  fc_daily : list daily_entry
}.

Record pricing_tier : Type := mkTier {
  tier_rate : float;
  tier_hours : list Z
}.

Record hourly_rate : Type := mkRate {
  hr_hour : Z;
  hr_rate : float;
  hr_period : string;
  hr_demand_charge : float;
  hr_total_rate : float
}.

Record price_summary : Type := mkSummary {
  off_peak_rate : float;
  partial_peak_rate : float;
  peak_rate : float;
  off_peak_hours : string;
  partial_peak_hours : string;
  peak_hours : string
}.

Record prices : Type := mkPrices {
  pr_date : string;
  pr_pricing_type : string;
  pr_currency : string;
  pr_unit : string;
  pr_hourly_rates : list hourly_rate;
  pr_summary : price_summary
}.

(** The dict returned by [calculate_energy_savings]. *)
Record savings : Type := mkSavings {
  sv_device_type : string;
  sv_current_usage_kwh : float;
  sv_optimized_usage_kwh : float;
  sv_savings_kwh : float;
  sv_savings_usd : float;
  sv_savings_percentage : py_num;
  sv_price_per_kwh : float;
  sv_annual_savings_usd : float
}.

(** The three locals computed before the dict is built. *)
Record savings_locals : Type := mkLocals {
  loc_savings_kwh : float;
  loc_savings_usd : float;
  loc_savings_percentage : py_num
}.

(** Loop state of the hourly loop of [get_weather_forecast]. *)
Record hour_acc : Type := mkAcc {
  acc_temps : list float;
  acc_potential : py_num;
  acc_hourly : list hourly_entry
}.

(** ** Constant tables *)

Definition weather_types : list (string * weather_type) :=
  [ ("sunny", mkWeatherType (800, 1000) 0.4%float);
    ("partly_cloudy", mkWeatherType (400, 700) 0.35%float);
    ("cloudy", mkWeatherType (100, 350) 0.2%float);
    ("rainy", mkWeatherType (50, 150) 0.05%float) ].

Definition weather_keys : list string := map fst weather_types.

Definition weather_weights : list float :=
  map (fun p => weight (snd p)) weather_types.

Definition pricing_tiers : list (string * pricing_tier) :=
  [ ("off_peak", mkTier 0.10%float (range 0 6 ++ range 23 24));
    ("partial_peak", mkTier 0.15%float (range 6 16 ++ range 21 23));
    ("peak", mkTier 0.25%float (range 16 21)) ].

Definition summary : price_summary :=
  {| off_peak_rate := 0.10%float;
     partial_peak_rate := 0.15%float;
     peak_rate := 0.25%float;
     off_peak_hours := "11 PM - 6 AM";
     partial_peak_hours := "6 AM - 4 PM, 9 PM - 11 PM";
     peak_hours := "4 PM - 9 PM" |}.

(** The first tier whose hour list holds [hour] (the [for ... break] scan),
    with the defaults set before the scan when no tier matches. *)
Definition tier_of (hour : Z) : string * float :=
  match find (fun t => existsb (Z.eqb hour) (tier_hours (snd t)))
          pricing_tiers with
  | Some (tier_name, tier_info) => (tier_name, tier_rate tier_info)
  | None => ("partial_peak", 0.15%float)
  end.

(** The periods as the documentation words them. *)
Definition spec_period (hour : Z) : string :=
  if (hour <=? 5) || (hour =? 23) then "off_peak"
  else if (16 <=? hour) && (hour <=? 20) then "peak"
  else "partial_peak".

(** What the documentation says of one entry of [hourly_rates]. *)
Definition rate_entry_ok (py_round : float -> Z -> float) (e : hourly_rate)
  : Prop :=
  hr_period e = spec_period (hr_hour e)
  /\ hr_demand_charge e =
       (if (16 <=? hr_hour e) && (hr_hour e <=? 20)
        then 0.05%float else 0.0%float)
  /\ hr_total_rate e =
       py_round (PrimFloat.add (hr_rate e) (hr_demand_charge e)) 3.

(** An hourly entry outside the daylight hours 6..20 carries the int 0. *)
Definition solar_ok (e : hourly_entry) : Prop :=
  h_hour e < 6 \/ 20 < h_hour e -> h_solar_irradiance e = PInt 0.

(** The (day, hour) pairs of a forecast over [days] days, in order. *)
Definition day_hour_grid (days : list Z) : list (Z * Z) :=
  flat_map (fun d => map (pair d) (range 0 24)) days.

Section WithBuiltins.

(** [round(x, ndigits)] of the Python runtime. *)
Variable py_round : float -> Z -> float.

(** The [random] module: a generator state and the draws the tools make.
    [random_choices l w] stands for [random.choices(l, weights=w)[0]]. *)
Variable rng : Type.
Variable random_random : rng -> float * rng.
Variable random_uniform : float -> float -> rng -> float * rng.
Variable random_randint : Z -> Z -> rng -> Z * rng.
Variable random_choice : list string -> rng -> string * rng.
Variable random_choices : list string -> list float -> rng -> string * rng.

(** [(datetime.now() + timedelta(days=d)).strftime("%Y-%m-%d")]. *)
Variable strftime_now_plus : Z -> string.

(** Computations that draw random numbers and may raise. *)
Definition rand (A : Type) : Type := rng -> outcome (A * rng).

Definition ret {A} (a : A) : rand A := fun g => Return (a, g).

Definition bind {A B} (c : rand A) (k : A -> rand B) : rand B :=
  fun g =>
    match c g with
    | Return (a, g') => k a g'
    | Raise e => Raise e
    end.

Definition draw {A} (f : rng -> A * rng) : rand A := fun g => Return (f g).

Definition lift {A} (o : outcome A) : rand A :=
  fun g =>
    match o with
    | Return a => Return (a, g)
    | Raise e => Raise e
    end.

Local Notation "x <- c ;; k" := (bind c (fun x => k))
  (at level 61, c at next level, right associativity).

(** [for x in xs: s = body(x, s)]. *)
Fixpoint for_each {A S} (xs : list A) (body : A -> S -> rand S) (s : S)
  : rand S :=
  match xs with
  | [] => ret s
  | x :: xs' => s' <- body x s ;; for_each xs' body s'
  end.

(** [round(v, n)] applied to an int gives the int back. *)
Definition round_num (v : py_num) (ndigits : Z) : py_num :=
  match v with
  | PInt n => PInt n
  | PFloat x => PFloat (py_round x ndigits)
  end.

(** ** [get_weather_forecast] *)

(** [weather_types[k]]. *)
Definition lookup_weather (k : string) : outcome weather_type :=
  match find (fun p => String.eqb (fst p) k) weather_types with
  | Some p => Return (snd p)
  | None => Raise KeyError
  end.

Definition pick_condition : rand string :=
  draw (random_choices weather_keys weather_weights).

(** Body of [for hour in range(24)]. *)
Definition forecast_hour (day : Z) (day_condition : string)
    (hour : Z) (acc : hour_acc) : rand hour_acc :=
  let hour_factor :=
    (1 - float_of_Z (Z.abs (hour - 14)) / 14)%float in
  u <- draw (random_uniform (-2)%float 2%float) ;;
  let base_temp := (12 + u)%float in
  let temp_range := 15%float in
  let temp := (base_temp + temp_range * hour_factor)%float in
  let daily_temps := acc_temps acc ++ [temp] in
  r <- draw random_random ;;
  hourly_condition <-
    (if PrimFloat.ltb r 0.8%float then ret day_condition
     else draw (random_choice weather_keys)) ;;
  sp <-
    (if (6 <=? hour) && (hour <=? 20) then
       let solar_factor :=
         py_max0 (1 - float_of_Z (Z.abs (hour - 13)) / 7)%float in
       wt <- lift (lookup_weather hourly_condition) ;;
       base_irradiance <-
         draw (random_uniform (float_of_Z (fst (irradiance_range wt)))
                              (float_of_Z (snd (irradiance_range wt)))) ;;
       let solar_irradiance :=
         py_round (base_irradiance * to_float solar_factor)%float 1 in
       ret (PFloat solar_irradiance,
            PFloat (to_float (acc_potential acc)
                    + solar_irradiance / 1000)%float)
     else ret (PInt 0, acc_potential acc)) ;;
  humidity <- draw (random_randint 35 85) ;;
  wind <- draw (random_uniform 3%float 20%float) ;;
  ret {| acc_temps := daily_temps;
         acc_potential := snd sp;
         acc_hourly :=
           acc_hourly acc ++
           [ {| h_day := day;
                h_hour := hour;
                h_temperature_c := py_round temp 1;
                h_condition := hourly_condition;
                h_solar_irradiance := fst sp;
                h_humidity := humidity;
                h_wind_speed := py_round wind 1 |} ] |}.

(** Body of [for day in range(days)]. *)
Definition forecast_day (day : Z) (f : forecast) : rand forecast :=
  day_condition <- pick_condition ;;
  acc <- for_each (range 0 24) (forecast_hour day day_condition)
           {| acc_temps := []; acc_potential := PInt 0;
              acc_hourly := fc_hourly f |} ;;
  high <- lift (py_max (acc_temps acc)) ;;
  low <- lift (py_min (acc_temps acc)) ;;
  ret {| fc_location := fc_location f;
         fc_forecast_days := fc_forecast_days f;
         fc_current := fc_current f;
         fc_hourly := acc_hourly acc;
         fc_daily :=
           fc_daily f ++
           [ {| d_day := day;
                d_date := strftime_now_plus day;
                d_condition := day_condition;
                d_high_temp_c := py_round high 1;
                d_low_temp_c := py_round low 1;
                d_solar_generation_potential_kwh :=
                  round_num (acc_potential acc) 2 |} ] |}.

Definition get_weather_forecast (location : string) (days : Z)
  : rand forecast :=
  let days := Z.max 1 (Z.min 7 days) in
  current_condition <- pick_condition ;;
  current_temp <- draw (random_uniform 15%float 28%float) ;;
  current_humidity <- draw (random_randint 40 80) ;;
  current_wind_speed <- draw (random_uniform 5%float 25%float) ;;
  for_each (range 0 days) forecast_day
    {| fc_location := location;
       fc_forecast_days := days;
       fc_current :=
         {| cur_temperature_c := py_round current_temp 1;
            cur_condition := current_condition;
            cur_humidity := current_humidity;
            cur_wind_speed := py_round current_wind_speed 1 |};
       fc_hourly := [];
       fc_daily := [] |}.

(** ** [get_electricity_prices] *)

(** Body of [for hour in range(24)]. *)
Definition price_hour (hour : Z) (p : prices) : rand prices :=
  let period := fst (tier_of hour) in
  let rate := snd (tier_of hour) in
  let demand_charge :=
    if String.eqb period "peak" then 0.05%float else 0.0%float in
  rate_variation <- draw (random_uniform (-0.01)%float 0.01%float) ;;
  let final_rate := py_round (rate + rate_variation)%float 3 in
  ret {| pr_date := pr_date p;
         pr_pricing_type := pr_pricing_type p;
         pr_currency := pr_currency p;
         pr_unit := pr_unit p;
         pr_hourly_rates :=
           pr_hourly_rates p ++
           [ {| hr_hour := hour;
                hr_rate := final_rate;
                hr_period := period;
                hr_demand_charge := demand_charge;
                hr_total_rate :=
                  py_round (final_rate + demand_charge)%float 3 |} ];
         pr_summary := pr_summary p |}.

Definition get_electricity_prices (date : option string) : rand prices :=
  let date :=
    match date with
    | None => strftime_now_plus 0
    | Some d => d
    end in
  for_each (range 0 24) price_hour
    {| pr_date := date;
       pr_pricing_type := "time_of_use";
       pr_currency := "USD";
       pr_unit := "per_kWh";
       pr_hourly_rates := [];
       pr_summary := summary |}.

(** ** [calculate_energy_savings] *)

Definition calculate_energy_savings_locals
    (current_usage_kwh optimized_usage_kwh price_per_kwh : float)
  : outcome savings_locals :=
  let savings_kwh := (current_usage_kwh - optimized_usage_kwh)%float in
  let savings_usd := (savings_kwh * price_per_kwh)%float in
  obind
    (if PrimFloat.ltb 0%float current_usage_kwh
     then obind (float_truediv savings_kwh current_usage_kwh)
            (fun q => Return (PFloat (q * 100)%float))
     else Return (PInt 0))
    (fun savings_percentage =>
       Return (mkLocals savings_kwh savings_usd savings_percentage)).

Definition calculate_energy_savings
    (device_type : string)
    (current_usage_kwh optimized_usage_kwh price_per_kwh : float)
  : outcome savings :=
  obind
    (calculate_energy_savings_locals
       current_usage_kwh optimized_usage_kwh price_per_kwh)
    (fun l =>
       Return {|
         sv_device_type := device_type;
         sv_current_usage_kwh := current_usage_kwh;
         sv_optimized_usage_kwh := optimized_usage_kwh;
         sv_savings_kwh := py_round (loc_savings_kwh l) 2;
         sv_savings_usd := py_round (loc_savings_usd l) 2;
         sv_savings_percentage := round_num (loc_savings_percentage l) 1;
         sv_price_per_kwh := price_per_kwh;
         sv_annual_savings_usd :=
           py_round (loc_savings_usd l * 365)%float 2
       |}).

End WithBuiltins.

Arguments ret {rng A} a.
Arguments bind {rng A B} c k.
Arguments draw {rng A} f.
Arguments lift {rng A} o.
Arguments for_each {rng A S} xs body s.

(** A small deterministic generator, used to run the tools on concrete
    inputs: every draw returns the lower bound or the first item. *)
Definition rng0 : Type := nat.
Definition random0 (g : rng0) : float * rng0 := (0%float, S g).
Definition uniform0 (a b : float) (g : rng0) : float * rng0 := (a, S g).
Definition randint0 (a b : Z) (g : rng0) : Z * rng0 := (a, S g).
Definition choice0 (l : list string) (g : rng0) : string * rng0 :=
  (hd "" l, S g).
Definition choices0 (l : list string) (w : list float) (g : rng0)
  : string * rng0 := (hd "" l, S g).

(** A stand-in for [round] on concrete runs: the identity. *)
Definition round0 (x : float) (ndigits : Z) : float := x.

Definition strftime0 (d : Z) : string := "2024-01-01".

End EcoHome.

(** * course-01: the intent-routing workflow *)

Module Agent.

(** ** Messages and schemas *)

Inductive BaseMessage : Type :=
| HumanMessage (content : string)
| AIMessage (content : string)
| SystemMessage (content : string)
| ToolMessage (name : string) (content : string).

Inductive response_schema : Type :=
| AnswerResponse
| SummarizationResponse
| CalculationResponse.

Record UpdateMemoryResponse : Type := mkMemory {
  summary : string;
  document_ids : list string
}.

(** What the orchestration framework and the language model provide: the
    [UserIntent] schema with its [intent_type] field, the dict a ReAct agent
    returns with its optional "messages" entry, the chat model and tool
    objects, the structured-output calls, the agent invocation and the
    [add_messages] reducer. *)
Class Framework : Type := {
  UserIntent : Type;
  intent_type : UserIntent -> string;
  AgentResult : Type;
  result_messages : AgentResult -> option (list BaseMessage);
  LLM : Type;
  Tool : Type;
  structured_intent : LLM -> string -> UserIntent;
  structured_memory : LLM -> list BaseMessage -> UpdateMemoryResponse;
  react_agent_invoke :
    LLM -> list Tool -> response_schema -> list BaseMessage -> AgentResult;
  add_messages : list BaseMessage -> list BaseMessage -> list BaseMessage
}.

(** ** Prompts ([prompts.py]) *)

Definition format_intent_classification_prompt
    (user_input conversation_history : string) : string :=
  ("You are an intent classifier for a document processing assistant.

Given the user input and conversation history, classify the user's intent into one of these categories:
- qa: Questions about documents or records that do not require calculations.
- summarization: Requests to summarize or extract key points from documents that do not require calculations.
- calculation: Mathematical operations or numerical computations. Or questions about documents that may require calculations
- unknown: Cannot determine the intent clearly

User Input: " ++ user_input ++ "

Recent Conversation History:
" ++ conversation_history ++ "

Analyze the user's request and classify their intent with a confidence score and brief reasoning.
")%string.

Definition QA_SYSTEM_PROMPT : string :=
"You are a helpful document assistant specializing in answering questions about financial and healthcare documents.

Your capabilities:
- Answer specific questions about document content
- Cite sources accurately
- Provide clear, concise answers
- Use available tools to search and read documents

Guidelines:
1. Always search for relevant documents before answering
2. Cite specific document IDs when referencing information
3. If information is not found, say so clearly
4. Be precise with numbers and dates
5. Maintain professional tone

".

Definition SUMMARIZATION_SYSTEM_PROMPT : string :=
"You are an expert document summarizer specializing in financial and healthcare documents.

Your approach:
- Extract key information and main points
- Organize summaries logically
- Highlight important numbers, dates, and parties
- Keep summaries concise but comprehensive

Guidelines:
1. First search for and read the relevant documents
2. Structure summaries with clear sections
3. Include document IDs in your summary
4. Focus on actionable information
".

Definition CALCULATION_SYSTEM_PROMPT : string :=
"You are an expert calculation assistant specializing in financial and healthcare document analysis.

Your approach:
1. First, identify which document(s) need to be retrieved to perform the calculation
2. Use the document reader tool to get the full document content
3. Extract the relevant numerical values from the documents
4. Determine the mathematical expression needed based on the user's request
5. Use the calculator tool to perform ALL calculations, no matter how simple

Guidelines:
1. ALWAYS use the calculator tool for any mathematical operation, even simple ones like addition
2. Be precise with numbers - extract exact values from documents
3. Include clear explanations of what you're calculating and why
4. Show your work step by step
5. Reference document IDs when citing numbers
6. Handle currency values properly (remove $ and commas before calculating)

Examples of operations you can help with:
- Sum of invoice totals
- Average amounts across documents
- Percentage calculations
- Differences between values
- Complex multi-step calculations
".

Definition MEMORY_SUMMARY_PROMPT : string :=
"Summarize the following conversation history into a concise summary:

Focus on:
- Key topics discussed
- Documents referenced
- Important findings or calculations
- Any unresolved questions
".

(** [get_chat_prompt_template(intent_type).invoke({...}).to_messages()]:
    the system prompt, the chat history, then the user input. *)
Definition chat_prompt_messages (intent : string) (input : string)
    (chat_history : list BaseMessage) : list BaseMessage :=
  let system_prompt :=
    if String.eqb intent "qa" then QA_SYSTEM_PROMPT
    else if String.eqb intent "summarization" then SUMMARIZATION_SYSTEM_PROMPT
    else if String.eqb intent "calculation" then CALCULATION_SYSTEM_PROMPT
    else QA_SYSTEM_PROMPT in
  [SystemMessage system_prompt] ++ chat_history ++ [HumanMessage input].

(** [str(v)] of an optional string. *)
Definition str_of (v : option string) : string :=
  match v with
  | Some s => s
  | None => "None"
  end.

(** [l[-n:]]. *)
Definition last_n {A} (n : nat) (l : list A) : list A :=
  skipn (List.length l - n) l.

Section WithFramework.

Context {F : Framework}.

(** ** [AgentState]

    A state is a dict: a key of a plain channel may be absent ([None] here);
    the channels with a reducer ([messages], [actions_taken]) start empty.
    A field declared [Optional] holds an optional value once present. *)
Record AgentState : Type := mkState {
  user_input : option (option string);
  messages : list BaseMessage;
  intent : option UserIntent;
  next_step : option string;
  conversation_summary : option string;
  active_documents : option (list string);
  current_response : option AgentResult;
  tools_used : option (list string);
  session_id : option string;
  user_id : option string;
  actions_taken : list string
}.

(** The partial dict a node returns. *)
Record Update : Type := mkUpdate {
  u_messages : option (list BaseMessage);
  u_actions_taken : option (list string);
  u_intent : option UserIntent;
  u_next_step : option string;
  u_conversation_summary : option string;
  u_active_documents : option (list string);
  u_current_response : option AgentResult;
  u_tools_used : option (list string)
}.

Definition empty_update : Update :=
  mkUpdate None None None None None None None None.

(** [config["configurable"]]. *)
Record RunnableConfig : Type := mkConfig {
  cfg_llm : LLM;
  cfg_tools : list Tool
}.

(** [operator.add] on lists, the reducer of [actions_taken]. *)
Definition operator_add {A} (old new : list A) : list A := old ++ new.

Definition overwrite {A} (old : option A) (new : option A) : option A :=
  match new with
  | Some v => Some v
  | None => old
  end.

Definition reduce {A} (reducer : list A -> list A -> list A)
    (old : list A) (new : option (list A)) : list A :=
  match new with
  | Some v => reducer old v
  | None => old
  end.

(** Merging a node's update into the state, channel by channel. *)
Definition apply_update (s : AgentState) (u : Update) : AgentState :=
  {| user_input := user_input s;
     messages := reduce add_messages (messages s) (u_messages u);
     intent := overwrite (intent s) (u_intent u);
     next_step := overwrite (next_step s) (u_next_step u);
     conversation_summary :=
       overwrite (conversation_summary s) (u_conversation_summary u);
     active_documents := overwrite (active_documents s) (u_active_documents u);
     current_response := overwrite (current_response s) (u_current_response u);
     tools_used := overwrite (tools_used s) (u_tools_used u);
     session_id := session_id s;
     user_id := user_id s;
     actions_taken := reduce operator_add (actions_taken s) (u_actions_taken u)
  |}.

(** [state["user_input"]]. *)
Definition get_user_input (s : AgentState) : outcome (option string) :=
  match user_input s with
  | Some v => Return v
  | None => Raise KeyError
  end.

(** ** Node functions *)

Definition invoke_react_agent (schema : response_schema)
    (msgs : list BaseMessage) (llm : LLM) (tools : list Tool)
  : AgentResult * list string :=
  let result := react_agent_invoke llm tools schema msgs in
  let tools_used :=
    flat_map (fun t => match t with
                       | ToolMessage name _ => [name]
                       | _ => []
                       end)
      (match result_messages result with Some l => l | None => [] end) in
  (result, tools_used).

(** The history lines of the classification prompt. *)
Definition format_history (history : list BaseMessage) : string :=
  match history with
  | [] => "No previous conversation."
  | _ =>
      fold_left
        (fun acc msg =>
           match msg with
           | HumanMessage c => (acc ++ "User: " ++ c ++ "
")%string
           | AIMessage c => (acc ++ "Assistant: " ++ c ++ "
")%string
           | _ => acc
           end)
        (last_n 10 history) ""
  end.

(** The [if / elif / else] on [intent.intent_type]. *)
Definition next_step_of_intent (it : string) : string :=
  if String.eqb it "qa" then "qa_agent"
  else if String.eqb it "summarization" then "summarization_agent"
  else if String.eqb it "calculation" then "calculation_agent"
  else "qa_agent".

Definition classify_intent (s : AgentState) (config : RunnableConfig)
  : outcome Update :=
  let llm := cfg_llm config in
  let history := messages s in
  let conversation_history := format_history history in
  obind (get_user_input s) (fun ui =>
  let prompt :=
    format_intent_classification_prompt (str_of ui) conversation_history in
  let i := structured_intent llm prompt in
  let next := next_step_of_intent (intent_type i) in
  Return {| u_messages := None;
            u_actions_taken := Some ["classify_intent"];
            u_intent := Some i;
            u_next_step := Some next;
            u_conversation_summary := None;
            u_active_documents := None;
            u_current_response := None;
            u_tools_used := None |}).

(** The three agent nodes differ by prompt, schema and name only. *)
Definition agent_node (name prompt_intent : string) (schema : response_schema)
    (s : AgentState) (config : RunnableConfig) : outcome Update :=
  let llm := cfg_llm config in
  let tools := cfg_tools config in
  obind (get_user_input s) (fun ui =>
  let msgs := chat_prompt_messages prompt_intent (str_of ui) (messages s) in
  let rt := invoke_react_agent schema msgs llm tools in
  Return {| u_messages :=
              Some (match result_messages (fst rt) with
                    | Some l => l
                    | None => []
                    end);
            u_actions_taken := Some [name];
            u_intent := None;
            u_next_step := Some "update_memory";
            u_conversation_summary := None;
            u_active_documents := None;
            u_current_response := Some (fst rt);
            u_tools_used := Some (snd rt) |}).

Definition qa_agent : AgentState -> RunnableConfig -> outcome Update :=
  agent_node "qa_agent" "qa" AnswerResponse.

Definition summarization_agent
  : AgentState -> RunnableConfig -> outcome Update :=
  agent_node "summarization_agent" "summarization" SummarizationResponse.

Definition calculation_agent
  : AgentState -> RunnableConfig -> outcome Update :=
  agent_node "calculation_agent" "calculation" CalculationResponse.

Definition update_memory (s : AgentState) (config : RunnableConfig)
  : outcome Update :=
  let llm := cfg_llm config in
  let prompt_with_history :=
    [SystemMessage MEMORY_SUMMARY_PROMPT] ++ messages s in
  let response := structured_memory llm prompt_with_history in
  Return {| u_messages := None;
            u_actions_taken := Some ["update_memory"];
            u_intent := None;
            u_next_step := Some "end";
            u_conversation_summary := Some (summary response);
            u_active_documents := Some (document_ids response);
            u_current_response := None;
            u_tools_used := None |}.

(** [state.get("next_step", "end")]. *)
Definition should_continue (s : AgentState) : string :=
  match next_step s with
  | Some v => v
  | None => "end"
  end.

(** ** The graph and its construction *)

Inductive target : Type :=
| Node (name : string)
| END.

(** The checkpointer the workflows are given, [MemorySaver()]. *)
Inductive checkpointer : Type :=
| MemorySaver.

Definition node_fn : Type := AgentState -> RunnableConfig -> outcome Update.

Record StateGraph : Type := mkGraph {
  g_nodes : list (string * node_fn);
  g_entry_point : option string;
  g_conditional_edges :
    list (string * ((AgentState -> string) * list (string * target)));
  g_edges : list (string * target)
}.

Record CompiledGraph : Type := mkCompiled {
  cg_graph : StateGraph;
  cg_checkpointer : option checkpointer
}.

Definition new_graph : StateGraph := mkGraph [] None [] [].

Definition add_node (name : string) (f : node_fn) (g : StateGraph)
  : StateGraph :=
  mkGraph (g_nodes g ++ [(name, f)]) (g_entry_point g)
    (g_conditional_edges g) (g_edges g).

Definition set_entry_point (name : string) (g : StateGraph) : StateGraph :=
  mkGraph (g_nodes g) (Some name) (g_conditional_edges g) (g_edges g).

Definition add_conditional_edges (source : string)
    (path : AgentState -> string) (path_map : list (string * target))
    (g : StateGraph) : StateGraph :=
  mkGraph (g_nodes g) (g_entry_point g)
    (g_conditional_edges g ++ [(source, (path, path_map))]) (g_edges g).

Definition add_edge (source : string) (t : target) (g : StateGraph)
  : StateGraph :=
  mkGraph (g_nodes g) (g_entry_point g) (g_conditional_edges g)
    (g_edges g ++ [(source, t)]).

Definition compile (c : option checkpointer) (g : StateGraph)
  : CompiledGraph := mkCompiled g c.

(** The mapping handed to [add_conditional_edges]. *)
Definition intent_path_map : list (string * target) :=
  [ ("qa_agent", Node "qa_agent");
    ("summarization_agent", Node "summarization_agent");
    ("calculation_agent", Node "calculation_agent");
    ("end", END) ].

Definition create_workflow (llm : LLM) (tools : list Tool) : CompiledGraph :=
  let workflow := new_graph in
  let workflow := add_node "classify_intent" classify_intent workflow in
  let workflow := add_node "qa_agent" qa_agent workflow in
  let workflow := add_node "summarization_agent" summarization_agent workflow in
  let workflow := add_node "calculation_agent" calculation_agent workflow in
  let workflow := add_node "update_memory" update_memory workflow in
  let workflow := set_entry_point "classify_intent" workflow in
  let workflow :=
    add_conditional_edges "classify_intent" should_continue intent_path_map
      workflow in
  let workflow := add_edge "qa_agent" (Node "update_memory") workflow in
  let workflow :=
    add_edge "summarization_agent" (Node "update_memory") workflow in
  let workflow := add_edge "calculation_agent" (Node "update_memory") workflow in
  let workflow := add_edge "update_memory" END workflow in
  let checkpointer := MemorySaver in
  compile (Some checkpointer) workflow.

(** ** Running a compiled graph

    One node runs at a time here: its update is merged into the state, then
    the conditional edge of the node (its router's answer looked up in the
    path map), else its plain edge, names the successor.  The run stops at
    [END] and gives the final state with the nodes run, in order. *)

Definition lookup {A} (k : string) (l : list (string * A)) : option A :=
  option_map snd (find (fun p => String.eqb (fst p) k) l).

Definition route (g : StateGraph) (cur : string) (s : AgentState)
  : outcome target :=
  match lookup cur (g_conditional_edges g) with
  | Some (path, path_map) =>
      match lookup (path s) path_map with
      | Some t => Return t
      | None => Raise KeyError
      end
  | None =>
      match lookup cur (g_edges g) with
      | Some t => Return t
      | None => Return END
      end
  end.

Fixpoint run_from (fuel : nat) (g : StateGraph) (config : RunnableConfig)
    (cur : string) (s : AgentState) : outcome (AgentState * list string) :=
  match fuel with
  | O => Raise RecursionError
  | S fuel' =>
      match lookup cur (g_nodes g) with
      | None => Raise KeyError
      | Some f =>
          obind (f s config) (fun u =>
          let s' := apply_update s u in
          obind (route g cur s') (fun t =>
          match t with
          | END => Return (s', [cur])
          | Node nxt =>
              obind (run_from fuel' g config nxt s') (fun r =>
              Return (fst r, cur :: snd r))
          end))
      end
  end.

(** [graph.invoke(state, config)] with the default recursion limit. *)
Definition invoke (cg : CompiledGraph) (config : RunnableConfig)
    (s : AgentState) : outcome (AgentState * list string) :=
  match g_entry_point (cg_graph cg) with
  | Some entry => run_from 25 (cg_graph cg) config entry s
  | None => Raise ValueError
  end.

End WithFramework.

(** A small framework instance for concrete runs: the intent is the prompt's
    verdict given as a string, agents answer with one tool message. *)
Definition toy_framework : Framework :=
  {| UserIntent := string;
     intent_type := fun i => i;
     AgentResult := list BaseMessage;
     result_messages := fun r => Some r;
     LLM := string;
     Tool := string;
     structured_intent := fun llm _ => llm;
     structured_memory := fun _ _ => mkMemory "summary" ["doc-1"];
     react_agent_invoke :=
       fun _ _ _ msgs => msgs ++ [ToolMessage "calculator" "4"; AIMessage "4"];
     add_messages := fun old new => old ++ new |}.

Definition toy_state : @AgentState toy_framework :=
  @mkState toy_framework (Some (Some "What is 2 + 2?")) [] None None None
    None None None (Some "s1") (Some "u1") [].

Definition toy_config : @RunnableConfig toy_framework :=
  @mkConfig toy_framework "calculation" ["calculator"].

End Agent.

(** * course-03: CultPass support tools *)

Module CultPass.

(** ** Values returned to the agent *)

(** A JSON-like Python value; a dict keeps its insertion order. *)
Inductive pyval : Type :=
| VNone
| VBool (b : bool)
| VInt (n : Z)
| VStr (s : string)
| VList (l : list pyval)
| VDict (d : list (string * pyval)).

Definition pydict : Type := list (string * pyval).

(** [d.get(k)]. *)
Definition dict_get (k : string) (d : pydict) : option pyval :=
  option_map snd (find (fun p => String.eqb (fst p) k) d).

Definition opt_str (o : option string) : pyval :=
  match o with
  | Some v => VStr v
  | None => VNone
  end.

(** Truth value of an optional string: [None] and [''] are false. *)
Definition truthy (o : option string) : bool :=
  match o with
  | Some v => negb (String.eqb v "")
  | None => false
  end.

(** [needle in hay] on strings. *)
Fixpoint contains (needle hay : string) : bool :=
  if prefix needle hay then true
  else match hay with
       | EmptyString => false
       | String _ rest => contains needle rest
       end.

(** A stable insertion sort: [before x y] tells that [x] may stay ahead of
    a later-or-equal [y]; items that compare equal keep their order, as with
    [list.sort]. *)
Fixpoint insert_sorted {A} (before : A -> A -> bool) (x : A) (l : list A)
  : list A :=
  match l with
  | [] => [x]
  | y :: l' =>
      if before x y then x :: l else y :: insert_sorted before x l'
  end.

Definition stable_sort {A} (before : A -> A -> bool) (l : list A) : list A :=
  fold_right (insert_sorted before) [] l.

(** The first item satisfying [p] replaced by its image under [f]. *)
Fixpoint update_first {A} (p : A -> bool) (f : A -> A) (l : list A)
  : list A :=
  match l with
  | [] => []
  | x :: l' => if p x then f x :: l' else x :: update_first p f l'
  end.

(** ** The two schemas

    A [datetime] is a point on the time line; the rows carry the columns the
    tools read. *)

Definition datetime : Type := Z.

(** A member of an [enum.Enum] class, as a loaded row holds it in a column
    of that type: its name and its [value]. *)
Record EnumMember : Type := mkEnumMember {
  enum_name : string;
  value : string
}.

Module cultpass.

Record User : Type := mkUser {
  user_id : string;
  full_name : string;
  email : string;
  is_blocked : bool;
  created_at : option datetime
}.

Record Subscription : Type := mkSubscription {
  subscription_id : string;
  sub_user_id : string;
  status : string;
  tier : string;
  monthly_quota : Z;
  started_at : option datetime;
  ended_at : option datetime
}.

Record Reservation : Type := mkReservation {
  reservation_id : string;
  res_user_id : string;
  res_experience_id : string;
  res_status : string;
  res_created_at : option datetime
}.

Record Experience : Type := mkExperience {
  experience_id : string;
  title : string;
  description : string;
  location : option string;
  when : option datetime;
  slots_available : Z;
  is_premium : bool
}.

Record db : Type := mkDb {
  users : list User;
  subscriptions : list Subscription;
  reservations : list Reservation;
  experiences : list Experience
}.

End cultpass.

Module udahub.

Record Knowledge : Type := mkKnowledge {
  article_id : string;
  account_id : string;
  title : option string;
  content : option string;
  tags : option string
}.

Record Ticket : Type := mkTicket {
  ticket_id : string;
  user_id : string;
  channel : string;
  created_at : option datetime
}.

Record TicketMetadata : Type := mkTicketMetadata {
  md_ticket_id : string;
  status : string;
  main_issue_type : option string;
  md_tags : option string
}.

Record TicketMessage : Type := mkTicketMessage {
  message_id : string;
  msg_ticket_id : string;
  role : option EnumMember;
  msg_content : string;
  msg_created_at : option datetime
}.

Record User : Type := mkUser {
  u_user_id : string;
  user_name : string;
  external_user_id : string
}.

Record db : Type := mkDb {
  knowledge : list Knowledge;
  tickets : list Ticket;
  ticket_metadata : list TicketMetadata;
  ticket_messages : list TicketMessage;
  users : list User
}.

Definition set_ticket_metadata (l : list TicketMetadata) (d : db) : db :=
  mkDb (knowledge d) (tickets d) l (ticket_messages d) (users d).

Definition set_ticket_messages (l : list TicketMessage) (d : db) : db :=
  mkDb (knowledge d) (tickets d) (ticket_metadata d) l (users d).

End udahub.

(** ** The world the tools run in *)

(** What a session does, with the URL of the engine it is bound to. *)
Inductive event : Type :=
| Opened (url : string)
| Executed (url : string)
| Committed (url : string)
| RolledBack (url : string)
| Closed (url : string).

Definition event_url (e : event) : string :=
  match e with
  | Opened u | Executed u | Committed u | RolledBack u | Closed u => u
  end.

(** The two database files, the clock, the failures still to come (one flag
    per round trip to a database: [true] makes it raise) and the log of
    session events. *)
Record world : Type := mkWorld {
  w_cultpass : cultpass.db;
  w_udahub : udahub.db;
  w_now : datetime;
  w_uuid_seed : nat;
  w_faults : list bool;
  w_log : list event
}.

(** A session: its engine URL and, once rows were changed or added, the
    uncommitted content of the udahub file as the session sees it. *)
Record session : Type := mkSession {
  s_url : string;
  s_dirty : option udahub.db
}.

(** Computations on the world that may raise. *)
Definition db (A : Type) : Type := world -> outcome A * world.

Definition ret {A} (a : A) : db A := fun w => (Return a, w).

Definition raise {A} (e : exn) : db A := fun w => (Raise e, w).

Definition bind {A B} (c : db A) (k : A -> db B) : db B :=
  fun w =>
    match c w with
    | (Return a, w') => k a w'
    | (Raise e, w') => (Raise e, w')
    end.

Notation "x <- c ;; k" := (bind c (fun x => k))
  (at level 61, c at next level, right associativity).
Notation "c ;;; k" := (bind c (fun _ => k))
  (at level 61, right associativity).

(** [try: c finally: fin]. *)
Definition try_finally {A} (c : db A) (fin : db unit) : db A :=
  fun w =>
    match c w with
    | (r, w') =>
        match fin w' with
        | (Return _, w'') => (r, w'')
        | (Raise e, w'') => (Raise e, w'')
        end
    end.

(** [try: c except Exception as e: handler(e)]. *)
Definition try_except {A} (c : db A) (handler : exn -> db A) : db A :=
  fun w =>
    match c w with
    | (Return a, w') => (Return a, w')
    | (Raise e, w') => handler e w'
    end.

Definition log (e : event) : db unit :=
  fun w =>
    (Return tt,
     mkWorld (w_cultpass w) (w_udahub w) (w_now w) (w_uuid_seed w)
       (w_faults w) (w_log w ++ [e])).

(** One round trip to the database behind [url]: it raises when the next
    failure flag says so. *)
Definition round_trip (url : string) : db unit :=
  fun w =>
    let w' :=
      mkWorld (w_cultpass w) (w_udahub w) (w_now w) (w_uuid_seed w)
        (tl (w_faults w)) (w_log w ++ [Executed url]) in
    if hd false (w_faults w) then (Raise OperationalError, w')
    else (Return tt, w').

Definition now : db datetime := fun w => (Return (w_now w), w).

Definition CULTPASS_DB : string := "data/external/cultpass.db".
Definition UDAHUB_DB : string := "data/core/udahub.db".

Definition sqlite_url (path : string) : string :=
  ("sqlite:///" ++ path)%string.

(** [sessionmaker(bind=create_engine(url))()]. *)
Definition open_session (url : string) : db session :=
  log (Opened url) ;;; ret (mkSession url None).

(** The rows a query of a cultpass model sees through the session. *)
Definition query_cultpass (s : session) : db cultpass.db :=
  round_trip (s_url s) ;;;
  if String.eqb (s_url s) (sqlite_url CULTPASS_DB)
  then (fun w => (Return (w_cultpass w), w))
  else raise OperationalError.

(** The rows a query of a udahub model sees through the session: its own
    uncommitted changes first. *)
Definition query_udahub (s : session) : db udahub.db :=
  round_trip (s_url s) ;;;
  if String.eqb (s_url s) (sqlite_url UDAHUB_DB)
  then match s_dirty s with
       | Some d => ret d
       | None => (fun w => (Return (w_udahub w), w))
       end
  else raise OperationalError.

(** [session.commit()]: the pending content replaces the file at once, or
    the commit raises and the file is as before. *)
Definition commit (s : session) : db unit :=
  round_trip (s_url s) ;;;
  log (Committed (s_url s)) ;;;
  match s_dirty s with
  | Some d =>
      fun w =>
        (Return tt,
         mkWorld (w_cultpass w) d (w_now w) (w_uuid_seed w) (w_faults w)
           (w_log w))
  | None => ret tt
  end.

(** [session.commit()] also expires every row the session holds (the
    default of [sessionmaker], [expire_on_commit]): the next read of an
    attribute of such a row loads the row again from the committed file, in a
    round trip of its own. *)
Definition refresh (s : session) : db udahub.db :=
  query_udahub (mkSession (s_url s) None).

Definition rollback (s : session) : db unit := log (RolledBack (s_url s)).

Definition close (s : session) : db unit := log (Closed (s_url s)).

(** What the Python runtime and the ORM provide to the tools:
    [datetime.isoformat], [str.lower], [str.split], the SQL [ILIKE] match of
    a pattern against a column value, [str(uuid.uuid4())] for the n-th
    identifier drawn, [str(e)] of an exception, and the [created_at] a new
    message row gets at the given time.

    The declaration of the models (data/models/udahub.py) is not among the
    sources, and with it the enum class of the [role] column: which member
    of it a string given for the column designates, if any, and the truth
    value of a member (every member of a plain [Enum] is true, one of an
    enum mixed with [str] is true when its value is not empty) are taken
    from the runtime. *)
Class Runtime : Type := {
  isoformat : datetime -> string;
  str_lower : string -> string;
  str_split : string -> list string;
  sql_ilike : string -> option string -> bool;
  uuid4 : nat -> string;
  str_exn : exn -> string;
  default_created_at : datetime -> option datetime;
  role_member : string -> option EnumMember;
  member_truthy : EnumMember -> bool
}.

Definition opt_iso {R : Runtime} (o : option datetime) : pyval :=
  match o with
  | Some t => VStr (isoformat t)
  | None => VNone
  end.

(** [for x in l: results.append(f(x))] with effects. *)
Fixpoint mapM {A B} (f : A -> db B) (l : list A) : db (list B) :=
  match l with
  | [] => ret []
  | x :: l' => y <- f x ;; ys <- mapM f l' ;; ret (y :: ys)
  end.

(** Ascending order on nullable timestamps, NULL first. *)
Definition opt_le (a b : option datetime) : bool :=
  match a, b with
  | None, _ => true
  | Some _, None => false
  | Some x, Some y => x <=? y
  end.

(** ** [knowledge_tools.py] *)

Module knowledge_tools.

Definition UDAHUB_DB : string := "data/core/udahub.db".

Definition get_db_session : db session := open_session (sqlite_url UDAHUB_DB).

(** An entry of [results]: the article and its [relevance_score]. *)
Record scored : Type := mkScored {
  sc_article : udahub.Knowledge;
  sc_score : Z
}.

Definition result_dict (r : scored) : pydict :=
  [ ("article_id", VStr (udahub.article_id (sc_article r)));
    ("title", opt_str (udahub.title (sc_article r)));
    ("content", opt_str (udahub.content (sc_article r)));
    ("tags", opt_str (udahub.tags (sc_article r)));
    ("relevance_score", VInt (sc_score r)) ].

(** The score as the documentation words it: per term, 3 for the title,
    2 for the tags, 1 for the content. *)
Definition spec_term_points (title_lower tags_lower content_lower term : string)
  : Z :=
  (if contains term title_lower then 3 else 0)
  + (if contains term tags_lower then 2 else 0)
  + (if contains term content_lower then 1 else 0).

Definition spec_score (title_lower tags_lower content_lower : string)
    (terms : list string) : Z :=
  fold_right Z.add 0
    (map (spec_term_points title_lower tags_lower content_lower) terms).

Section WithRuntime.

Context {R : Runtime}.

(** [v.lower() if v else ""]. *)
Definition lower_or_empty (o : option string) : string :=
  match o with
  | Some v => if String.eqb v "" then "" else str_lower v
  | None => ""
  end.

(** One turn of [for term in query_lower.split()]. *)
Definition term_score (title_lower content_lower tags_lower : string)
    (score : Z) (term : string) : Z :=
  let score := if contains term title_lower then score + 3 else score in
  let score := if contains term content_lower then score + 1 else score in
  let score := if contains term tags_lower then score + 2 else score in
  score.

Definition article_score (query_lower : string) (article : udahub.Knowledge)
  : Z :=
  let title_lower := lower_or_empty (udahub.title article) in
  let content_lower := lower_or_empty (udahub.content article) in
  let tags_lower := lower_or_empty (udahub.tags article) in
  fold_left (term_score title_lower content_lower tags_lower)
    (str_split query_lower) 0.

(** [results] when the loop over the articles ends. *)
Definition score_articles (query_lower : string)
    (articles : list udahub.Knowledge) : list scored :=
  flat_map
    (fun article =>
       let score := article_score query_lower article in
       if 0 <? score then [mkScored article score] else [])
    articles.

(** [results.sort(key=..., reverse=True)] then [results[:5]]. *)
Definition top_results (results : list scored) : list scored :=
  firstn 5
    (stable_sort (fun x y => sc_score y <=? sc_score x) results).

Definition search_knowledge_base (query account_id : string) : db pyval :=
  s <- get_db_session ;;
  try_finally
    (let query_lower := str_lower query in
     d <- query_udahub s ;;
     let articles :=
       filter (fun a => String.eqb (udahub.account_id a) account_id)
         (udahub.knowledge d) in
     let results := score_articles query_lower articles in
     ret (VList (map (fun r => VDict (result_dict r)) (top_results results))))
    (close s).

Definition article_dict (article : udahub.Knowledge) : pydict :=
  [ ("article_id", VStr (udahub.article_id article));
    ("title", opt_str (udahub.title article));
    ("content", opt_str (udahub.content article));
    ("tags", opt_str (udahub.tags article)) ].

Definition get_article_by_id (article_id : string) : db pyval :=
  s <- get_db_session ;;
  try_finally
    (d <- query_udahub s ;;
     match find (fun a => String.eqb (udahub.article_id a) article_id)
             (udahub.knowledge d) with
     | Some article => ret (VDict (article_dict article))
     | None =>
         ret (VDict [("error",
                      VStr ("Article with ID " ++ article_id
                            ++ " not found")%string)])
     end)
    (close s).

End WithRuntime.

End knowledge_tools.

(** ** [user_tools.py] *)

Module user_tools.

Definition CULTPASS_DB : string := "data/external/cultpass.db".

Definition get_db_session : db session :=
  open_session (sqlite_url CULTPASS_DB).

Section WithRuntime.

Context {R : Runtime}.

Definition user_dict (user : cultpass.User) : pydict :=
  [ ("user_id", VStr (cultpass.user_id user));
    ("full_name", VStr (cultpass.full_name user));
    ("email", VStr (cultpass.email user));
    ("is_blocked", VBool (cultpass.is_blocked user));
    ("created_at", opt_iso (cultpass.created_at user)) ].

Definition get_user_info (user_email : string) : db pyval :=
  s <- get_db_session ;;
  try_finally
    (d <- query_cultpass s ;;
     match find (fun u => String.eqb (cultpass.email u) user_email)
             (cultpass.users d) with
     | Some user => ret (VDict (user_dict user))
     | None =>
         ret (VDict [("error",
                      VStr ("User with email " ++ user_email
                            ++ " not found")%string)])
     end)
    (close s).

Definition get_user_subscription (user_id : string) : db pyval :=
  s <- get_db_session ;;
  try_finally
    (d <- query_cultpass s ;;
     match find (fun x => String.eqb (cultpass.sub_user_id x) user_id)
             (cultpass.subscriptions d) with
     | Some subscription =>
         ret (VDict
           [ ("subscription_id", VStr (cultpass.subscription_id subscription));
             ("user_id", VStr (cultpass.sub_user_id subscription));
             ("status", VStr (cultpass.status subscription));
             ("tier", VStr (cultpass.tier subscription));
             ("monthly_quota", VInt (cultpass.monthly_quota subscription));
             ("started_at", opt_iso (cultpass.started_at subscription));
             ("ended_at", opt_iso (cultpass.ended_at subscription)) ])
     | None =>
         ret (VDict [("error",
                      VStr ("No subscription found for user "
                            ++ user_id)%string)])
     end)
    (close s).

Definition reservation_dict (res : cultpass.Reservation)
    (experience : option cultpass.Experience) : pydict :=
  [ ("reservation_id", VStr (cultpass.reservation_id res));
    ("experience_id", VStr (cultpass.res_experience_id res));
    ("experience_title",
     VStr (match experience with
           | Some e => cultpass.title e
           | None => "Unknown"
           end));
    ("experience_location",
     match experience with
     | Some e => opt_str (cultpass.location e)
     | None => VStr "Unknown"
     end);
    ("experience_when",
     match experience with
     | Some e => opt_iso (cultpass.when e)
     | None => VNone
     end);
    ("status", VStr (cultpass.res_status res));
    ("created_at", opt_iso (cultpass.res_created_at res)) ].

Definition get_user_reservations (user_id : string) : db pyval :=
  s <- get_db_session ;;
  try_finally
    (d <- query_cultpass s ;;
     let reservations :=
       filter (fun r => String.eqb (cultpass.res_user_id r) user_id)
         (cultpass.reservations d) in
     results <-
       mapM (fun res =>
               d' <- query_cultpass s ;;
               let experience :=
                 find (fun e => String.eqb (cultpass.experience_id e)
                                  (cultpass.res_experience_id res))
                   (cultpass.experiences d') in
               ret (VDict (reservation_dict res experience)))
         reservations ;;
     match results with
     | [] =>
         ret (VList [VDict [("message",
                             VStr "No reservations found for this user")]])
     | _ => ret (VList results)
     end)
    (close s).

End WithRuntime.

End user_tools.

(** ** [experience_tools.py] *)

Module experience_tools.

Definition CULTPASS_DB : string := "data/external/cultpass.db".

Definition get_db_session : db session :=
  open_session (sqlite_url CULTPASS_DB).

Section WithRuntime.

Context {R : Runtime}.

Definition experience_dict (exp : cultpass.Experience) : pydict :=
  [ ("experience_id", VStr (cultpass.experience_id exp));
    ("title", VStr (cultpass.title exp));
    ("description", VStr (cultpass.description exp));
    ("location", opt_str (cultpass.location exp));
    ("when", opt_iso (cultpass.when exp));
    ("slots_available", VInt (cultpass.slots_available exp));
    ("is_premium", VBool (cultpass.is_premium exp)) ].

(** [when >= t]; a NULL [when] never qualifies. *)
Definition not_before (t : datetime) (exp : cultpass.Experience) : bool :=
  match cultpass.when exp with
  | Some w => t <=? w
  | None => false
  end.

Definition get_available_experiences (location : option string)
    (is_premium : option bool) : db pyval :=
  s <- get_db_session ;;
  try_finally
    (t <- now ;;
     d <- query_cultpass s ;;
     let query := cultpass.experiences d in
     let query := filter (not_before t) query in
     let query :=
       if truthy location then
         filter (fun e =>
                   sql_ilike ("%" ++ match location with
                                     | Some l => l
                                     | None => ""
                                     end ++ "%")%string
                     (cultpass.location e))
           query
       else query in
     let query :=
       match is_premium with
       | Some b => filter (fun e => Bool.eqb (cultpass.is_premium e) b) query
       | None => query
       end in
     let query := filter (fun e => 0 <? cultpass.slots_available e) query in
     let experiences :=
       stable_sort (fun x y => opt_le (cultpass.when x) (cultpass.when y))
         query in
     match map (fun e => VDict (experience_dict e)) experiences with
     | [] =>
         ret (VList [VDict [("message",
                             VStr "No experiences found matching your criteria")]])
     | results => ret (VList results)
     end)
    (close s).

Definition get_experience_details (experience_id : string) : db pyval :=
  s <- get_db_session ;;
  try_finally
    (d <- query_cultpass s ;;
     match find (fun e => String.eqb (cultpass.experience_id e) experience_id)
             (cultpass.experiences d) with
     | Some experience =>
         t <- now ;;
         ret (VDict
                (experience_dict experience ++
                 [("is_upcoming", VBool (not_before t experience))]))
     | None =>
         ret (VDict [("error",
                      VStr ("Experience with ID " ++ experience_id
                            ++ " not found")%string)])
     end)
    (close s).

End WithRuntime.

End experience_tools.

(** ** [ticket_tools.py] *)

Module ticket_tools.

Definition UDAHUB_DB : string := "data/core/udahub.db".

Definition get_db_session : db session := open_session (sqlite_url UDAHUB_DB).

Section WithRuntime.

Context {R : Runtime}.

(** [msg.role.value if msg.role else None]. *)
Definition role_value (role : option EnumMember) : pyval :=
  match role with
  | Some member => if member_truthy member then VStr (value member) else VNone
  | None => VNone
  end.

Definition message_dict (msg : udahub.TicketMessage) : pydict :=
  [ ("role", role_value (udahub.role msg));
    ("content", VStr (udahub.msg_content msg));
    ("created_at", opt_iso (udahub.msg_created_at msg)) ].

Definition get_ticket_info (ticket_id : string) : db pyval :=
  s <- get_db_session ;;
  try_finally
    (d <- query_udahub s ;;
     match find (fun t => String.eqb (udahub.ticket_id t) ticket_id)
             (udahub.tickets d) with
     | None =>
         ret (VDict [("error",
                      VStr ("Ticket with ID " ++ ticket_id
                            ++ " not found")%string)])
     | Some ticket =>
         d1 <- query_udahub s ;;
         let metadata :=
           find (fun m => String.eqb (udahub.md_ticket_id m) ticket_id)
             (udahub.ticket_metadata d1) in
         d2 <- query_udahub s ;;
         let messages :=
           stable_sort
             (fun x y =>
                opt_le (udahub.msg_created_at x) (udahub.msg_created_at y))
             (filter (fun m => String.eqb (udahub.msg_ticket_id m) ticket_id)
                (udahub.ticket_messages d2)) in
         d3 <- query_udahub s ;;
         let user :=
           find (fun u => String.eqb (udahub.u_user_id u)
                            (udahub.user_id ticket))
             (udahub.users d3) in
         ret (VDict
           [ ("ticket_id", VStr (udahub.ticket_id ticket));
             ("channel", VStr (udahub.channel ticket));
             ("created_at", opt_iso (udahub.created_at ticket));
             ("user",
              VDict
                [ ("user_id", opt_str (option_map udahub.u_user_id user));
                  ("user_name", opt_str (option_map udahub.user_name user));
                  ("external_user_id",
                   opt_str (option_map udahub.external_user_id user)) ]);
             ("metadata",
              VDict
                [ ("status", opt_str (option_map udahub.status metadata));
                  ("main_issue_type",
                   match metadata with
                   | Some m => opt_str (udahub.main_issue_type m)
                   | None => VNone
                   end);
                  ("tags",
                   match metadata with
                   | Some m => opt_str (udahub.md_tags m)
                   | None => VNone
                   end) ]);
             ("messages",
              VList (map (fun m => VDict (message_dict m)) messages)) ])
     end)
    (close s).

(** The row after [metadata.status = status] and, for a truthy
    [issue_type], [metadata.main_issue_type = issue_type]. *)
Definition updated_metadata (status : string) (issue_type : option string)
    (metadata : udahub.TicketMetadata) : udahub.TicketMetadata :=
  let metadata :=
    udahub.mkTicketMetadata (udahub.md_ticket_id metadata) status
      (udahub.main_issue_type metadata) (udahub.md_tags metadata) in
  if truthy issue_type then
    udahub.mkTicketMetadata (udahub.md_ticket_id metadata)
      (udahub.status metadata) issue_type (udahub.md_tags metadata)
  else metadata.

(** The reply is built after the commit: [issue_type or
    metadata.main_issue_type] reads the row again when [issue_type] is
    [None] or empty. *)
Definition update_ticket_status (ticket_id status : string)
    (issue_type : option string) : db pyval :=
  s <- get_db_session ;;
  try_finally
    (try_except
       (d <- query_udahub s ;;
        let matches :=
          fun m => String.eqb (udahub.md_ticket_id m) ticket_id in
        match find matches (udahub.ticket_metadata d) with
        | None =>
            ret (VDict [("error",
                         VStr ("Ticket metadata for " ++ ticket_id
                               ++ " not found")%string)])
        | Some metadata =>
            let s' :=
              mkSession (s_url s)
                (Some (udahub.set_ticket_metadata
                         (update_first matches
                            (updated_metadata status issue_type)
                            (udahub.ticket_metadata d))
                         d)) in
            commit s' ;;;
            issue <-
              (if truthy issue_type then ret (opt_str issue_type)
               else
                 d' <- refresh s ;;
                 match find matches (udahub.ticket_metadata d') with
                 | Some metadata =>
                     ret (opt_str (udahub.main_issue_type metadata))
                 | None => raise ObjectDeletedError
                 end) ;;
            ret (VDict
              [ ("success", VBool true);
                ("ticket_id", VStr ticket_id);
                ("new_status", VStr status);
                ("issue_type", issue) ])
        end)
       (fun e =>
          rollback s ;;;
          ret (VDict [("error",
                       VStr ("Failed to update ticket: "
                             ++ str_exn e)%string)])))
    (close s).

Definition fresh_uuid : db string :=
  fun w =>
    (Return (uuid4 (w_uuid_seed w)),
     mkWorld (w_cultpass w) (w_udahub w) (w_now w) (S (w_uuid_seed w))
       (w_faults w) (w_log w)).

(** The flush that opens the commit turns the string given for [role] into
    the member of the column's enum, and fails on a string that designates
    none; the reply is built after the commit and reads the new row again
    for its [message_id]. *)
Definition add_ticket_message (ticket_id content role : string) : db pyval :=
  s <- get_db_session ;;
  try_finally
    (try_except
       (d <- query_udahub s ;;
        match find (fun t => String.eqb (udahub.ticket_id t) ticket_id)
                (udahub.tickets d) with
        | None =>
            ret (VDict [("error",
                         VStr ("Ticket with ID " ++ ticket_id
                               ++ " not found")%string)])
        | Some ticket =>
            id <- fresh_uuid ;;
            t <- now ;;
            match role_member role with
            | None => raise StatementError
            | Some member =>
                let message :=
                  udahub.mkTicketMessage id ticket_id (Some member) content
                    (default_created_at t) in
                let s' :=
                  mkSession (s_url s)
                    (Some (udahub.set_ticket_messages
                             (udahub.ticket_messages d ++ [message]) d)) in
                commit s' ;;;
                d' <- refresh s ;;
                match find (fun m => String.eqb (udahub.message_id m) id)
                        (udahub.ticket_messages d') with
                | Some message =>
                    ret (VDict
                      [ ("success", VBool true);
                        ("message_id", VStr (udahub.message_id message));
                        ("ticket_id", VStr ticket_id) ])
                | None => raise ObjectDeletedError
                end
            end
        end)
       (fun e =>
          rollback s ;;;
          ret (VDict [("error",
                       VStr ("Failed to add message: "
                             ++ str_exn e)%string)])))
    (close s).

End WithRuntime.

End ticket_tools.

(** ** [workflow.py] *)

Module workflow.

Definition ORCHESTRATOR_PROMPT : string :=
"You are the CultPass Customer Support AI Assistant.

## About CultPass
CultPass is a premium cultural experience subscription service in Brazil. Members get access to museums, concerts, art exhibitions, and unique cultural events across the country.

## Your Capabilities
You have access to several tools to help customers:

1. **Knowledge Base Search** (`search_knowledge_base`): Find help articles and FAQs
2. **User Information** (`get_user_info`): Look up customer accounts by email
3. **Subscription Details** (`get_user_subscription`): Check subscription status and tier
4. **Reservations** (`get_user_reservations`): View customer bookings
5. **Experiences** (`get_available_experiences`, `get_experience_details`): Browse events
6. **Ticket Management** (`get_ticket_info`, `update_ticket_status`): Handle support tickets

## Guidelines

### For General Questions
- Search the knowledge base first for policy and how-to questions
- Use the suggested phrasing from articles when available

### For Account Issues
- Ask for the customer's email to look up their account
- Check their subscription status and tier
- Review their reservations if relevant
- Note if their account is blocked and explain next steps

### For Experience Inquiries
- Help users find experiences matching their interests
- Explain the difference between basic and premium experiences
- Show available slots and dates

### For Technical Issues
- Guide users through common troubleshooting steps
- Escalate persistent issues to human support

### Subscription Tiers
- **Basic**: 4 experiences/month, standard access
- **Premium**: 8 experiences/month, priority booking, exclusive events

### Escalation
Offer to connect with human support when:
- User requests a refund
- Account is blocked due to policy violations
- Issue cannot be resolved with available tools
- User explicitly asks for human help

## Response Style
- Be friendly, helpful, and empathetic
- Keep responses concise but complete
- Provide actionable next steps
- Use emojis sparingly for friendliness 🎭

Remember: Your goal is to help CultPass members get the most out of their cultural experiences!
".

(** The tools of the third module, by name. *)
Inductive tool : Type :=
| search_knowledge_base
| get_article_by_id
| get_user_info
| get_user_subscription
| get_user_reservations
| get_available_experiences
| get_experience_details
| get_ticket_info
| update_ticket_status
| add_ticket_message.

(** The source file a tool is defined in. *)
Inductive tool_module : Type :=
| knowledge_tools_py
| user_tools_py
| experience_tools_py
| ticket_tools_py.

Definition module_of (t : tool) : tool_module :=
  match t with
  | search_knowledge_base | get_article_by_id => knowledge_tools_py
  | get_user_info | get_user_subscription | get_user_reservations =>
      user_tools_py
  | get_available_experiences | get_experience_details => experience_tools_py
  | get_ticket_info | update_ticket_status | add_ticket_message =>
      ticket_tools_py
  end.

Definition ALL_TOOLS : list tool :=
  [ search_knowledge_base;
    get_article_by_id;
    get_user_info;
    get_user_subscription;
    get_user_reservations;
    get_available_experiences;
    get_experience_details;
    get_ticket_info;
    update_ticket_status;
    add_ticket_message ].

(** A tool invocation with its arguments. *)
Inductive tool_call : Type :=
| SearchKnowledgeBase (query account_id : string)
| GetArticleById (article_id : string)
| GetUserInfo (user_email : string)
| GetUserSubscription (user_id : string)
| GetUserReservations (user_id : string)
| GetAvailableExperiences (location : option string)
    (is_premium : option bool)
| GetExperienceDetails (experience_id : string)
| GetTicketInfo (ticket_id : string)
| UpdateTicketStatus (ticket_id status : string) (issue_type : option string)
| AddTicketMessage (ticket_id content role : string).

Definition tool_of (c : tool_call) : tool :=
  match c with
  | SearchKnowledgeBase _ _ => search_knowledge_base
  | GetArticleById _ => get_article_by_id
  | GetUserInfo _ => get_user_info
  | GetUserSubscription _ => get_user_subscription
  | GetUserReservations _ => get_user_reservations
  | GetAvailableExperiences _ _ => get_available_experiences
  | GetExperienceDetails _ => get_experience_details
  | GetTicketInfo _ => get_ticket_info
  | UpdateTicketStatus _ _ _ => update_ticket_status
  | AddTicketMessage _ _ _ => add_ticket_message
  end.

(** Running a tool the agent selected. *)
Definition invoke_tool {R : Runtime} (c : tool_call) : db pyval :=
  match c with
  | SearchKnowledgeBase q a => knowledge_tools.search_knowledge_base q a
  | GetArticleById a => knowledge_tools.get_article_by_id a
  | GetUserInfo e => user_tools.get_user_info e
  | GetUserSubscription u => user_tools.get_user_subscription u
  | GetUserReservations u => user_tools.get_user_reservations u
  | GetAvailableExperiences l p =>
      experience_tools.get_available_experiences l p
  | GetExperienceDetails e => experience_tools.get_experience_details e
  | GetTicketInfo t => ticket_tools.get_ticket_info t
  | UpdateTicketStatus t st it => ticket_tools.update_ticket_status t st it
  | AddTicketMessage t c r => ticket_tools.add_ticket_message t c r
  end.

(** The engine URL the documentation assigns to each source file. *)
Definition spec_url (m : tool_module) : string :=
  match m with
  | user_tools_py | experience_tools_py =>
      "sqlite:///data/external/cultpass.db"
  | knowledge_tools_py | ticket_tools_py => "sqlite:///data/core/udahub.db"
  end.

Record ChatOpenAI : Type := mkChatOpenAI {
  model_name : string;
  temperature : Z
}.

(** The keyword arguments of [create_react_agent]. *)
Record ReactAgent : Type := mkReactAgent {
  name : string;
  model : ChatOpenAI;
  checkpointer : option Agent.checkpointer;
  tools : list tool;
  prompt : Agent.BaseMessage
}.

Definition create_react_agent (name : string) (model : ChatOpenAI)
    (checkpointer : option Agent.checkpointer) (tools : list tool)
    (prompt : Agent.BaseMessage) : ReactAgent :=
  mkReactAgent name model checkpointer tools prompt.

Definition orchestrator : ReactAgent :=
  create_react_agent "cultpass_support"
    (mkChatOpenAI "gpt-4o-mini" 0)
    (Some Agent.MemorySaver)
    ALL_TOOLS
    (Agent.SystemMessage ORCHESTRATOR_PROMPT).

End workflow.

(** ** Session discipline *)

(** An event of an already opened session bound to [url]. *)
Definition session_event (url : string) (e : event) : Prop :=
  match e with
  | Opened _ => False
  | Executed u | Committed u | RolledBack u | Closed u => u = url
  end.

(** A computation that only adds, to the log, events of a session bound to
    [url]. *)
Definition logs_only {A} (url : string) (c : db A) : Prop :=
  forall w,
    exists evs,
      w_log (snd (c w)) = w_log w ++ evs /\ Forall (session_event url) evs.

(** ** A small world for concrete runs *)

Definition toy_split_space (s : string) : list string :=
  let fix go (cur : string) (s : string) : list string :=
    match s with
    | EmptyString =>
        if String.eqb cur "" then [] else [cur]
    | String c rest =>
        if Ascii.eqb c " "%char
        then (if String.eqb cur "" then go "" rest else cur :: go "" rest)
        else go (cur ++ String c EmptyString)%string rest
    end in
  go "" s.

Definition toy_runtime : Runtime :=
  {| isoformat := fun _ => "2024-01-01T00:00:00";
     str_lower := fun x => x;
     str_split := toy_split_space;
     sql_ilike := fun _ _ => true;
     uuid4 := fun _ => "00000000-0000-4000-8000-000000000000";
     str_exn := fun _ => "database is locked";
     default_created_at := fun t => Some t;
     role_member :=
       fun s =>
         if existsb (String.eqb s) ["user"; "agent"; "ai"; "system"]
         then Some (mkEnumMember s s)
         else None;
     member_truthy := fun _ => true |}.

Definition toy_world : world :=
  {| w_cultpass :=
       cultpass.mkDb
         [cultpass.mkUser "u1" "Ana Lima" "ana@example.com" false (Some 10)]
         [cultpass.mkSubscription "s1" "u1" "active" "premium" 8 (Some 10)
            None]
         [cultpass.mkReservation "r1" "u1" "e1" "reserved" (Some 20)]
         [cultpass.mkExperience "e1" "Samba night" "Live music"
            (Some "Rio de Janeiro") (Some 100) 5 true];
     w_udahub :=
       udahub.mkDb
         [ udahub.mkKnowledge "a1" "cultpass" (Some "login help")
             (Some "reset your password to login") (Some "login, password");
           udahub.mkKnowledge "a2" "cultpass" (Some "refund policy")
             (Some "how to ask for a refund") (Some "billing") ]
         [udahub.mkTicket "t1" "u1" "chat" (Some 30)]
         [udahub.mkTicketMetadata "t1" "open" (Some "login") None]
         [udahub.mkTicketMessage "m1" "t1" (Some (mkEnumMember "user" "user"))
            "I cannot login" (Some 31)]
         [udahub.mkUser "u1" "Ana" "ext-1"];
     w_now := 50;
     w_uuid_seed := 0;
     w_faults := [];
     w_log := [] |}.

End CultPass.

(** * course-03: the specialised agents ([agents/]) *)

Module SupportAgents.
Import CultPass.
Import workflow.

Definition SUPPORT_AGENT_PROMPT : string :=
"You are the CultPass Customer Support AI Assistant.

CultPass is a cultural experience subscription service that gives members access to museums, concerts, art exhibitions, and other cultural events in Brazil.

## Your Responsibilities:
1. **General Inquiries**: Answer questions about how CultPass works, subscriptions, and experiences
2. **Account Support**: Help users with account-related questions using their email to look up info
3. **Knowledge Base**: Search for relevant help articles to provide accurate information
4. **Experience Discovery**: Help users find and learn about available cultural experiences
5. **Issue Resolution**: Help resolve common issues and escalate when necessary

## Guidelines:
- Be friendly, professional, and empathetic
- Always search the knowledge base for relevant articles before answering policy questions
- When users ask about their account, ask for their email to look up their information
- For blocked accounts or complex issues, offer to escalate to human support
- Provide clear, actionable steps whenever possible
- Use the suggested phrasing from knowledge articles when available

## Subscription Tiers:
- **Basic**: 4 experiences per month, standard access
- **Premium**: 8 experiences per month, priority booking, exclusive events

## Common Issue Types:
- Login/access issues
- Subscription management (upgrade, downgrade, cancel, pause)
- Reservation questions (booking, canceling, availability)
- Payment and billing inquiries
- App technical issues

## Escalation Criteria:
- Payment refund requests
- Account security concerns
- Repeated technical issues
- User explicitly requests human support
- Blocked accounts due to policy violations

Remember: Always be helpful and look for ways to resolve the user's issue!
".

Definition KNOWLEDGE_AGENT_PROMPT : string :=
"You are a Knowledge Base Specialist for CultPass, a cultural experience subscription service.

Your role is to:
1. Search the knowledge base for relevant articles when users have questions
2. Provide accurate information based on official documentation
3. Use the suggested phrasing from articles when available
4. Be clear about what is and isn't covered in the knowledge base

Guidelines:
- Always search the knowledge base first before answering questions
- Quote relevant sections from articles when helpful
- If no relevant articles are found, say so clearly
- Be friendly and professional in your responses

Remember: You're helping users understand how CultPass works, not handling their specific account issues.
".

Definition ACCOUNT_AGENT_PROMPT : string :=
"You are an Account Specialist for CultPass, a cultural experience subscription service.

Your role is to:
1. Look up user account information when needed
2. Check subscription status and tier details
3. View and explain user reservations
4. Help users find available experiences
5. Explain account-related issues clearly

Guidelines:
- Always verify user email before sharing account details
- Be clear about subscription tiers (Basic vs Premium)
- Explain what actions the user can take in the app
- If a user's account is blocked, be empathetic and explain next steps
- Never share sensitive information without proper verification

When checking accounts:
1. First get user info by email
2. Then check subscription if needed
3. Look up reservations if the query is about bookings

For experience inquiries:
- Show available experiences that match user's preferences
- Note if an experience is premium and user's tier
- Mention slots available and dates
".

Definition create_support_agent (model_id : string) : ReactAgent :=
  let llm := mkChatOpenAI model_id 0 in
  let all_tools :=
    [ search_knowledge_base;
      get_user_info;
      get_user_subscription;
      get_user_reservations;
      get_available_experiences;
      get_experience_details;
      get_ticket_info;
      update_ticket_status ] in
  create_react_agent "support_agent" llm None all_tools
    (Agent.SystemMessage SUPPORT_AGENT_PROMPT).

Definition create_knowledge_agent (model_id : string) : ReactAgent :=
  let llm := mkChatOpenAI model_id 0 in
  create_react_agent "knowledge_agent" llm None
    [search_knowledge_base; get_article_by_id]
    (Agent.SystemMessage KNOWLEDGE_AGENT_PROMPT).

Definition create_account_agent (model_id : string) : ReactAgent :=
  let llm := mkChatOpenAI model_id 0 in
  create_react_agent "account_agent" llm None
    [ get_user_info;
      get_user_subscription;
      get_user_reservations;
      get_available_experiences;
      get_experience_details ]
    (Agent.SystemMessage ACCOUNT_AGENT_PROMPT).

End SupportAgents.

(** * course-03: what a tool run does to the world *)

Module CultPassSpec.
Import CultPass.

(** A relation between the world before and the world after that a
    computation keeps, whatever it returns or raises. *)
Definition preserves {A} (Inv : world -> world -> Prop) (c : db A) : Prop :=
  forall w, Inv w (snd (c w)).

(** Both database files hold what they held. *)
Definition same_data (w w' : world) : Prop :=
  w_cultpass w' = w_cultpass w /\ w_udahub w' = w_udahub w.

(** The log grew by events satisfying [P] only. *)
Definition logged (P : event -> Prop) (w w' : world) : Prop :=
  exists evs, w_log w' = w_log w ++ evs /\ Forall P evs.

(** A round trip, commit or rollback of the session bound to [url]. *)
Definition work_event (url : string) (e : event) : Prop :=
  match e with
  | Executed u | Committed u | RolledBack u => u = url
  | Opened _ | Closed _ => False
  end.

(** The tools that write to a database. *)
Definition is_writer (t : workflow.tool) : bool :=
  match t with
  | workflow.update_ticket_status | workflow.add_ticket_message => true
  | _ => false
  end.

(** The number of round trips in a log. *)
Definition round_trips (l : list event) : nat :=
  List.length
    (filter (fun e => match e with Executed _ => true | _ => false end) l).

End CultPassSpec.

(** * course-02: the tools backed by the energy database *)

Module EnergyData.

(** A JSON-like value with Python numbers. *)
Inductive jval : Type :=
| JNone
| JNum (n : py_num)
| JStr (s : string)
| JList (l : list jval)
| JDict (d : list (string * jval)).

Definition jdict_get (k : string) (d : list (string * jval)) : option jval :=
  option_map snd (find (fun p => String.eqb (fst p) k) d).

Definition jopt_str (o : option string) : jval :=
  match o with
  | Some v => JStr v
  | None => JNone
  end.

Definition jopt_float (o : option float) : jval :=
  match o with
  | Some v => JNum (PFloat v)
  | None => JNone
  end.

(** The rows of the two tables, with the columns the tools read; a
    [timestamp] is a point on the time line, a [date] the day number of a
    midnight. *)
Definition timestamp : Type := Z.
Definition date : Type := Z.

Record usage_record : Type := mkUsage {
  u_timestamp : timestamp;
  consumption_kwh : float;
  device_type : option string;
  device_name : option string;
  cost_usd : option float
}.

Record generation_record : Type := mkGeneration {
  g_timestamp : timestamp;
  generation_kwh : float;
  weather_condition : option string;
  temperature_c : option float;
  solar_irradiance : option float
}.

(** The value of a device in [device_breakdown]. *)
Record device_data : Type := mkDeviceData {
  dd_consumption_kwh : py_num;
  dd_cost_usd : py_num;
  dd_records : Z
}.

(** [a + b] on Python numbers. *)
Definition num_add (a b : py_num) : py_num :=
  match a, b with
  | PInt x, PInt y => PInt (x + y)
  | _, _ => PFloat (to_float a + to_float b)%float
  end.

(** [sum(l)]: the additions start from the int 0. *)
Definition py_sum (l : list py_num) : py_num := fold_left num_add l (PInt 0).

(** [x or 0] for an optional float: [None] and zero give the int 0. *)
Definition or_zero (o : option float) : py_num :=
  match o with
  | Some x => if PrimFloat.eqb x 0%float then PInt 0 else PFloat x
  | None => PInt 0
  end.

(** [a / n] for an int [n]. *)
Definition num_truediv (a : py_num) (n : Z) : outcome float :=
  if n =? 0 then Raise ZeroDivisionError
  else Return (to_float a / float_of_Z n)%float.

Definition str_truthy (o : option string) : bool :=
  match o with
  | Some v => negb (String.eqb v "")
  | None => false
  end.

(** [r.device_type == device_type]. *)
Definition same_device (device_type : option string) (r : usage_record)
  : bool :=
  match EnergyData.device_type r, device_type with
  | Some a, Some b => String.eqb a b
  | None, None => true
  | _, _ => false
  end.

(** [record.device_type or "unknown"]. *)
Definition device_key (r : usage_record) : string :=
  match EnergyData.device_type r with
  | Some d => if String.eqb d "" then "unknown" else d
  | None => "unknown"
  end.

(** [breakdown[device]] updated in place by [f]. *)
Fixpoint update_device (device : string) (f : device_data -> device_data)
    (breakdown : list (string * device_data)) : list (string * device_data) :=
  match breakdown with
  | [] => []
  | (k, v) :: rest =>
      if String.eqb k device then (k, f v) :: rest
      else (k, v) :: update_device device f rest
  end.

(** One turn of the loop that fills [device_breakdown]. *)
Definition add_usage (breakdown : list (string * device_data))
    (record : usage_record) : list (string * device_data) :=
  let device := device_key record in
  let breakdown :=
    if existsb (fun p => String.eqb (fst p) device) breakdown then breakdown
    else breakdown ++ [(device, mkDeviceData (PInt 0) (PInt 0) 0)] in
  update_device device
    (fun d =>
       mkDeviceData
         (num_add (dd_consumption_kwh d) (PFloat (consumption_kwh record)))
         (num_add (dd_cost_usd d) (or_zero (cost_usd record)))
         (dd_records d + 1))
    breakdown.

Definition device_breakdown (usage_records : list usage_record)
  : list (string * device_data) :=
  fold_left add_usage usage_records [].

Section WithRuntime.

(** [round], [datetime.strptime(s, "%Y-%m-%d")], [datetime.isoformat],
    [str(e)], and the four queries of the database manager. *)
Variable py_round : float -> Z -> float.
Variable strptime : string -> outcome date.
Variable isoformat : timestamp -> string.
Variable str_exn : exn -> string.
Variable get_usage_by_date_range : date -> date -> outcome (list usage_record).
Variable get_generation_by_date_range :
  date -> date -> outcome (list generation_record).
Variable get_recent_usage : Z -> outcome (list usage_record).
Variable get_recent_generation : Z -> outcome (list generation_record).

Definition round_num (v : py_num) (ndigits : Z) : py_num :=
  match v with
  | PInt n => PInt n
  | PFloat x => PFloat (py_round x ndigits)
  end.

Definition usage_record_dict (record : usage_record) : jval :=
  JDict
    [ ("timestamp", JStr (isoformat (u_timestamp record)));
      ("consumption_kwh", JNum (PFloat (consumption_kwh record)));
      ("device_type", jopt_str (device_type record));
      ("device_name", jopt_str (device_name record));
      ("cost_usd", jopt_float (cost_usd record)) ].

(** The [try] block of [query_energy_usage]. *)
Definition query_energy_usage_try (start_date end_date : string)
    (device_type : option string) : outcome jval :=
  obind (strptime start_date) (fun start_dt =>
  obind (strptime end_date) (fun end_parsed =>
  let end_dt := end_parsed + 1 in
  obind (get_usage_by_date_range start_dt end_dt) (fun records =>
  let records :=
    if str_truthy device_type
    then filter (same_device device_type) records
    else records in
  Return
    (JDict
       [ ("start_date", JStr start_date);
         ("end_date", JStr end_date);
         ("device_type", jopt_str device_type);
         ("total_records", JNum (PInt (Z.of_nat (List.length records))));
         ("total_consumption_kwh",
          JNum (round_num
                  (py_sum (map (fun r => PFloat (consumption_kwh r)) records))
                  2));
         ("total_cost_usd",
          JNum (round_num
                  (py_sum (map (fun r => or_zero (cost_usd r)) records)) 2));
         ("records", JList (map usage_record_dict records)) ])))).

Definition query_energy_usage (start_date end_date : string)
    (device_type : option string) : jval :=
  match query_energy_usage_try start_date end_date device_type with
  | Return usage_data => usage_data
  | Raise e =>
      JDict [("error",
              JStr ("Failed to query energy usage: " ++ str_exn e)%string)]
  end.

Definition generation_record_dict (record : generation_record) : jval :=
  JDict
    [ ("timestamp", JStr (isoformat (g_timestamp record)));
      ("generation_kwh", JNum (PFloat (generation_kwh record)));
      ("weather_condition", jopt_str (weather_condition record));
      ("temperature_c", jopt_float (temperature_c record));
      ("solar_irradiance", jopt_float (solar_irradiance record)) ].

(** The [try] block of [query_solar_generation]. *)
Definition query_solar_generation_try (start_date end_date : string)
  : outcome jval :=
  obind (strptime start_date) (fun start_dt =>
  obind (strptime end_date) (fun end_parsed =>
  let end_dt := end_parsed + 1 in
  obind (get_generation_by_date_range start_dt end_dt) (fun records =>
  let total := py_sum (map (fun r => PFloat (generation_kwh r)) records) in
  obind (num_truediv total (Z.max 1 (end_dt - start_dt))) (fun average =>
  Return
    (JDict
       [ ("start_date", JStr start_date);
         ("end_date", JStr end_date);
         ("total_records", JNum (PInt (Z.of_nat (List.length records))));
         ("total_generation_kwh", JNum (round_num total 2));
         ("average_daily_generation", JNum (PFloat (py_round average 2)));
         ("records", JList (map generation_record_dict records)) ]))))).

Definition query_solar_generation (start_date end_date : string) : jval :=
  match query_solar_generation_try start_date end_date with
  | Return generation_data => generation_data
  | Raise e =>
      JDict [("error",
              JStr ("Failed to query solar generation: "
                    ++ str_exn e)%string)]
  end.

Definition device_data_dict (d : device_data) : jval :=
  JDict
    [ ("consumption_kwh", JNum (round_num (dd_consumption_kwh d) 2));
      ("cost_usd", JNum (round_num (dd_cost_usd d) 2));
      ("records", JNum (PInt (dd_records d))) ].

(** The [try] block of [get_recent_energy_summary]. *)
Definition get_recent_energy_summary_try (hours : Z) : outcome jval :=
  obind (get_recent_usage hours) (fun usage_records =>
  obind (get_recent_generation hours) (fun generation_records =>
  Return
    (JDict
       [ ("time_period_hours", JNum (PInt hours));
         ("usage",
          JDict
            [ ("total_consumption_kwh",
               JNum (round_num
                       (py_sum (map (fun r => PFloat (consumption_kwh r))
                                  usage_records))
                       2));
              ("total_cost_usd",
               JNum (round_num
                       (py_sum (map (fun r => or_zero (cost_usd r))
                                  usage_records))
                       2));
              ("device_breakdown",
               JDict (map (fun p => (fst p, device_data_dict (snd p)))
                        (device_breakdown usage_records))) ]);
         ("generation",
          JDict
            [ ("total_generation_kwh",
               JNum (round_num
                       (py_sum (map (fun r => PFloat (generation_kwh r))
                                  generation_records))
                       2));
              ("average_weather",
               JStr (match generation_records with
                     | [] => "unknown"
                     | _ => "sunny"
                     end)) ]) ]))).

Definition get_recent_energy_summary (hours : Z) : jval :=
  match get_recent_energy_summary_try hours with
  | Return summary => summary
  | Raise e =>
      JDict [("error",
              JStr ("Failed to get recent energy summary: "
                    ++ str_exn e)%string)]
  end.

End WithRuntime.

(** A small database for concrete runs: dates are read as numbers of one
    digit, the usage table holds three rows. *)
Definition toy_strptime (s : string) : outcome date :=
  match s with
  | String c EmptyString =>
      let n := Z.of_nat (nat_of_ascii c) - 48 in
      if (0 <=? n) && (n <=? 9) then Return n else Raise ValueError
  | _ => Raise ValueError
  end.

Definition toy_usage : list usage_record :=
  [ mkUsage 10 1.5%float (Some "EV") (Some "car") (Some 0.5%float);
    mkUsage 11 0.5%float None None None;
    mkUsage 12 2.5%float (Some "EV") (Some "car") None ].

Definition toy_generation : list generation_record :=
  [ mkGeneration 10 3.5%float (Some "sunny") None None ].

End EnergyData.

Module EnergySpec.
Import EnergyData.

(** The number of usage records filed under a device. *)
Definition usage_count (device : string) (l : list usage_record) : Z :=
  Z.of_nat
    (List.length (filter (fun r => String.eqb (device_key r) device) l)).

(** What the loop over the usage records keeps true of the breakdown. *)
Definition breakdown_ok (l : list usage_record)
    (breakdown : list (string * device_data)) : Prop :=
  NoDup (map fst breakdown)
  /\ (forall k, In k (map fst breakdown)
                <-> exists r, In r l /\ device_key r = k)
  /\ (forall k v, In (k, v) breakdown -> dd_records v = usage_count k l).

(** The base rate the summary of [get_electricity_prices] gives a period. *)
Definition summary_rate (period : string) : float :=
  if String.eqb period "off_peak" then
    EcoHome.off_peak_rate EcoHome.summary
  else if String.eqb period "peak" then EcoHome.peak_rate EcoHome.summary
  else EcoHome.partial_peak_rate EcoHome.summary.

End EnergySpec.

(** * Facts about course-02 *)

Module EcoHomeFacts.
Import EcoHome.

(** A float strictly above zero is not a zero divisor. *)
Lemma ltb_zero_not_eqb (x : float) :
  PrimFloat.ltb 0%float x = true -> PrimFloat.eqb x 0%float = false.
Proof.
  rewrite ltb_spec, eqb_spec.
  change (Prim2SF 0%float) with (S754_zero false).
  destruct (Prim2SF x) as [s | s | | s m e]; simpl; try discriminate;
    destruct s; simpl; auto; discriminate.
Qed.

Lemma truediv_guarded (x y : float) :
  PrimFloat.ltb 0%float y = true ->
  float_truediv x y = Return (PrimFloat.div x y).
Proof.
  intros H. unfold float_truediv. now rewrite (ltb_zero_not_eqb _ H).
Qed.

(** ** Loops *)

Section Loops.

Context {rng A S : Type}.
Variable body : A -> S -> rand rng S.
Variable I : list A -> S -> Prop.

(** Loop rule: an invariant indexed by the items already processed, kept by
    every iteration, holds of the whole list when the loop ends; and the
    loop returns when every iteration does. *)
Lemma for_each_invariant (xs : list A) :
  (forall pre x s g,
      I pre s ->
      exists s' g', body x s g = Return (s', g') /\ I (pre ++ [x]) s') ->
  forall pre s g,
    I pre s ->
    exists s' g', for_each xs body s g = Return (s', g') /\ I (pre ++ xs) s'.
Proof.
  intros Hstep. induction xs as [| x xs IH]; intros pre s g Hpre.
  - exists s, g. rewrite app_nil_r. now split.
  - destruct (Hstep pre x s g Hpre) as (s1 & g1 & Hrun & Hinv).
    destruct (IH (pre ++ [x]) s1 g1 Hinv) as (s2 & g2 & Hrun2 & Hinv2).
    exists s2, g2. split.
    + simpl. unfold bind. now rewrite Hrun.
    + now rewrite <- app_assoc in Hinv2.
Qed.

End Loops.

Lemma range_length (lo hi : Z) : List.length (range lo hi) = Z.to_nat (hi - lo).
Proof. unfold range. now rewrite length_map, length_seq. Qed.

(** ** [get_electricity_prices] *)

(** The tier scan agrees with the documented periods on every hour of the
    day. *)
Lemma tier_of_spec_period (hour : Z) :
  In hour (range 0 24) -> fst (tier_of hour) = spec_period hour.
Proof.
  intros Hin. vm_compute in Hin.
  repeat (destruct Hin as [<- | Hin]; [reflexivity |]). destruct Hin.
Qed.

(** The period found by the scan is "peak" exactly on hours 16..20. *)
Lemma tier_of_peak (hour : Z) :
  In hour (range 0 24) ->
  String.eqb (fst (tier_of hour)) "peak" = (16 <=? hour) && (hour <=? 20).
Proof.
  intros Hin. vm_compute in Hin.
  repeat (destruct Hin as [<- | Hin]; [reflexivity |]). destruct Hin.
Qed.

Section Prices.

Variable py_round : float -> Z -> float.
Variable rng : Type.
Variable random_uniform : float -> float -> rng -> float * rng.
Variable strftime_now_plus : Z -> string.

Lemma price_hour_spec (hour : Z) (p : prices) (g : rng) :
  exists e g',
    price_hour py_round rng random_uniform hour p g
    = Return ({| pr_date := pr_date p;
                 pr_pricing_type := pr_pricing_type p;
                 pr_currency := pr_currency p;
                 pr_unit := pr_unit p;
                 pr_hourly_rates := pr_hourly_rates p ++ [e];
                 pr_summary := pr_summary p |}, g')
    /\ hr_hour e = hour
    /\ hr_period e = fst (tier_of hour)
    /\ hr_demand_charge e =
         (if String.eqb (hr_period e) "peak" then 0.05%float else 0.0%float)
    /\ hr_total_rate e =
         py_round (PrimFloat.add (hr_rate e) (hr_demand_charge e)) 3.
Proof.
  unfold price_hour, bind, draw, ret.
  destruct (random_uniform _ _ g) as [v g'].
  eexists _, g'. split; [reflexivity |]. simpl. auto.
Qed.

Lemma price_loop_spec (hours : list Z) (p : prices) (g : rng) :
  pr_hourly_rates p = [] ->
  exists p' g',
    for_each hours (price_hour py_round rng random_uniform) p g
    = Return (p', g')
    /\ pr_date p' = pr_date p
    /\ map hr_hour (pr_hourly_rates p') = hours
    /\ Forall (fun e =>
                 hr_period e = fst (tier_of (hr_hour e))
                 /\ hr_demand_charge e =
                      (if String.eqb (hr_period e) "peak"
                       then 0.05%float else 0.0%float)
                 /\ hr_total_rate e =
                      py_round
                        (PrimFloat.add (hr_rate e) (hr_demand_charge e)) 3)
         (pr_hourly_rates p').
Proof.
  intros Hnil.
  pose (Inv := fun (pre : list Z) (q : prices) =>
    pr_date q = pr_date p
    /\ map hr_hour (pr_hourly_rates q) = pre
    /\ Forall (fun e =>
                 hr_period e = fst (tier_of (hr_hour e))
                 /\ hr_demand_charge e =
                      (if String.eqb (hr_period e) "peak"
                       then 0.05%float else 0.0%float)
                 /\ hr_total_rate e =
                      py_round
                        (PrimFloat.add (hr_rate e) (hr_demand_charge e)) 3)
         (pr_hourly_rates q)).
  destruct (for_each_invariant
              (price_hour py_round rng random_uniform) Inv hours)
    with (pre := @nil Z) (s := p) (g := g) as (p' & g' & Hrun & Hinv).
  - intros pre x q g0 (Hd & Hm & Hall).
    destruct (price_hour_spec x q g0) as (e & g1 & Hrun & Hh & Hp & Hc & Ht).
    eexists _, g1. split; [exact Hrun |]. unfold Inv. simpl.
    repeat split.
    + exact Hd.
    + now rewrite map_app, Hm, <- Hh.
    + apply Forall_app. split; [exact Hall |].
      constructor; [| constructor]. rewrite Hh at 1. auto.
  - unfold Inv. rewrite Hnil. repeat split; constructor.
  - exists p', g'. destruct Hinv as (Hd & Hm & Hall). now repeat split.
Qed.

End Prices.

(** ** [get_weather_forecast] *)

Lemma lookup_weather_in (k : string) :
  In k weather_keys -> exists wt, lookup_weather k = Return wt.
Proof.
  intros Hin. vm_compute in Hin.
  repeat (destruct Hin as [<- | Hin]; [eexists; reflexivity |]).
  destruct Hin.
Qed.

Lemma weather_keys_nonempty : weather_keys <> [].
Proof. discriminate. Qed.

Section Forecast.

Variable py_round : float -> Z -> float.
Variable rng : Type.
Variable random_random : rng -> float * rng.
Variable random_uniform : float -> float -> rng -> float * rng.
Variable random_randint : Z -> Z -> rng -> Z * rng.
Variable random_choice : list string -> rng -> string * rng.
Variable random_choices : list string -> list float -> rng -> string * rng.
Variable strftime_now_plus : Z -> string.

(** The contract of [random.choice] and [random.choices]: the drawn item
    belongs to the population. *)
Hypothesis random_choice_in :
  forall l g, l <> [] -> In (fst (random_choice l g)) l.
Hypothesis random_choices_in :
  forall l w g, l <> [] -> In (fst (random_choices l w g)) l.

Local Abbreviation forecast_hour_ :=
  (forecast_hour py_round rng random_random random_uniform random_randint
     random_choice).
Local Abbreviation forecast_day_ :=
  (forecast_day py_round rng random_random random_uniform random_randint
     random_choice random_choices strftime_now_plus).

(** The end of one hourly iteration, once the condition [c] is drawn. *)
Ltac destruct_draws :=
  repeat (cbv beta iota;
          match goal with
          | |- context [let (_, _) := ?d in _] => destruct d
          end).

Ltac forecast_hour_tail c Hc :=
  match goal with
  | |- context [(6 <=? ?hour) && (?hour <=? 20)] =>
      let Hlight := fresh "Hlight" in
      destruct ((6 <=? hour) && (hour <=? 20)) eqn:Hlight;
      [ let wt := fresh "wt" in
        destruct (lookup_weather_in c Hc) as (wt & ->)
      | ];
      destruct_draws;
      do 4 eexists; (split; [reflexivity |]);
      cbn [h_day h_hour h_solar_irradiance fst snd];
      (split; [reflexivity |]); (split; [reflexivity |]);
      unfold solar_ok; cbn [h_hour h_solar_irradiance fst snd];
      intros Hout; try reflexivity;
      apply andb_true_iff in Hlight; destruct Hlight as [H6 H20];
      apply Z.leb_le in H6, H20; lia
  end.

Lemma forecast_hour_spec (day : Z) (day_condition : string) (hour : Z)
    (acc : hour_acc) (g : rng) :
  In day_condition weather_keys ->
  exists e t pot g',
    forecast_hour_ day day_condition hour acc g
    = Return ({| acc_temps := acc_temps acc ++ [t];
                 acc_potential := pot;
                 acc_hourly := acc_hourly acc ++ [e] |}, g')
    /\ h_day e = day /\ h_hour e = hour /\ solar_ok e.
Proof.
  intros Hday. unfold forecast_hour, bind, draw, ret, lift.
  destruct (random_uniform _ _ g) as [u g1].
  destruct (random_random g1) as [r g2].
  destruct (PrimFloat.ltb r 0.8%float).
  - forecast_hour_tail day_condition Hday.
  - pose proof (random_choice_in weather_keys g2 weather_keys_nonempty) as Hc.
    destruct (random_choice weather_keys g2) as [c g3]. simpl in Hc.
    forecast_hour_tail c Hc.
Qed.

Lemma forecast_hours_spec (day : Z) (day_condition : string)
    (hours : list Z) (acc : hour_acc) (g : rng) :
  In day_condition weather_keys ->
  exists es ts pot g',
    for_each hours (forecast_hour_ day day_condition) acc g
    = Return ({| acc_temps := acc_temps acc ++ ts;
                 acc_potential := pot;
                 acc_hourly := acc_hourly acc ++ es |}, g')
    /\ List.length ts = List.length hours
    /\ map (fun e => (h_day e, h_hour e)) es = map (pair day) hours
    /\ Forall solar_ok es.
Proof.
  intros Hday. revert acc g.
  induction hours as [| hour hours IH]; intros acc g.
  - exists [], [], (acc_potential acc), g. simpl. unfold ret.
    rewrite !app_nil_r. destruct acc. repeat split. constructor.
  - destruct (forecast_hour_spec day day_condition hour acc g Hday)
      as (e & t & pot & g1 & Hrun & Hd & Hh & Hs).
    match type of Hrun with _ = Return (?a, _) =>
      destruct (IH a g1) as (es & ts & pot' & g2 & Hrun2 & Hlen & Hmap & Hall)
    end.
    exists (e :: es), (t :: ts), pot', g2. simpl in *. unfold bind.
    rewrite Hrun, Hrun2. rewrite <- !app_assoc. simpl.
    repeat split.
    + now rewrite Hlen.
    + now rewrite Hd, Hh, Hmap.
    + now constructor.
Qed.

Lemma py_max_returns (l : list float) :
  l <> [] -> exists x, py_max l = Return x.
Proof. destruct l; [congruence | intros _; eexists; reflexivity]. Qed.

Lemma py_min_returns (l : list float) :
  l <> [] -> exists x, py_min l = Return x.
Proof. destruct l; [congruence | intros _; eexists; reflexivity]. Qed.

Lemma forecast_day_spec (day : Z) (f : forecast) (g : rng) :
  exists es d g',
    forecast_day_ day f g
    = Return ({| fc_location := fc_location f;
                 fc_forecast_days := fc_forecast_days f;
                 fc_current := fc_current f;
                 fc_hourly := fc_hourly f ++ es;
                 fc_daily := fc_daily f ++ [d] |}, g')
    /\ d_day d = day
    /\ map (fun e => (h_day e, h_hour e)) es = map (pair day) (range 0 24)
    /\ Forall solar_ok es.
Proof.
  unfold forecast_day, pick_condition.
  unfold bind at 1. unfold draw at 1.
  pose proof (random_choices_in weather_keys weather_weights g
                weather_keys_nonempty) as Hday.
  destruct (random_choices weather_keys weather_weights g) as [dc g1].
  simpl in Hday.
  unfold bind at 1.
  match goal with |- context [for_each _ _ ?a g1] =>
    destruct (forecast_hours_spec day dc (range 0 24) a g1 Hday)
      as (es & ts & pot & g2 & Hrun & Hlen & Hmap & Hall)
  end.
  rewrite Hrun. simpl acc_temps in *. simpl acc_hourly in *.
  assert (Hne : ts <> []).
  { intros ->. discriminate Hlen. }
  destruct (py_max_returns ts Hne) as (hi & Hhi).
  destruct (py_min_returns ts Hne) as (lo & Hlo).
  unfold bind, lift, ret. simpl acc_temps. rewrite Hhi, Hlo.
  eexists es, _, g2. split; [reflexivity |]. simpl. auto.
Qed.

Lemma forecast_days_spec (days : list Z) (f : forecast) (g : rng) :
  exists es ds g',
    for_each days forecast_day_ f g
    = Return ({| fc_location := fc_location f;
                 fc_forecast_days := fc_forecast_days f;
                 fc_current := fc_current f;
                 fc_hourly := fc_hourly f ++ es;
                 fc_daily := fc_daily f ++ ds |}, g')
    /\ map d_day ds = days
    /\ map (fun e => (h_day e, h_hour e)) es = day_hour_grid days
    /\ Forall solar_ok es.
Proof.
  revert f g. induction days as [| day days IH]; intros f g.
  - exists [], [], g. simpl. unfold ret. rewrite !app_nil_r.
    destruct f. repeat split. constructor.
  - destruct (forecast_day_spec day f g)
      as (es & d & g1 & Hrun & Hd & Hmap & Hall).
    match type of Hrun with _ = Return (?a, _) =>
      destruct (IH a g1) as (es' & ds & g2 & Hrun2 & Hds & Hmap2 & Hall2)
    end.
    exists (es ++ es'), (d :: ds), g2. simpl in *. unfold bind.
    rewrite Hrun, Hrun2. rewrite <- !app_assoc. simpl.
    repeat split.
    + now rewrite Hd, Hds.
    + now rewrite map_app, Hmap, Hmap2.
    + apply Forall_app. now split.
Qed.

End Forecast.

Lemma day_hour_grid_length (days : list Z) :
  List.length (day_hour_grid days) = (24 * List.length days)%nat.
Proof.
  unfold day_hour_grid. induction days as [| d days IH]; [reflexivity |].
  cbn [flat_map]. rewrite length_app, length_map, range_length, IH.
  change (Z.to_nat (24 - 0)) with 24%nat. simpl List.length. lia.
Qed.

Lemma choice0_in (l : list string) (g : rng0) :
  l <> [] -> In (fst (choice0 l g)) l.
Proof. destruct l; [congruence | intros _; now left]. Qed.

Lemma choices0_in (l : list string) (w : list float) (g : rng0) :
  l <> [] -> In (fst (choices0 l w g)) l.
Proof. destruct l; [congruence | intros _; now left]. Qed.

(** C3: for every location, every [days] and every random generator whose
    choices are drawn from the given population, [get_weather_forecast]
    returns a forecast whose [forecast_days] is [days] clamped to 1..7,
    whose [daily] list has one entry per forecast day (days 0, 1, ... in
    order), whose [hourly] list has the 24 hours of each forecast day in
    order, and whose [solar_irradiance] is the int 0 at every hour outside
    6..20. *)
Theorem get_weather_forecast_shape
    (py_round : float -> Z -> float) (rng : Type)
    (random_random : rng -> float * rng)
    (random_uniform : float -> float -> rng -> float * rng)
    (random_randint : Z -> Z -> rng -> Z * rng)
    (random_choice : list string -> rng -> string * rng)
    (random_choices : list string -> list float -> rng -> string * rng)
    (strftime_now_plus : Z -> string)
    (random_choice_in :
       forall l g, l <> [] -> In (fst (random_choice l g)) l)
    (random_choices_in :
       forall l w g, l <> [] -> In (fst (random_choices l w g)) l)
    (location : string) (days : Z) (g : rng) :
  exists f g',
    get_weather_forecast py_round rng random_random random_uniform
      random_randint random_choice random_choices strftime_now_plus
      location days g = Return (f, g')
    /\ fc_location f = location
    /\ fc_forecast_days f = Z.max 1 (Z.min 7 days)
    /\ 1 <= fc_forecast_days f <= 7
    /\ map d_day (fc_daily f) = range 0 (fc_forecast_days f)
    /\ List.length (fc_daily f) = Z.to_nat (fc_forecast_days f)
    /\ map (fun e => (h_day e, h_hour e)) (fc_hourly f)
       = day_hour_grid (range 0 (fc_forecast_days f))
    /\ List.length (fc_hourly f) = (24 * Z.to_nat (fc_forecast_days f))%nat
    /\ Forall solar_ok (fc_hourly f).
Proof.
  unfold get_weather_forecast, pick_condition, bind, draw.
  destruct (random_choices weather_keys weather_weights g) as [cc g1].
  destruct (random_uniform 15%float 28%float g1) as [ct g2].
  destruct (random_randint 40 80 g2) as [ch g3].
  destruct (random_uniform 5%float 25%float g3) as [cw g4].
  match goal with |- context [for_each ?ds _ ?f0 g4] =>
    destruct (forecast_days_spec py_round rng random_random random_uniform
                random_randint random_choice random_choices
                strftime_now_plus random_choice_in random_choices_in
                ds f0 g4)
      as (es & ds' & g5 & Hrun & Hds & Hes & Hall)
  end.
  rewrite Hrun. eexists _, g5. split; [reflexivity |].
  cbn [fc_location fc_forecast_days fc_daily fc_hourly app].
  assert (Hlen : List.length ds' = Z.to_nat (Z.max 1 (Z.min 7 days))).
  { rewrite <- (length_map d_day), Hds, range_length. f_equal. lia. }
  repeat split; try lia; auto.
  rewrite <- (length_map (fun e => (h_day e, h_hour e))), Hes.
  rewrite day_hour_grid_length, range_length. f_equal. f_equal. lia.
Qed.

Lemma get_weather_forecast_shape_witness :
  exists f g',
    get_weather_forecast round0 rng0 random0 uniform0 randint0 choice0
      choices0 strftime0 "San Francisco, CA" 10 0%nat = Return (f, g')
    /\ fc_location f = "San Francisco, CA"
    /\ fc_forecast_days f = Z.max 1 (Z.min 7 10)
    /\ 1 <= fc_forecast_days f <= 7
    /\ map d_day (fc_daily f) = range 0 (fc_forecast_days f)
    /\ List.length (fc_daily f) = Z.to_nat (fc_forecast_days f)
    /\ map (fun e => (h_day e, h_hour e)) (fc_hourly f)
       = day_hour_grid (range 0 (fc_forecast_days f))
    /\ List.length (fc_hourly f) = (24 * Z.to_nat (fc_forecast_days f))%nat
    /\ Forall solar_ok (fc_hourly f).
Proof.
  exact (get_weather_forecast_shape round0 rng0 random0 uniform0 randint0
           choice0 choices0 strftime0 choice0_in choices0_in
           "San Francisco, CA" 10 0%nat).
Defined.

(** C10: [calculate_energy_savings] returns on every input; the division is
    only evaluated under the guard [current_usage_kwh > 0], where it cannot
    raise.  The local [savings_kwh] is [current - optimized], the local
    [savings_percentage] is [(savings_kwh / current) * 100] under the guard
    and the int [0] otherwise, and the returned dict holds these values
    passed through [round]. *)
Theorem calculate_energy_savings_total
    (py_round : float -> Z -> float) (device_type : string)
    (current_usage_kwh optimized_usage_kwh price_per_kwh : float) :
  let savings_kwh := PrimFloat.sub current_usage_kwh optimized_usage_kwh in
  let savings_percentage :=
    if PrimFloat.ltb 0%float current_usage_kwh
    then PFloat (PrimFloat.mul
                   (PrimFloat.div savings_kwh current_usage_kwh) 100%float)
    else PInt 0 in
  (exists l,
      calculate_energy_savings_locals
        current_usage_kwh optimized_usage_kwh price_per_kwh = Return l
      /\ loc_savings_kwh l = savings_kwh
      /\ loc_savings_percentage l = savings_percentage)
  /\ (exists r,
      calculate_energy_savings py_round device_type
        current_usage_kwh optimized_usage_kwh price_per_kwh = Return r
      /\ sv_savings_kwh r = py_round savings_kwh 2
      /\ sv_savings_percentage r = round_num py_round savings_percentage 1).
Proof.
  intros savings_kwh savings_percentage.
  unfold calculate_energy_savings, calculate_energy_savings_locals.
  subst savings_kwh savings_percentage.
  destruct (PrimFloat.ltb 0%float current_usage_kwh) eqn:Hguard.
  - rewrite (truediv_guarded _ _ Hguard). simpl.
    split; eexists; repeat split.
  - simpl. split; eexists; repeat split.
Qed.

(** C2: for every date argument and every random generator,
    [get_electricity_prices] returns 24 [hourly_rates] entries, one per hour
    0..23 in order; each entry's period is "off_peak" for hours 0-5 and 23,
    "peak" for hours 16-20 and "partial_peak" otherwise; its demand charge
    is 0.05 exactly when the period is "peak" and 0.0 otherwise; and its
    [total_rate] is [rate + demand_charge] rounded to 3 decimals. *)
Theorem get_electricity_prices_hourly_rates
    (py_round : float -> Z -> float) (rng : Type)
    (random_uniform : float -> float -> rng -> float * rng)
    (strftime_now_plus : Z -> string) (date : option string) (g : rng) :
  exists p g',
    get_electricity_prices py_round rng random_uniform strftime_now_plus
      date g = Return (p, g')
    /\ List.length (pr_hourly_rates p) = 24%nat
    /\ map hr_hour (pr_hourly_rates p) = range 0 24
    /\ Forall (rate_entry_ok py_round) (pr_hourly_rates p).
Proof.
  unfold get_electricity_prices.
  match goal with
  | |- context [for_each _ _ ?p0 g] =>
      destruct (price_loop_spec py_round rng random_uniform
                  (range 0 24) p0 g eq_refl)
        as (p & g' & Hrun & _ & Hmap & Hall)
  end.
  exists p, g'. split; [exact Hrun |].
  assert (Hlen : List.length (pr_hourly_rates p) = 24%nat).
  { rewrite <- (length_map hr_hour), Hmap. reflexivity. }
  repeat split; auto.
  rewrite Forall_forall in *. intros e He.
  destruct (Hall e He) as (Hp & Hc & Ht).
  assert (Hin : In (hr_hour e) (range 0 24)).
  { rewrite <- Hmap. now apply in_map. }
  unfold rate_entry_ok. repeat split; auto.
  - rewrite Hp. now apply tier_of_spec_period.
  - rewrite Hc, Hp. now rewrite tier_of_peak.
Qed.

End EcoHomeFacts.

(** * Facts about course-01 *)

Module AgentFacts.
Import Agent.

Section WithFramework.

Context {F : Framework}.

Lemma next_step_of_intent_cases (it : string) :
  In (next_step_of_intent it)
    ["qa_agent"; "summarization_agent"; "calculation_agent"].
Proof.
  unfold next_step_of_intent.
  destruct (String.eqb it "qa"); [now left |].
  destruct (String.eqb it "summarization"); [now right; left |].
  destruct (String.eqb it "calculation"); [now right; right; left |].
  now left.
Qed.

(** The dispatch of [classify_intent], branch by branch. *)
Lemma next_step_of_intent_branches (it : string) :
  (it = "qa" -> next_step_of_intent it = "qa_agent")
  /\ (it = "summarization" -> next_step_of_intent it = "summarization_agent")
  /\ (it = "calculation" -> next_step_of_intent it = "calculation_agent")
  /\ (it <> "qa" -> it <> "summarization" -> it <> "calculation" ->
      next_step_of_intent it = "qa_agent").
Proof.
  repeat split; try (intros ->; reflexivity).
  intros H1 H2 H3. unfold next_step_of_intent.
  apply String.eqb_neq in H1, H2, H3. now rewrite H1, H2, H3.
Qed.

Lemma classify_intent_returns (s : AgentState) (config : RunnableConfig)
    (v : option string) :
  user_input s = Some v ->
  exists i,
    classify_intent s config
    = Return {| u_messages := None;
                u_actions_taken := Some ["classify_intent"];
                u_intent := Some i;
                u_next_step := Some (next_step_of_intent (intent_type i));
                u_conversation_summary := None;
                u_active_documents := None;
                u_current_response := None;
                u_tools_used := None |}.
Proof.
  intros Hin. unfold classify_intent, get_user_input. rewrite Hin. simpl.
  eexists. reflexivity.
Qed.

Lemma agent_node_returns (name prompt_intent : string)
    (schema : response_schema) (s : AgentState) (config : RunnableConfig)
    (v : option string) :
  user_input s = Some v ->
  exists u,
    agent_node name prompt_intent schema s config = Return u
    /\ u_actions_taken u = Some [name]
    /\ u_next_step u = Some "update_memory".
Proof.
  intros Hin. unfold agent_node, get_user_input. rewrite Hin. simpl.
  eexists. repeat split.
Qed.

Lemma agent_node_name (name prompt_intent : string)
    (schema : response_schema) (s : AgentState) (config : RunnableConfig)
    (u : Update) :
  agent_node name prompt_intent schema s config = Return u ->
  u_actions_taken u = Some [name].
Proof.
  unfold agent_node, get_user_input.
  destruct (user_input s); simpl; [| discriminate].
  intros H. injection H as <-. reflexivity.
Qed.

Lemma apply_update_actions_taken (s : AgentState) (u : Update) :
  actions_taken (apply_update s u)
  = actions_taken s ++ match u_actions_taken u with
                       | Some l => l
                       | None => []
                       end.
Proof.
  unfold apply_update, reduce, operator_add. simpl.
  destruct (u_actions_taken u); [reflexivity | now rewrite app_nil_r].
Qed.

Lemma apply_update_user_input (s : AgentState) (u : Update) :
  user_input (apply_update s u) = user_input s.
Proof. reflexivity. Qed.

(** Every node registered by [create_workflow] reports exactly its own
    name. *)
Lemma workflow_nodes_record_their_name (llm : LLM) (tools : list Tool)
    (name : string) (f : node_fn) (s : AgentState) (config : RunnableConfig)
    (u : Update) :
  lookup name (g_nodes (cg_graph (create_workflow llm tools))) = Some f ->
  f s config = Return u ->
  u_actions_taken u = Some [name].
Proof.
  unfold lookup. cbn [create_workflow compile cg_graph add_node add_edge
    add_conditional_edges set_entry_point new_graph g_nodes app find fst snd].
  destruct (String.eqb "classify_intent" name) eqn:E1.
  { apply String.eqb_eq in E1. subst name. cbn. intros H. injection H as <-.
    unfold classify_intent, get_user_input.
    destruct (user_input s); simpl; [| discriminate].
    intros H. injection H as <-. reflexivity. }
  destruct (String.eqb "qa_agent" name) eqn:E2.
  { apply String.eqb_eq in E2. subst name. cbn. intros H. injection H as <-.
    apply agent_node_name. }
  destruct (String.eqb "summarization_agent" name) eqn:E3.
  { apply String.eqb_eq in E3. subst name. cbn. intros H. injection H as <-.
    apply agent_node_name. }
  destruct (String.eqb "calculation_agent" name) eqn:E4.
  { apply String.eqb_eq in E4. subst name. cbn. intros H. injection H as <-.
    apply agent_node_name. }
  destruct (String.eqb "update_memory" name) eqn:E5.
  { apply String.eqb_eq in E5. subst name. cbn. intros H. injection H as <-.
    unfold update_memory. intros H. injection H as <-. reflexivity. }
  cbn. discriminate.
Qed.

(** In a graph whose nodes report their own name, a run appends the nodes
    it ran, in order, to [actions_taken]. *)
Lemma run_from_appends_trace (g : StateGraph) (config : RunnableConfig) :
  (forall name f s u,
      lookup name (g_nodes g) = Some f ->
      f s config = Return u -> u_actions_taken u = Some [name]) ->
  forall fuel cur s s' tr,
    run_from fuel g config cur s = Return (s', tr) ->
    actions_taken s' = actions_taken s ++ tr.
Proof.
  intros Hnodes. induction fuel as [| fuel IH]; intros cur s s' tr Hrun.
  - discriminate.
  - cbn [run_from] in Hrun.
    destruct (lookup cur (g_nodes g)) as [f |] eqn:Hf; [| discriminate].
    destruct (f s config) as [u | e] eqn:Hu; [| discriminate].
    cbn [obind] in Hrun.
    pose proof (Hnodes cur f s u Hf Hu) as Hname.
    pose proof (apply_update_actions_taken s u) as Hact.
    rewrite Hname in Hact.
    destruct (route g cur (apply_update s u)) as [t | e]; [| discriminate].
    cbn [obind] in Hrun. destruct t as [nxt |].
    + destruct (run_from fuel g config nxt (apply_update s u))
        as [[s2 tr2] | e] eqn:Hrec; [| discriminate].
      cbn in Hrun. injection Hrun as <- <-.
      rewrite (IH _ _ _ _ Hrec), Hact, <- app_assoc. reflexivity.
    + injection Hrun as <- <-. exact Hact.
Qed.

(** The graph [create_workflow] builds, component by component. *)
Lemma workflow_nodes (llm : LLM) (tools : list Tool) :
  g_nodes (cg_graph (create_workflow llm tools))
  = [ ("classify_intent", classify_intent);
      ("qa_agent", qa_agent);
      ("summarization_agent", summarization_agent);
      ("calculation_agent", calculation_agent);
      ("update_memory", update_memory) ].
Proof. reflexivity. Qed.

Lemma workflow_conditional_edges (llm : LLM) (tools : list Tool) :
  g_conditional_edges (cg_graph (create_workflow llm tools))
  = [("classify_intent", (should_continue, intent_path_map))].
Proof. reflexivity. Qed.

Lemma workflow_edges (llm : LLM) (tools : list Tool) :
  g_edges (cg_graph (create_workflow llm tools))
  = [ ("qa_agent", Node "update_memory");
      ("summarization_agent", Node "update_memory");
      ("calculation_agent", Node "update_memory");
      ("update_memory", END) ].
Proof. reflexivity. Qed.

Lemma workflow_entry_point (llm : LLM) (tools : list Tool) :
  g_entry_point (cg_graph (create_workflow llm tools))
  = Some "classify_intent".
Proof. reflexivity. Qed.

Lemma run_from_step (fuel : nat) (g : StateGraph) (config : RunnableConfig)
    (cur : string) (s : AgentState) (f : node_fn) (u : Update) (t : target) :
  lookup cur (g_nodes g) = Some f ->
  f s config = Return u ->
  route g cur (apply_update s u) = Return t ->
  run_from (S fuel) g config cur s
  = match t with
    | END => Return (apply_update s u, [cur])
    | Node nxt =>
        obind (run_from fuel g config nxt (apply_update s u))
          (fun r => Return (fst r, cur :: snd r))
    end.
Proof.
  intros Hf Hu Ht. cbn [run_from]. rewrite Hf, Hu. cbn [obind].
  rewrite Ht. reflexivity.
Qed.

(** The conditional edge sends each agent name the classifier can produce
    to the node of that name. *)
Lemma intent_path_map_agent (name : string) :
  In name ["qa_agent"; "summarization_agent"; "calculation_agent"] ->
  lookup name intent_path_map = Some (Node name).
Proof.
  intros [<- | [<- | [<- | []]]]; reflexivity.
Qed.

(** One agent node of the workflow, then the memory update, then [END]. *)
Lemma run_from_agent (llm : LLM) (tools : list Tool)
    (config : RunnableConfig) (fuel : nat) (name : string) (s : AgentState)
    (v : option string) :
  In name ["qa_agent"; "summarization_agent"; "calculation_agent"] ->
  user_input s = Some v ->
  exists s',
    run_from (S (S fuel)) (cg_graph (create_workflow llm tools)) config
      name s
    = Return (s', [name; "update_memory"])
    /\ intent s' = intent s
    /\ next_step s' = Some "end".
Proof.
  intros Hname Hin.
  assert (Hnode : exists f prompt_intent schema,
    lookup name (g_nodes (cg_graph (create_workflow llm tools))) = Some f
    /\ f = agent_node name prompt_intent schema
    /\ lookup name (g_conditional_edges
                      (cg_graph (create_workflow llm tools))) = None
    /\ lookup name (g_edges (cg_graph (create_workflow llm tools)))
       = Some (Node "update_memory")).
  { rewrite workflow_nodes, workflow_conditional_edges, workflow_edges.
    destruct Hname as [<- | [<- | [<- | []]]];
      eexists _, _, _; repeat split; reflexivity. }
  destruct Hnode as (f & pi & sch & Hf & -> & Hce & He).
  destruct (agent_node_returns name pi sch s config v Hin)
    as (u & Hu & Ha & Hs).
  rewrite (run_from_step _ _ _ _ _ _ u (Node "update_memory") Hf Hu).
  2:{ unfold route. now rewrite Hce, He. }
  set (s1 := apply_update s u).
  assert (Hi1 : intent s1 = intent s).
  { unfold s1, apply_update, overwrite. cbn.
    unfold agent_node, get_user_input in Hu. rewrite Hin in Hu.
    cbn in Hu. injection Hu as <-. reflexivity. }
  rewrite (run_from_step fuel (cg_graph (create_workflow llm tools)) config
             "update_memory" s1 update_memory _ END
             eq_refl eq_refl eq_refl).
  cbn [obind fst snd]. eexists. split; [reflexivity |].
  split; [exact Hi1 | reflexivity].
Qed.

(** A run of the workflow from a state holding [user_input]: the
    classifier, the agent its intent selects, then the memory update. *)
Lemma invoke_workflow_trace (llm : LLM) (tools : list Tool)
    (config : RunnableConfig) (s : AgentState) (v : option string) :
  user_input s = Some v ->
  exists s' i,
    invoke (create_workflow llm tools) config s
    = Return (s', ["classify_intent";
                   next_step_of_intent (intent_type i);
                   "update_memory"])
    /\ intent s' = Some i
    /\ next_step s' = Some "end".
Proof.
  intros Hin.
  destruct (classify_intent_returns s config v Hin) as (i & Hc).
  unfold invoke. rewrite workflow_entry_point.
  change 25%nat with (S (S (S 22))).
  pose proof (next_step_of_intent_cases (intent_type i)) as Hcase.
  rewrite (run_from_step _ (cg_graph (create_workflow llm tools)) config
             "classify_intent" s classify_intent _
             (Node (next_step_of_intent (intent_type i))) eq_refl Hc).
  2:{ unfold route. rewrite workflow_conditional_edges.
      cbn [lookup find fst snd option_map String.eqb Ascii.eqb Bool.eqb].
      change (should_continue _) with (next_step_of_intent (intent_type i)).
      now rewrite (intent_path_map_agent _ Hcase). }
  match goal with |- context [run_from _ _ _ _ ?s1] =>
    destruct (run_from_agent llm tools config 22
                (next_step_of_intent (intent_type i)) s1 v Hcase Hin)
      as (s' & Hrun & Hi & Hn)
  end.
  rewrite Hrun. cbn [obind fst snd]. exists s', i.
  split; [reflexivity |]. split; [rewrite Hi; reflexivity | exact Hn].
Qed.

(** C1 (amended): for every classified intent, [classify_intent] sets
    [next_step] by dispatching on the [intent_type] string ("qa",
    "summarization", "calculation", anything else falling back to
    "qa_agent"), and the conditional edge from [classify_intent] maps
    [next_step] through a dispatch table with exactly four string-keyed
    branches ("qa_agent", "summarization_agent", "calculation_agent",
    "end"), which sends the classifier's answer to the node of that name;
    the graph has five nodes. *)
Theorem intent_routing_dispatch_table (llm : LLM) (tools : list Tool)
    (s : AgentState) (config : RunnableConfig) (v : option string) :
  user_input s = Some v ->
  exists u i,
    classify_intent s config = Return u
    /\ u_intent u = Some i
    /\ u_next_step u = Some (next_step_of_intent (intent_type i))
    /\ (intent_type i = "qa" -> u_next_step u = Some "qa_agent")
    /\ (intent_type i = "summarization" ->
        u_next_step u = Some "summarization_agent")
    /\ (intent_type i = "calculation" ->
        u_next_step u = Some "calculation_agent")
    /\ (intent_type i <> "qa" -> intent_type i <> "summarization" ->
        intent_type i <> "calculation" -> u_next_step u = Some "qa_agent")
    /\ g_conditional_edges (cg_graph (create_workflow llm tools))
       = [("classify_intent", (should_continue, intent_path_map))]
    /\ intent_path_map
       = [ ("qa_agent", Node "qa_agent");
           ("summarization_agent", Node "summarization_agent");
           ("calculation_agent", Node "calculation_agent");
           ("end", END) ]
    /\ List.length intent_path_map = 4%nat
    /\ should_continue (apply_update s u)
       = next_step_of_intent (intent_type i)
    /\ route (cg_graph (create_workflow llm tools)) "classify_intent"
         (apply_update s u)
       = Return (Node (next_step_of_intent (intent_type i)))
    /\ map fst (g_nodes (cg_graph (create_workflow llm tools)))
       = [ "classify_intent"; "qa_agent"; "summarization_agent";
           "calculation_agent"; "update_memory" ]
    /\ List.length (g_nodes (cg_graph (create_workflow llm tools))) = 5%nat.
Proof.
  intros Hin.
  destruct (classify_intent_returns s config v Hin) as (i & Hc).
  destruct (next_step_of_intent_branches (intent_type i))
    as (Hqa & Hsum & Hcalc & Helse).
  eexists _, i. split; [exact Hc |]. cbn [u_intent u_next_step].
  split; [reflexivity |]. split; [reflexivity |].
  split; [intros H; now rewrite (Hqa H) |].
  split; [intros H; now rewrite (Hsum H) |].
  split; [intros H; now rewrite (Hcalc H) |].
  split; [intros H1 H2 H3; now rewrite (Helse H1 H2 H3) |].
  split; [reflexivity |]. split; [reflexivity |]. split; [reflexivity |].
  split; [reflexivity |].
  split; [| split; reflexivity].
  unfold route. rewrite workflow_conditional_edges.
  cbn [lookup find fst snd option_map String.eqb Ascii.eqb Bool.eqb].
  change (should_continue _) with (next_step_of_intent (intent_type i)).
  now rewrite (intent_path_map_agent _
                 (next_step_of_intent_cases (intent_type i))).
Qed.

(** C9: [actions_taken] is append-only.  Its reducer is list concatenation;
    every node registered in the workflow returns [actions_taken] equal to
    the one-element list of its own name, and each of the five node
    functions does return from a state holding [user_input]; so every run
    leaves in [actions_taken] what was there followed by the nodes it ran,
    in execution order, and the run from the entry point ends after the
    classifier, one agent and the memory update. *)
Theorem actions_taken_append_only (llm : LLM) (tools : list Tool)
    (config : RunnableConfig) (s : AgentState) (v : option string) :
  user_input s = Some v ->
  (forall (old new : list string), operator_add old new = old ++ new)
  /\ (forall (s0 : AgentState) (u : Update),
        actions_taken (apply_update s0 u)
        = actions_taken s0 ++ match u_actions_taken u with
                              | Some l => l
                              | None => []
                              end)
  /\ map fst (g_nodes (cg_graph (create_workflow llm tools)))
     = [ "classify_intent"; "qa_agent"; "summarization_agent";
         "calculation_agent"; "update_memory" ]
  /\ (forall name f s0 u,
        lookup name (g_nodes (cg_graph (create_workflow llm tools))) = Some f ->
        f s0 config = Return u -> u_actions_taken u = Some [name])
  /\ (exists u, classify_intent s config = Return u
                /\ u_actions_taken u = Some ["classify_intent"])
  /\ (exists u, qa_agent s config = Return u
                /\ u_actions_taken u = Some ["qa_agent"])
  /\ (exists u, summarization_agent s config = Return u
                /\ u_actions_taken u = Some ["summarization_agent"])
  /\ (exists u, calculation_agent s config = Return u
                /\ u_actions_taken u = Some ["calculation_agent"])
  /\ (exists u, update_memory s config = Return u
                /\ u_actions_taken u = Some ["update_memory"])
  /\ (forall fuel cur s0 s1 trace,
        run_from fuel (cg_graph (create_workflow llm tools)) config cur s0
        = Return (s1, trace) ->
        actions_taken s1 = actions_taken s0 ++ trace)
  /\ (exists s' agent,
        invoke (create_workflow llm tools) config s
        = Return (s', ["classify_intent"; agent; "update_memory"])
        /\ In agent ["qa_agent"; "summarization_agent"; "calculation_agent"]
        /\ actions_taken s'
           = actions_taken s ++ ["classify_intent"; agent; "update_memory"]).
Proof.
  intros Hin.
  assert (Hnodes : forall name f s0 u,
    lookup name (g_nodes (cg_graph (create_workflow llm tools))) = Some f ->
    f s0 config = Return u -> u_actions_taken u = Some [name]).
  { intros name f s0 u. apply workflow_nodes_record_their_name. }
  pose proof (run_from_appends_trace
                (cg_graph (create_workflow llm tools)) config Hnodes) as Hrun.
  split; [reflexivity |].
  split; [apply apply_update_actions_taken |].
  split; [reflexivity |].
  split; [exact Hnodes |].
  split.
  { destruct (classify_intent_returns s config v Hin) as (i & Hc).
    eexists. split; [exact Hc | reflexivity]. }
  split.
  { destruct (agent_node_returns "qa_agent" "qa" AnswerResponse s config v
                Hin) as (u & Hu & Ha & _). now exists u. }
  split.
  { destruct (agent_node_returns "summarization_agent" "summarization"
                SummarizationResponse s config v Hin) as (u & Hu & Ha & _).
    now exists u. }
  split.
  { destruct (agent_node_returns "calculation_agent" "calculation"
                CalculationResponse s config v Hin) as (u & Hu & Ha & _).
    now exists u. }
  split; [eexists; split; reflexivity |].
  split; [exact Hrun |].
  destruct (invoke_workflow_trace llm tools config s v Hin)
    as (s' & i & Hinv & _ & _).
  exists s', (next_step_of_intent (intent_type i)).
  split; [exact Hinv |]. split; [apply next_step_of_intent_cases |].
  unfold invoke in Hinv. rewrite workflow_entry_point in Hinv.
  exact (Hrun _ _ _ _ _ Hinv).
Qed.

End WithFramework.

(** C1 as worded fails: the path map of the conditional edge from
    [classify_intent] has four branches, not five. *)
Lemma intent_path_map_not_five_branches :
  exists path path_map,
    lookup "classify_intent"
      (g_conditional_edges
         (cg_graph (@create_workflow toy_framework "gpt-4o-mini" [])))
    = Some (path, path_map)
    /\ map fst path_map
       = ["qa_agent"; "summarization_agent"; "calculation_agent"; "end"]
    /\ List.length path_map <> 5%nat.
Proof.
  eexists _, _. split; [reflexivity |]. split; [reflexivity |].
  cbn. discriminate.
Qed.

Lemma intent_routing_dispatch_table_witness :
  exists u i,
    @classify_intent toy_framework toy_state toy_config = Return u
    /\ u_intent u = Some i
    /\ u_next_step u = Some (next_step_of_intent (intent_type i))
    /\ (intent_type i = "qa" -> u_next_step u = Some "qa_agent")
    /\ (intent_type i = "summarization" ->
        u_next_step u = Some "summarization_agent")
    /\ (intent_type i = "calculation" ->
        u_next_step u = Some "calculation_agent")
    /\ (intent_type i <> "qa" -> intent_type i <> "summarization" ->
        intent_type i <> "calculation" -> u_next_step u = Some "qa_agent")
    /\ g_conditional_edges
         (cg_graph (@create_workflow toy_framework "gpt-4o-mini" []))
       = [("classify_intent", (should_continue, intent_path_map))]
    /\ intent_path_map
       = [ ("qa_agent", Node "qa_agent");
           ("summarization_agent", Node "summarization_agent");
           ("calculation_agent", Node "calculation_agent");
           ("end", END) ]
    /\ List.length intent_path_map = 4%nat
    /\ should_continue (apply_update toy_state u)
       = next_step_of_intent (intent_type i)
    /\ route (cg_graph (@create_workflow toy_framework "gpt-4o-mini" []))
         "classify_intent" (apply_update toy_state u)
       = Return (Node (next_step_of_intent (intent_type i)))
    /\ map fst
         (g_nodes (cg_graph (@create_workflow toy_framework "gpt-4o-mini" [])))
       = [ "classify_intent"; "qa_agent"; "summarization_agent";
           "calculation_agent"; "update_memory" ]
    /\ List.length
         (g_nodes (cg_graph (@create_workflow toy_framework "gpt-4o-mini" [])))
       = 5%nat.
Proof.
  exact (@intent_routing_dispatch_table toy_framework "gpt-4o-mini" []
           toy_state toy_config (Some "What is 2 + 2?") eq_refl).
Defined.

Lemma actions_taken_append_only_witness :
  exists s' agent,
    @invoke toy_framework (@create_workflow toy_framework "gpt-4o-mini" [])
      toy_config toy_state
    = Return (s', ["classify_intent"; agent; "update_memory"])
    /\ In agent ["qa_agent"; "summarization_agent"; "calculation_agent"]
    /\ actions_taken s'
       = actions_taken toy_state
         ++ ["classify_intent"; agent; "update_memory"].
Proof.
  exact (proj2 (proj2 (proj2 (proj2 (proj2 (proj2 (proj2 (proj2 (proj2
           (proj2
              (@actions_taken_append_only toy_framework "gpt-4o-mini" []
                 toy_config toy_state (Some "What is 2 + 2?")
                 eq_refl))))))))))).
Defined.

End AgentFacts.

(** * Facts about course-03 *)

Module CultPassFacts.
Import CultPass.

(** ** Strings and sorting *)

Lemma prefix_app (x b : string) : prefix x (x ++ b)%string = true.
Proof.
  induction x as [| c x IH]; simpl; [now destruct b |].
  destruct (ascii_dec c c); [exact IH | congruence].
Qed.

Lemma contains_prefix (x hay : string) :
  prefix x hay = true -> contains x hay = true.
Proof. intros H. destruct hay; cbn [contains]; now rewrite H. Qed.

Lemma contains_middle (a x b : string) :
  contains x (a ++ x ++ b)%string = true.
Proof.
  induction a as [| c a IH].
  - change ("" ++ x ++ b)%string with (x ++ b)%string.
    apply contains_prefix, prefix_app.
  - change (String c a ++ x ++ b)%string with (String c (a ++ x ++ b)).
    cbn [contains].
    destruct (prefix x (String c (a ++ x ++ b))); [reflexivity | exact IH].
Qed.

Section Sorting.

Context {A : Type}.
Variable key : A -> Z.

Let before (x y : A) : bool := key y <=? key x.

Lemma insert_sorted_perm (x : A) (l : list A) :
  Permutation (insert_sorted before x l) (x :: l).
Proof.
  induction l as [| y l IH]; simpl; [reflexivity |].
  destruct (before x y); [reflexivity |].
  rewrite IH. apply perm_swap.
Qed.

Lemma stable_sort_perm (l : list A) : Permutation (stable_sort before l) l.
Proof.
  induction l as [| x l IH]; simpl; [reflexivity |].
  unfold stable_sort in *. simpl. rewrite insert_sorted_perm. now constructor.
Qed.

Lemma insert_sorted_sorted (x : A) (l : list A) :
  StronglySorted (fun a b => key b <= key a) l ->
  StronglySorted (fun a b => key b <= key a) (insert_sorted before x l).
Proof.
  induction 1 as [| y l Hl IH Hy]; simpl.
  - constructor; constructor.
  - unfold before at 1. destruct (key y <=? key x) eqn:E.
    + apply Z.leb_le in E. constructor; [now constructor |].
      constructor; [exact E |].
      rewrite Forall_forall in *. intros z Hz. specialize (Hy z Hz). lia.
    + apply Z.leb_gt in E. constructor; [exact IH |].
      rewrite Forall_forall in *. intros z Hz.
      apply (Permutation_in _ (insert_sorted_perm x l)) in Hz.
      destruct Hz as [<- | Hz]; [lia | now apply Hy].
Qed.

Lemma stable_sort_sorted (l : list A) :
  StronglySorted (fun a b => key b <= key a) (stable_sort before l).
Proof.
  induction l as [| x l IH]; [constructor |].
  unfold stable_sort in *. simpl. now apply insert_sorted_sorted.
Qed.

Lemma firstn_In (n : nat) (l : list A) (y : A) :
  In y (firstn n l) -> In y l.
Proof.
  revert n. induction l as [| x l IH]; intros n H.
  - now rewrite firstn_nil in H.
  - destruct n; simpl in H; [contradiction |].
    destruct H as [<- | H]; [now left | right; eauto].
Qed.

Lemma firstn_sorted (R : A -> A -> Prop) (n : nat) (l : list A) :
  StronglySorted R l -> StronglySorted R (firstn n l).
Proof.
  intros H. revert n. induction H as [| x l Hl IH Hx]; intros n.
  - rewrite firstn_nil. constructor.
  - destruct n; simpl; constructor; [apply IH |].
    rewrite Forall_forall in *. intros y Hy.
    apply Hx. now apply (firstn_In n).
Qed.

End Sorting.

(** ** [search_knowledge_base] *)

Section Knowledge.

Import knowledge_tools.
Context {R : Runtime}.

Lemma term_score_points (t c g : string) (acc : Z) (term : string) :
  term_score t c g acc term = acc + spec_term_points t g c term.
Proof.
  unfold term_score, spec_term_points.
  destruct (contains term t), (contains term c), (contains term g); lia.
Qed.

(** The accumulating loop computes the documented sum. *)
Lemma fold_term_score (t c g : string) (terms : list string) (acc : Z) :
  fold_left (term_score t c g) terms acc = acc + spec_score t g c terms.
Proof.
  revert acc. induction terms as [| term terms IH]; intros acc.
  - unfold spec_score. simpl. lia.
  - cbn [fold_left]. rewrite IH, term_score_points.
    unfold spec_score. cbn [map fold_right]. lia.
Qed.

Lemma article_score_spec (query_lower : string) (a : udahub.Knowledge) :
  article_score query_lower a
  = spec_score (lower_or_empty (udahub.title a))
      (lower_or_empty (udahub.tags a)) (lower_or_empty (udahub.content a))
      (str_split query_lower).
Proof. unfold article_score. now rewrite fold_term_score. Qed.

Lemma score_articles_spec (query_lower : string)
    (articles : list udahub.Knowledge) :
  Forall (fun r =>
            In (sc_article r) articles
            /\ 0 < sc_score r
            /\ sc_score r = article_score query_lower (sc_article r))
    (score_articles query_lower articles).
Proof.
  unfold score_articles.
  induction articles as [| a articles IH]; [constructor |].
  cbn [flat_map]. apply Forall_app. split.
  - destruct (0 <? article_score query_lower a) eqn:E; [| constructor].
    apply Z.ltb_lt in E. constructor; [| constructor].
    cbn. repeat split; auto.
  - eapply Forall_impl; [| exact IH].
    intros r (Hin & Hpos & Hsc). repeat split; auto. now right.
Qed.

Lemma top_results_spec (P : scored -> Prop) (results : list scored) :
  Forall P results ->
  (List.length (top_results results) <= 5)%nat
  /\ Forall P (top_results results)
  /\ StronglySorted (fun x y => sc_score y <= sc_score x)
       (top_results results).
Proof.
  intros HP. unfold top_results. split; [apply firstn_le_length |]. split.
  - rewrite Forall_forall in *. intros r Hr. apply HP.
    apply firstn_In in Hr.
    exact (Permutation_in _ (stable_sort_perm sc_score results) Hr).
  - apply firstn_sorted. apply (stable_sort_sorted sc_score).
Qed.

Lemma search_knowledge_base_run (query account_id : string) (w : world) :
  fst (search_knowledge_base query account_id w)
  = if hd false (w_faults w) then Raise OperationalError
    else Return
           (VList
              (map (fun r => VDict (result_dict r))
                 (top_results
                    (score_articles (str_lower query)
                       (filter
                          (fun a =>
                             String.eqb (udahub.account_id a) account_id)
                          (udahub.knowledge (w_udahub w))))))).
Proof.
  unfold search_knowledge_base, get_db_session, open_session, try_finally,
    query_udahub, round_trip, close, log, bind, ret.
  cbn. destruct (hd false (w_faults w)); reflexivity.
Qed.

(** C8: for every query string and account id, [search_knowledge_base]
    returns (unless the query to the database raises) the dicts of at most
    5 articles of that account; each has a [relevance_score] above 0, equal
    to the sum over the whitespace-separated terms of the lowercased query
    of 3 if the term occurs in the (lowercased) title, plus 2 if it occurs
    in the tags, plus 1 if it occurs in the content; and the list is in
    non-increasing [relevance_score] order. *)
Theorem search_knowledge_base_top_results (query account_id : string)
    (w : world) :
  exists results,
    fst (search_knowledge_base query account_id w)
    = (if hd false (w_faults w) then Raise OperationalError
       else Return (VList (map (fun r => VDict (result_dict r)) results)))
    /\ (List.length results <= 5)%nat
    /\ Forall
         (fun r =>
            In (sc_article r)
              (filter (fun a => String.eqb (udahub.account_id a) account_id)
                 (udahub.knowledge (w_udahub w)))
            /\ dict_get "relevance_score" (result_dict r)
               = Some (VInt (sc_score r))
            /\ 0 < sc_score r
            /\ sc_score r
               = spec_score (lower_or_empty (udahub.title (sc_article r)))
                   (lower_or_empty (udahub.tags (sc_article r)))
                   (lower_or_empty (udahub.content (sc_article r)))
                   (str_split (str_lower query)))
         results
    /\ StronglySorted (fun x y => sc_score y <= sc_score x) results.
Proof.
  eexists. split; [apply search_knowledge_base_run |].
  match goal with |- context [top_results ?rs] =>
    destruct (top_results_spec _ rs (score_articles_spec _ _))
      as (Hlen & Hall & Hsorted)
  end.
  split; [exact Hlen |]. split; [| exact Hsorted].
  eapply Forall_impl; [| exact Hall].
  intros r (Hin & Hpos & Hsc). repeat split; auto.
  now rewrite Hsc, article_score_spec.
Qed.

End Knowledge.

(** ** The per-record lookups *)

Section Lookups.

Context {R : Runtime}.

(** C5: each per-record lookup ([get_user_info], [get_article_by_id],
    [get_experience_details]) leaves both databases unchanged and, unless
    the query to the database raises, returns the fields of the first row
    holding the given key when there is one, and otherwise a dict whose
    "error" entry names the missing identifier. *)
Theorem lookup_tools_found_or_error (w : world) :
  (forall user_email,
      let r := user_tools.get_user_info user_email w in
      w_cultpass (snd r) = w_cultpass w
      /\ w_udahub (snd r) = w_udahub w
      /\ fst r
         = (if hd false (w_faults w) then Raise OperationalError
            else
              match find (fun u => String.eqb (cultpass.email u) user_email)
                      (cultpass.users (w_cultpass w)) with
              | Some user =>
                  Return
                    (VDict
                       [ ("user_id", VStr (cultpass.user_id user));
                         ("full_name", VStr (cultpass.full_name user));
                         ("email", VStr (cultpass.email user));
                         ("is_blocked", VBool (cultpass.is_blocked user));
                         ("created_at", opt_iso (cultpass.created_at user)) ])
              | None =>
                  Return
                    (VDict
                       [("error",
                         VStr ("User with email " ++ user_email
                               ++ " not found")%string)])
              end)
      /\ contains user_email
           ("User with email " ++ user_email ++ " not found")%string = true)
  /\ (forall article_id,
      let r := knowledge_tools.get_article_by_id article_id w in
      w_cultpass (snd r) = w_cultpass w
      /\ w_udahub (snd r) = w_udahub w
      /\ fst r
         = (if hd false (w_faults w) then Raise OperationalError
            else
              match find
                      (fun a => String.eqb (udahub.article_id a) article_id)
                      (udahub.knowledge (w_udahub w)) with
              | Some article =>
                  Return
                    (VDict
                       [ ("article_id", VStr (udahub.article_id article));
                         ("title", opt_str (udahub.title article));
                         ("content", opt_str (udahub.content article));
                         ("tags", opt_str (udahub.tags article)) ])
              | None =>
                  Return
                    (VDict
                       [("error",
                         VStr ("Article with ID " ++ article_id
                               ++ " not found")%string)])
              end)
      /\ contains article_id
           ("Article with ID " ++ article_id ++ " not found")%string = true)
  /\ (forall experience_id,
      let r := experience_tools.get_experience_details experience_id w in
      w_cultpass (snd r) = w_cultpass w
      /\ w_udahub (snd r) = w_udahub w
      /\ fst r
         = (if hd false (w_faults w) then Raise OperationalError
            else
              match find
                      (fun e =>
                         String.eqb (cultpass.experience_id e) experience_id)
                      (cultpass.experiences (w_cultpass w)) with
              | Some experience =>
                  Return
                    (VDict
                       [ ("experience_id",
                          VStr (cultpass.experience_id experience));
                         ("title", VStr (cultpass.title experience));
                         ("description",
                          VStr (cultpass.description experience));
                         ("location", opt_str (cultpass.location experience));
                         ("when", opt_iso (cultpass.when experience));
                         ("slots_available",
                          VInt (cultpass.slots_available experience));
                         ("is_premium",
                          VBool (cultpass.is_premium experience));
                         ("is_upcoming",
                          VBool
                            (match cultpass.when experience with
                             | Some t => w_now w <=? t
                             | None => false
                             end)) ])
              | None =>
                  Return
                    (VDict
                       [("error",
                         VStr ("Experience with ID " ++ experience_id
                               ++ " not found")%string)])
              end)
      /\ contains experience_id
           ("Experience with ID " ++ experience_id ++ " not found")%string
         = true).
Proof.
  split; [| split].
  - intros user_email r.
    refine (conj _ (conj _ (conj _ (contains_middle _ _ _)))); subst r;
      unfold user_tools.get_user_info, user_tools.get_db_session,
        open_session, try_finally, query_cultpass, round_trip, close, log,
        bind, ret;
      cbn; destruct (hd false (w_faults w)); cbn; try reflexivity;
      destruct (find _ (cultpass.users (w_cultpass w))); reflexivity.
  - intros article_id r.
    refine (conj _ (conj _ (conj _ (contains_middle _ _ _)))); subst r;
      unfold knowledge_tools.get_article_by_id,
        knowledge_tools.get_db_session, open_session, try_finally,
        query_udahub, round_trip, close, log, bind, ret;
      cbn; destruct (hd false (w_faults w)); cbn; try reflexivity;
      destruct (find _ (udahub.knowledge (w_udahub w))); reflexivity.
  - intros experience_id r.
    refine (conj _ (conj _ (conj _ (contains_middle _ _ _)))); subst r;
      unfold experience_tools.get_experience_details,
        experience_tools.get_db_session, open_session, try_finally,
        query_cultpass, round_trip, close, log, now, bind, ret;
      cbn; destruct (hd false (w_faults w)); cbn; try reflexivity;
      destruct (find _ (cultpass.experiences (w_cultpass w))); reflexivity.
Qed.

End Lookups.

(** ** [update_ticket_status] *)

Lemma update_first_split {A} (p : A -> bool) (f : A -> A) (l : list A)
    (m : A) :
  find p l = Some m ->
  exists before after,
    l = before ++ m :: after
    /\ update_first p f l = before ++ f m :: after
    /\ Forall (fun x => p x = false) before.
Proof.
  induction l as [| x l IH]; [discriminate |].
  cbn [find update_first]. destruct (p x) eqn:Hx.
  - intros H. injection H as <-. exists [], l. repeat split. constructor.
  - intros H. destruct (IH H) as (before & after & -> & Hupd & Hall).
    exists (x :: before), after. cbn. rewrite Hupd. repeat split.
    now constructor.
Qed.

Section Tickets.

Context {R : Runtime}.

Lemma updated_metadata_fields (status : string) (issue_type : option string)
    (m : udahub.TicketMetadata) :
  udahub.md_ticket_id (ticket_tools.updated_metadata status issue_type m)
  = udahub.md_ticket_id m
  /\ udahub.status (ticket_tools.updated_metadata status issue_type m)
     = status
  /\ udahub.md_tags (ticket_tools.updated_metadata status issue_type m)
     = udahub.md_tags m
  /\ udahub.main_issue_type
       (ticket_tools.updated_metadata status issue_type m)
     = (if truthy issue_type then issue_type else udahub.main_issue_type m).
Proof.
  unfold ticket_tools.updated_metadata.
  destruct (truthy issue_type); repeat split.
Qed.

Lemma refreshed_metadata (ticket_id status : string)
    (issue_type : option string) (l : list udahub.TicketMetadata)
    (m : udahub.TicketMetadata) :
  let matches := fun m => String.eqb (udahub.md_ticket_id m) ticket_id in
  find matches l = Some m ->
  find matches
    (update_first matches (ticket_tools.updated_metadata status issue_type) l)
  = Some (ticket_tools.updated_metadata status issue_type m).
Proof.
  intros matches. induction l as [| x l IH]; [discriminate |].
  cbn [find update_first]. destruct (matches x) eqn:Hx.
  - intros H. injection H as <-. cbn [find]. unfold matches in *.
    destruct (updated_metadata_fields status issue_type x) as (-> & _).
    now rewrite Hx.
  - intros H. cbn [find]. rewrite Hx. now apply IH.
Qed.

(** What [update_ticket_status] does on every path.  It never raises and
    never touches the cultpass database.  When the query or the commit
    fails, the session is rolled back, an "error" dict is returned and the
    database is unchanged; when no [TicketMetadata] row matches
    [ticket_id], an "error" dict is returned and the database is unchanged;
    once the commit went through, the first matching row has the given
    status, its [main_issue_type] is replaced only by a given non-empty
    [issue_type], and nothing else has changed.  The reply is then the
    [success] dict, unless [issue_type] is [None] or empty and the read of
    [main_issue_type] that follows the commit fails: the reply is then the
    "error" dict of a failed update, with the update committed. *)
Theorem update_ticket_status_paths (ticket_id status : string)
    (issue_type : option string) (w : world) :
  let r := ticket_tools.update_ticket_status ticket_id status issue_type w in
  let url := sqlite_url ticket_tools.UDAHUB_DB in
  let failed :=
    Return
      (VDict [("error",
               VStr ("Failed to update ticket: "
                     ++ str_exn OperationalError)%string)]) in
  (exists d, fst r = Return (VDict d))
  /\ w_cultpass (snd r) = w_cultpass w
  /\ (if hd false (w_faults w)
      then fst r = failed
           /\ w_udahub (snd r) = w_udahub w
           /\ In (RolledBack url) (w_log (snd r))
      else
        match find (fun m => String.eqb (udahub.md_ticket_id m) ticket_id)
                (udahub.ticket_metadata (w_udahub w)) with
        | None =>
            fst r
            = Return
                (VDict [("error",
                         VStr ("Ticket metadata for " ++ ticket_id
                               ++ " not found")%string)])
            /\ w_udahub (snd r) = w_udahub w
        | Some metadata =>
            if hd false (tl (w_faults w))
            then fst r = failed
                 /\ w_udahub (snd r) = w_udahub w
                 /\ In (RolledBack url) (w_log (snd r))
            else
              exists before after metadata',
                udahub.ticket_metadata (w_udahub w)
                = before ++ metadata :: after
                /\ w_udahub (snd r)
                   = udahub.set_ticket_metadata
                       (before ++ metadata' :: after) (w_udahub w)
                /\ udahub.md_ticket_id metadata'
                   = udahub.md_ticket_id metadata
                /\ udahub.status metadata' = status
                /\ udahub.md_tags metadata' = udahub.md_tags metadata
                /\ udahub.main_issue_type metadata'
                   = (if truthy issue_type then issue_type
                      else udahub.main_issue_type metadata)
                /\ (issue_type = None ->
                    udahub.main_issue_type metadata'
                    = udahub.main_issue_type metadata)
                /\ fst r
                   = (if negb (truthy issue_type)
                         && hd false (tl (tl (w_faults w)))
                      then failed
                      else
                        Return
                          (VDict
                             [ ("success", VBool true);
                               ("ticket_id", VStr ticket_id);
                               ("new_status", VStr status);
                               ("issue_type",
                                opt_str
                                  (udahub.main_issue_type metadata')) ]))
        end).
Proof.
  intros r url failed. subst r url failed.
  unfold ticket_tools.update_ticket_status, ticket_tools.get_db_session,
    open_session, try_finally, try_except, refresh, query_udahub, commit,
    rollback, round_trip, close, log, bind, ret, raise.
  cbn -[ticket_tools.updated_metadata truthy update_first].
  destruct (hd false (w_faults w)) eqn:Hq;
    cbn -[ticket_tools.updated_metadata truthy update_first].
  { split; [eexists; reflexivity |]. repeat split.
    apply in_or_app. left. apply in_or_app. right. now left. }
  destruct (find _ (udahub.ticket_metadata (w_udahub w))) as [m |] eqn:Hfind;
    cbn -[ticket_tools.updated_metadata truthy update_first].
  2:{ split; [eexists; reflexivity |]. repeat split. }
  destruct (hd false (tl (w_faults w))) eqn:Hc;
    cbn -[ticket_tools.updated_metadata truthy update_first].
  { split; [eexists; reflexivity |]. repeat split.
    apply in_or_app. left. apply in_or_app. right. now left. }
  destruct (update_first_split _
              (ticket_tools.updated_metadata status issue_type) _ _ Hfind)
    as (before & after & Heq & Hupd & _).
  destruct (updated_metadata_fields status issue_type m)
    as (Hid & Hst & Htags & Hmain).
  pose proof (refreshed_metadata ticket_id status issue_type _ _ Hfind)
    as Hread. cbv zeta in Hread.
  assert (Hfacts :
    forall P : Prop, P ->
    exists before after metadata',
      udahub.ticket_metadata (w_udahub w) = before ++ m :: after
      /\ udahub.set_ticket_metadata
           (update_first
              (fun m => String.eqb (udahub.md_ticket_id m) ticket_id)
              (ticket_tools.updated_metadata status issue_type)
              (udahub.ticket_metadata (w_udahub w)))
           (w_udahub w)
         = udahub.set_ticket_metadata (before ++ metadata' :: after)
             (w_udahub w)
      /\ udahub.md_ticket_id metadata' = udahub.md_ticket_id m
      /\ udahub.status metadata' = status
      /\ udahub.md_tags metadata' = udahub.md_tags m
      /\ udahub.main_issue_type metadata'
         = (if truthy issue_type then issue_type
            else udahub.main_issue_type m)
      /\ (issue_type = None ->
          udahub.main_issue_type metadata' = udahub.main_issue_type m)
      /\ metadata' = ticket_tools.updated_metadata status issue_type m
      /\ P).
  { intros P HP.
    exists before, after,
      (ticket_tools.updated_metadata status issue_type m).
    split; [exact Heq |]. split; [now rewrite Hupd |].
    split; [exact Hid |]. split; [exact Hst |]. split; [exact Htags |].
    split; [exact Hmain |].
    split; [intros ->; now rewrite Hmain |]. now split. }
  destruct (truthy issue_type) eqn:Ht;
    cbn -[ticket_tools.updated_metadata truthy update_first].
  - split; [eexists; reflexivity |]. split; [reflexivity |].
    destruct (Hfacts True I)
      as (b & a & m' & H1 & H2 & H3 & H4 & H5 & H6 & H7 & -> & _).
    exists b, a, (ticket_tools.updated_metadata status issue_type m).
    repeat (split; [assumption |]). now rewrite Hmain.
  - destruct (hd false (tl (tl (w_faults w)))) eqn:Hr;
      cbn -[ticket_tools.updated_metadata truthy update_first].
    + split; [eexists; reflexivity |]. split; [reflexivity |].
      destruct (Hfacts True I)
        as (b & a & m' & H1 & H2 & H3 & H4 & H5 & H6 & H7 & -> & _).
      exists b, a, (ticket_tools.updated_metadata status issue_type m).
      repeat (split; [assumption |]). reflexivity.
    + rewrite Hread.
      cbn -[ticket_tools.updated_metadata truthy update_first].
      split; [eexists; reflexivity |]. split; [reflexivity |].
      destruct (Hfacts True I)
        as (b & a & m' & H1 & H2 & H3 & H4 & H5 & H6 & H7 & -> & _).
      exists b, a, (ticket_tools.updated_metadata status issue_type m).
      repeat (split; [assumption |]). reflexivity.
Qed.

End Tickets.

(** C4 fails on the code.  On a ticket whose metadata row exists, with no
    [issue_type] given, the reply reads [main_issue_type] back after the
    commit; when that read fails, [update_ticket_status] returns the
    "error" dict of a failed update although the new status is committed:
    the transaction was not rolled back and the database has changed. *)
Theorem update_ticket_status_error_after_commit :
  let w :=
    mkWorld (w_cultpass toy_world) (w_udahub toy_world) (w_now toy_world)
      (w_uuid_seed toy_world) [false; false; true] [] in
  let url := sqlite_url ticket_tools.UDAHUB_DB in
  let r :=
    @ticket_tools.update_ticket_status toy_runtime "t1" "resolved" None w in
  fst r
  = Return
      (VDict [("error",
               VStr "Failed to update ticket: database is locked")])
  /\ udahub.ticket_metadata (w_udahub w)
     = [udahub.mkTicketMetadata "t1" "open" (Some "login") None]
  /\ udahub.ticket_metadata (w_udahub (snd r))
     = [udahub.mkTicketMetadata "t1" "resolved" (Some "login") None]
  /\ w_udahub (snd r) <> w_udahub w
  /\ w_log (snd r)
     = [ Opened url; Executed url; Executed url; Committed url;
         Executed url; RolledBack url; Closed url ].
Proof.
  cbv zeta. split; [reflexivity |]. split; [reflexivity |].
  split; [reflexivity |]. split; [| reflexivity].
  intros H. apply (f_equal udahub.ticket_metadata) in H.
  vm_compute in H. discriminate H.
Qed.

(** ** Which database a tool talks to *)

Section Sessions.

Variable url : string.

Lemma logs_only_ret {A} (a : A) : logs_only url (ret a).
Proof. intros w. exists []. cbn. now rewrite app_nil_r. Qed.

Lemma logs_only_raise {A} (e : exn) : logs_only url (@raise A e).
Proof. intros w. exists []. cbn. now rewrite app_nil_r. Qed.

Lemma logs_only_bind {A B} (c : db A) (k : A -> db B) :
  logs_only url c -> (forall a, logs_only url (k a)) ->
  logs_only url (bind c k).
Proof.
  intros Hc Hk w. unfold bind. destruct (Hc w) as (evs & Hlog & Hall).
  destruct (c w) as [[a | e] w1]; cbn in *.
  - destruct (Hk a w1) as (evs' & Hlog' & Hall').
    exists (evs ++ evs'). rewrite Hlog', Hlog, app_assoc.
    split; [reflexivity | now apply Forall_app].
  - now exists evs.
Qed.

Lemma logs_only_try_finally {A} (c : db A) (fin : db unit) :
  logs_only url c -> logs_only url fin -> logs_only url (try_finally c fin).
Proof.
  intros Hc Hf w. unfold try_finally. destruct (Hc w) as (evs & Hlog & Hall).
  destruct (c w) as [r w1]; cbn in *.
  destruct (Hf w1) as (evs' & Hlog' & Hall').
  exists (evs ++ evs').
  destruct (fin w1) as [[[] | e] w2]; cbn in *;
    (rewrite Hlog', Hlog, app_assoc;
     split; [reflexivity | now apply Forall_app]).
Qed.

Lemma logs_only_try_except {A} (c : db A) (handler : exn -> db A) :
  logs_only url c -> (forall e, logs_only url (handler e)) ->
  logs_only url (try_except c handler).
Proof.
  intros Hc Hh w. unfold try_except. destruct (Hc w) as (evs & Hlog & Hall).
  destruct (c w) as [[a | e] w1]; cbn in *.
  - now exists evs.
  - destruct (Hh e w1) as (evs' & Hlog' & Hall').
    exists (evs ++ evs'). rewrite Hlog', Hlog, app_assoc.
    split; [reflexivity | now apply Forall_app].
Qed.

Lemma logs_only_log (e : event) :
  session_event url e -> logs_only url (log e).
Proof. intros He w. exists [e]. cbn. split; [reflexivity | now constructor]. Qed.

Lemma logs_only_round_trip : logs_only url (round_trip url).
Proof.
  intros w. exists [Executed url]. unfold round_trip.
  destruct (hd false (w_faults w)); cbn;
    (split; [reflexivity | now constructor]).
Qed.

Lemma logs_only_now : logs_only url now.
Proof. intros w. exists []. cbn. now rewrite app_nil_r. Qed.

Lemma logs_only_fresh_uuid {R : Runtime} :
  logs_only url ticket_tools.fresh_uuid.
Proof. intros w. exists []. cbn. now rewrite app_nil_r. Qed.

Lemma logs_only_query_cultpass (s : session) :
  s_url s = url -> logs_only url (query_cultpass s).
Proof.
  intros Hs. unfold query_cultpass. rewrite Hs.
  apply logs_only_bind; [apply logs_only_round_trip |]. intros _.
  destruct (String.eqb _ _); [| apply logs_only_raise].
  intros w. exists []. cbn. now rewrite app_nil_r.
Qed.

Lemma logs_only_query_udahub (s : session) :
  s_url s = url -> logs_only url (query_udahub s).
Proof.
  intros Hs. unfold query_udahub. rewrite Hs.
  apply logs_only_bind; [apply logs_only_round_trip |]. intros _.
  destruct (String.eqb _ _); [| apply logs_only_raise].
  destruct (s_dirty s); [apply logs_only_ret |].
  intros w. exists []. cbn. now rewrite app_nil_r.
Qed.

Lemma logs_only_commit (s : session) :
  s_url s = url -> logs_only url (commit s).
Proof.
  intros Hs. unfold commit. rewrite Hs.
  apply logs_only_bind; [apply logs_only_round_trip |]. intros _.
  apply logs_only_bind; [now apply logs_only_log |]. intros _.
  destruct (s_dirty s); [| apply logs_only_ret].
  intros w. exists []. cbn. now rewrite app_nil_r.
Qed.

Lemma logs_only_rollback (s : session) :
  s_url s = url -> logs_only url (rollback s).
Proof. intros Hs. unfold rollback. rewrite Hs. now apply logs_only_log. Qed.

Lemma logs_only_close (s : session) :
  s_url s = url -> logs_only url (close s).
Proof. intros Hs. unfold close. rewrite Hs. now apply logs_only_log. Qed.

Lemma logs_only_mapM {A B} (f : A -> db B) (l : list A) :
  (forall a, logs_only url (f a)) -> logs_only url (mapM f l).
Proof.
  intros Hf. induction l as [| x l IH]; cbn [mapM].
  - apply logs_only_ret.
  - apply logs_only_bind; [apply Hf |]. intros y.
    apply logs_only_bind; [exact IH |]. intros ys. apply logs_only_ret.
Qed.

(** A tool: open a session on [url], then work through that session. *)
Lemma opened_then_logs_only {A} (body : session -> db A) :
  (forall s, s_url s = url -> logs_only url (body s)) ->
  forall w,
    exists evs,
      w_log (snd (bind (open_session url) body w))
      = w_log w ++ Opened url :: evs
      /\ Forall (session_event url) evs.
Proof.
  intros Hbody w. unfold bind at 1, open_session, bind, log, ret. cbn.
  destruct (Hbody (mkSession url None) eq_refl
              (mkWorld (w_cultpass w) (w_udahub w) (w_now w) (w_uuid_seed w)
                 (w_faults w) (w_log w ++ [Opened url])))
    as (evs & Hlog & Hall).
  exists evs. rewrite Hlog. cbn. rewrite <- app_assoc. now split.
Qed.

End Sessions.

(** Works through a tool body, one construct at a time. *)
Ltac logs_only_step Hs :=
  first
    [ apply logs_only_ret
    | apply logs_only_raise
    | apply logs_only_now
    | apply logs_only_fresh_uuid
    | apply logs_only_query_cultpass; exact Hs
    | apply logs_only_query_udahub; exact Hs
    | apply logs_only_commit; exact Hs
    | apply logs_only_rollback; exact Hs
    | apply logs_only_close; exact Hs
    | apply logs_only_try_finally
    | apply logs_only_try_except; [| intros ?]
    | apply logs_only_mapM; intros ?
    | apply logs_only_bind; [| intros ?]
    | match goal with
      | |- logs_only _ (match ?x with _ => _ end) => destruct x
      | |- logs_only _ (if ?b then _ else _) => destruct b
      end ].

Ltac logs_only_tool :=
  let s := fresh "s" in
  let Hs := fresh "Hs" in
  apply opened_then_logs_only; intros s Hs;
  repeat logs_only_step Hs.

Section Schemas.

Context {R : Runtime}.

(** C6: every database tool of the third module opens one session, bound
    to the database of exactly one schema, and every query, commit,
    rollback and close it makes goes through that session: the cultpass
    database ([data/external/cultpass.db]) for the user and experience
    tools, the udahub database ([data/core/udahub.db]) for the knowledge
    and ticket tools. *)
Theorem tools_query_one_schema (c : workflow.tool_call) (w : world) :
  let url := workflow.spec_url (workflow.module_of (workflow.tool_of c)) in
  In (workflow.tool_of c) workflow.ALL_TOOLS
  /\ (user_tools.get_db_session
      = open_session (workflow.spec_url workflow.user_tools_py)
      /\ experience_tools.get_db_session
         = open_session (workflow.spec_url workflow.experience_tools_py)
      /\ knowledge_tools.get_db_session
         = open_session (workflow.spec_url workflow.knowledge_tools_py)
      /\ ticket_tools.get_db_session
         = open_session (workflow.spec_url workflow.ticket_tools_py))
  /\ exists evs,
       w_log (snd (workflow.invoke_tool c w)) = w_log w ++ Opened url :: evs
       /\ Forall (session_event url) evs.
Proof.
  intros url. split.
  { destruct c; cbn; auto 12. }
  split; [repeat split |].
  subst url. destruct c; cbn [workflow.invoke_tool workflow.tool_of
    workflow.module_of workflow.spec_url].
  - unfold knowledge_tools.search_knowledge_base,
      knowledge_tools.get_db_session. logs_only_tool.
  - unfold knowledge_tools.get_article_by_id,
      knowledge_tools.get_db_session. logs_only_tool.
  - unfold user_tools.get_user_info, user_tools.get_db_session.
    logs_only_tool.
  - unfold user_tools.get_user_subscription, user_tools.get_db_session.
    logs_only_tool.
  - unfold user_tools.get_user_reservations, user_tools.get_db_session.
    logs_only_tool.
  - unfold experience_tools.get_available_experiences,
      experience_tools.get_db_session. logs_only_tool.
  - unfold experience_tools.get_experience_details,
      experience_tools.get_db_session. logs_only_tool.
  - unfold ticket_tools.get_ticket_info, ticket_tools.get_db_session.
    logs_only_tool.
  - unfold ticket_tools.update_ticket_status, ticket_tools.get_db_session.
    logs_only_tool.
  - unfold ticket_tools.add_ticket_message, ticket_tools.get_db_session.
    logs_only_tool.
Qed.

End Schemas.

End CultPassFacts.

(** * More facts about course-03 *)

Module CultPassExtra.
Import CultPass CultPassSpec.

(** ** Relations kept by every step of a tool *)

Section Frame.

Variable Inv : world -> world -> Prop.
Hypothesis Inv_refl : forall w, Inv w w.
Hypothesis Inv_trans : forall a b c, Inv a b -> Inv b c -> Inv a c.

Lemma preserves_ret {A} (a : A) : preserves Inv (ret a).
Proof. intros w. apply Inv_refl. Qed.

Lemma preserves_raise {A} (e : exn) : preserves Inv (@raise A e).
Proof. intros w. apply Inv_refl. Qed.

Lemma preserves_now : preserves Inv now.
Proof. intros w. apply Inv_refl. Qed.

Lemma preserves_bind {A B} (c : db A) (k : A -> db B) :
  preserves Inv c -> (forall a, preserves Inv (k a)) ->
  preserves Inv (bind c k).
Proof.
  intros Hc Hk w. unfold bind. specialize (Hc w).
  destruct (c w) as [[a | e] w1]; cbn in *; [| exact Hc].
  exact (Inv_trans _ _ _ Hc (Hk a w1)).
Qed.

Lemma preserves_try_finally {A} (c : db A) (fin : db unit) :
  preserves Inv c -> preserves Inv fin -> preserves Inv (try_finally c fin).
Proof.
  intros Hc Hf w. unfold try_finally. specialize (Hc w).
  destruct (c w) as [r w1]; cbn in *. specialize (Hf w1).
  destruct (fin w1) as [[[] | e] w2]; cbn in *;
    exact (Inv_trans _ _ _ Hc Hf).
Qed.

Lemma preserves_try_except {A} (c : db A) (handler : exn -> db A) :
  preserves Inv c -> (forall e, preserves Inv (handler e)) ->
  preserves Inv (try_except c handler).
Proof.
  intros Hc Hh w. unfold try_except. specialize (Hc w).
  destruct (c w) as [[a | e] w1]; cbn in *; [exact Hc |].
  exact (Inv_trans _ _ _ Hc (Hh e w1)).
Qed.

Lemma preserves_mapM {A B} (f : A -> db B) (l : list A) :
  (forall a, preserves Inv (f a)) -> preserves Inv (mapM f l).
Proof.
  intros Hf. induction l as [| x l IH]; cbn [mapM].
  - apply preserves_ret.
  - apply preserves_bind; [apply Hf |]. intros y.
    apply preserves_bind; [exact IH |]. intros ys. apply preserves_ret.
Qed.

Lemma preserves_query_cultpass (s : session) :
  preserves Inv (round_trip (s_url s)) -> preserves Inv (query_cultpass s).
Proof.
  intros Hr. unfold query_cultpass. apply preserves_bind; [exact Hr |].
  intros _. destruct (String.eqb _ _); [| apply preserves_raise].
  intros w. apply Inv_refl.
Qed.

Lemma preserves_query_udahub (s : session) :
  preserves Inv (round_trip (s_url s)) -> preserves Inv (query_udahub s).
Proof.
  intros Hr. unfold query_udahub. apply preserves_bind; [exact Hr |].
  intros _. destruct (String.eqb _ _); [| apply preserves_raise].
  destruct (s_dirty s); [apply preserves_ret |].
  intros w. apply Inv_refl.
Qed.

End Frame.

Lemma same_data_refl (w : world) : same_data w w.
Proof. now split. Qed.

Lemma same_data_trans (a b c : world) :
  same_data a b -> same_data b c -> same_data a c.
Proof. intros [H1 H2] [H3 H4]. split; congruence. Qed.

Lemma same_data_round_trip (url : string) :
  preserves same_data (round_trip url).
Proof.
  intros w. unfold round_trip. destruct (hd false (w_faults w)); now split.
Qed.

Lemma same_data_log (e : event) : preserves same_data (log e).
Proof. intros w. now split. Qed.

Lemma logged_refl (P : event -> Prop) (w : world) : logged P w w.
Proof. exists []. now rewrite app_nil_r. Qed.

Lemma logged_trans (P : event -> Prop) (a b c : world) :
  logged P a b -> logged P b c -> logged P a c.
Proof.
  intros (e1 & H1 & A1) (e2 & H2 & A2). exists (e1 ++ e2).
  rewrite H2, H1, app_assoc. split; [reflexivity | now apply Forall_app].
Qed.

Lemma logged_log (P : event -> Prop) (e : event) :
  P e -> preserves (logged P) (log e).
Proof. intros He w. exists [e]. cbn. split; [reflexivity | now constructor]. Qed.

Lemma logged_round_trip (P : event -> Prop) (url : string) :
  P (Executed url) -> preserves (logged P) (round_trip url).
Proof.
  intros He w. exists [Executed url]. unfold round_trip.
  destruct (hd false (w_faults w)); cbn;
    (split; [reflexivity | now constructor]).
Qed.

Lemma logged_fresh_uuid {R : Runtime} (P : event -> Prop) :
  preserves (logged P) ticket_tools.fresh_uuid.
Proof. intros w. exists []. cbn. now rewrite app_nil_r. Qed.

Lemma logged_commit (P : event -> Prop) (s : session) :
  P (Executed (s_url s)) -> P (Committed (s_url s)) ->
  preserves (logged P) (commit s).
Proof.
  intros He Hc. unfold commit.
  apply preserves_bind;
    [apply logged_trans | now apply logged_round_trip |].
  intros _. apply preserves_bind;
    [apply logged_trans | now apply logged_log |].
  intros _. destruct (s_dirty s);
    [| apply preserves_ret, logged_refl].
  intros w. exists []. cbn. now rewrite app_nil_r.
Qed.

(** Walks through the body of a tool; [prim] settles the steps that touch
    the world. *)
Ltac frame_step refl trans prim :=
  lazymatch goal with
  | |- preserves _ (ret _) => apply preserves_ret; refl
  | |- preserves _ (raise _) => apply preserves_raise; refl
  | |- preserves _ now => apply preserves_now; refl
  | |- preserves _ (query_cultpass _) =>
      apply preserves_query_cultpass; [refl | trans | prim]
  | |- preserves _ (query_udahub _) =>
      apply preserves_query_udahub; [refl | trans | prim]
  | |- preserves _ (refresh _) => unfold refresh
  | |- preserves _ (try_finally _ _) =>
      apply preserves_try_finally; [trans | |]
  | |- preserves _ (try_except _ _) =>
      apply preserves_try_except; [trans | | intros ?]
  | |- preserves _ (mapM _ _) =>
      apply preserves_mapM; [refl | trans | intros ?]
  | |- preserves _ (bind _ _) => apply preserves_bind; [trans | | intros ?]
  | |- preserves _ (match ?x with _ => _ end) => destruct x
  | |- preserves _ _ => prim
  end.

(** ** Reading tools leave the data alone *)

Ltac same_data_prim :=
  first [ apply same_data_round_trip | apply same_data_log ].

Ltac same_data_tool :=
  unfold open_session, close;
  repeat frame_step ltac:(exact same_data_refl) ltac:(exact same_data_trans)
           same_data_prim.

Section ReadOnly.

Context {R : Runtime}.

Lemma reading_tool_preserves_data (c : workflow.tool_call) :
  is_writer (workflow.tool_of c) = false ->
  preserves same_data (workflow.invoke_tool c).
Proof.
  intros Hw.
  destruct c; try discriminate Hw; cbn [workflow.invoke_tool].
  - unfold knowledge_tools.search_knowledge_base,
      knowledge_tools.get_db_session. same_data_tool.
  - unfold knowledge_tools.get_article_by_id,
      knowledge_tools.get_db_session. same_data_tool.
  - unfold user_tools.get_user_info, user_tools.get_db_session.
    same_data_tool.
  - unfold user_tools.get_user_subscription, user_tools.get_db_session.
    same_data_tool.
  - unfold user_tools.get_user_reservations, user_tools.get_db_session.
    same_data_tool.
  - unfold experience_tools.get_available_experiences,
      experience_tools.get_db_session. same_data_tool.
  - unfold experience_tools.get_experience_details,
      experience_tools.get_db_session. same_data_tool.
  - unfold ticket_tools.get_ticket_info, ticket_tools.get_db_session.
    same_data_tool.
Qed.

(** Every tool but [update_ticket_status] and [add_ticket_message] leaves
    both databases as they were, in every world: with or without matching
    rows, and also when a query raises. *)
Theorem reading_tools_keep_data (c : workflow.tool_call) (w : world) :
  is_writer (workflow.tool_of c) = false ->
  same_data w (snd (workflow.invoke_tool c w)).
Proof. intros Hw. exact (reading_tool_preserves_data c Hw w). Qed.

End ReadOnly.

Lemma reading_tools_keep_data_witness :
  same_data toy_world
    (snd (@workflow.invoke_tool toy_runtime
            (workflow.GetUserReservations "u1") toy_world)).
Proof.
  exact (@reading_tools_keep_data toy_runtime
           (workflow.GetUserReservations "u1") toy_world eq_refl).
Defined.

(** ** Every session is closed *)

Lemma session_opened_and_closed {A} (url : string) (body : session -> db A) :
  (forall s, s_url s = url -> preserves (logged (work_event url)) (body s)) ->
  forall w,
    exists evs,
      w_log (snd (bind (open_session url)
                    (fun s => try_finally (body s) (close s)) w))
      = w_log w ++ Opened url :: evs ++ [Closed url]
      /\ Forall (work_event url) evs.
Proof.
  intros Hbody w. unfold bind at 1, open_session, bind, log, ret. cbn.
  unfold try_finally.
  destruct (Hbody (mkSession url None) eq_refl
              (mkWorld (w_cultpass w) (w_udahub w) (w_now w) (w_uuid_seed w)
                 (w_faults w) (w_log w ++ [Opened url])))
    as (evs & Hlog & Hall).
  destruct (body _ _) as [r w1]. cbn in *.
  exists evs. rewrite Hlog. cbn. rewrite <- !app_assoc. now split.
Qed.

Ltac logged_prim Hs :=
  first
    [ apply logged_round_trip; cbn; exact Hs
    | apply logged_commit; cbn; exact Hs
    | apply logged_fresh_uuid
    | unfold rollback; apply logged_log; cbn; exact Hs ].

Ltac session_tool :=
  let s := fresh "s" in
  let Hs := fresh "Hs" in
  apply session_opened_and_closed; intros s Hs;
  repeat frame_step ltac:(apply logged_refl) ltac:(apply logged_trans)
           ltac:(logged_prim Hs).

Section Closing.

Context {R : Runtime}.

(** Every tool opens exactly one session and closes it as its last act, on
    every path: a missing row, a raised query, a failed commit.  Between the
    two, the log holds only round trips, commits and rollbacks of that
    session. *)
Theorem tools_close_their_session (c : workflow.tool_call) (w : world) :
  exists evs,
    w_log (snd (workflow.invoke_tool c w))
    = w_log w
      ++ Opened (workflow.spec_url (workflow.module_of (workflow.tool_of c)))
         :: evs
      ++ [Closed (workflow.spec_url
                    (workflow.module_of (workflow.tool_of c)))]
    /\ Forall
         (work_event
            (workflow.spec_url (workflow.module_of (workflow.tool_of c))))
         evs.
Proof.
  destruct c; cbn [workflow.invoke_tool workflow.tool_of
    workflow.module_of workflow.spec_url].
  - unfold knowledge_tools.search_knowledge_base,
      knowledge_tools.get_db_session. session_tool.
  - unfold knowledge_tools.get_article_by_id,
      knowledge_tools.get_db_session. session_tool.
  - unfold user_tools.get_user_info, user_tools.get_db_session.
    session_tool.
  - unfold user_tools.get_user_subscription, user_tools.get_db_session.
    session_tool.
  - unfold user_tools.get_user_reservations, user_tools.get_db_session.
    session_tool.
  - unfold experience_tools.get_available_experiences,
      experience_tools.get_db_session. session_tool.
  - unfold experience_tools.get_experience_details,
      experience_tools.get_db_session. session_tool.
  - unfold ticket_tools.get_ticket_info, ticket_tools.get_db_session.
    session_tool.
  - unfold ticket_tools.update_ticket_status, ticket_tools.get_db_session.
    session_tool.
  - unfold ticket_tools.add_ticket_message, ticket_tools.get_db_session.
    session_tool.
Qed.

End Closing.

(** ** The specialised agents *)

Section Agents.

Context {R : Runtime}.

(** The account agent and the knowledge agent cannot change any data:
    whatever tool of theirs the model calls, with whatever arguments, both
    databases stay as they were; and each of the two reaches one database
    only: every session a tool of the account agent opens is bound to
    data/external/cultpass.db, every session a tool of the knowledge agent
    opens to data/core/udahub.db, and all the work of the run goes through
    that one session. *)
Theorem account_and_knowledge_agents_only_read (model_id : string)
    (c : workflow.tool_call) (w : world) :
  In (workflow.tool_of c)
    (workflow.tools (SupportAgents.create_account_agent model_id))
  \/ In (workflow.tool_of c)
       (workflow.tools (SupportAgents.create_knowledge_agent model_id)) ->
  same_data w (snd (workflow.invoke_tool c w))
  /\ In (workflow.tool_of c) (workflow.tools workflow.orchestrator)
  /\ (In (workflow.tool_of c)
        (workflow.tools (SupportAgents.create_account_agent model_id)) ->
      exists evs,
        w_log (snd (workflow.invoke_tool c w))
        = w_log w
          ++ Opened "sqlite:///data/external/cultpass.db"
             :: evs ++ [Closed "sqlite:///data/external/cultpass.db"]
        /\ Forall (work_event "sqlite:///data/external/cultpass.db") evs)
  /\ (In (workflow.tool_of c)
        (workflow.tools (SupportAgents.create_knowledge_agent model_id)) ->
      exists evs,
        w_log (snd (workflow.invoke_tool c w))
        = w_log w
          ++ Opened "sqlite:///data/core/udahub.db"
             :: evs ++ [Closed "sqlite:///data/core/udahub.db"]
        /\ Forall (work_event "sqlite:///data/core/udahub.db") evs).
Proof.
  intros Hin.
  assert (Hr : is_writer (workflow.tool_of c) = false).
  { destruct Hin as [Hin | Hin]; cbn in Hin;
      repeat (destruct Hin as [<- | Hin]; [reflexivity |]); destruct Hin. }
  split; [exact (reading_tool_preserves_data c Hr w) |].
  split; [destruct c; cbn; auto 12 |].
  clear Hin Hr.
  split; intros H; destruct c; cbn in H;
    try (exfalso;
         repeat (destruct H as [H | H]; [discriminate H |]); exact H);
    clear H; cbn [workflow.invoke_tool].
  - unfold user_tools.get_user_info, user_tools.get_db_session.
    session_tool.
  - unfold user_tools.get_user_subscription, user_tools.get_db_session.
    session_tool.
  - unfold user_tools.get_user_reservations, user_tools.get_db_session.
    session_tool.
  - unfold experience_tools.get_available_experiences,
      experience_tools.get_db_session. session_tool.
  - unfold experience_tools.get_experience_details,
      experience_tools.get_db_session. session_tool.
  - unfold knowledge_tools.search_knowledge_base,
      knowledge_tools.get_db_session. session_tool.
  - unfold knowledge_tools.get_article_by_id,
      knowledge_tools.get_db_session. session_tool.
Qed.

End Agents.

Lemma account_and_knowledge_agents_only_read_witness :
  same_data toy_world
    (snd (@workflow.invoke_tool toy_runtime
            (workflow.GetUserSubscription "u1") toy_world))
  /\ In workflow.get_user_subscription
       (workflow.tools workflow.orchestrator)
  /\ exists evs,
       w_log (snd (@workflow.invoke_tool toy_runtime
                     (workflow.GetUserSubscription "u1") toy_world))
       = Opened "sqlite:///data/external/cultpass.db"
         :: evs ++ [Closed "sqlite:///data/external/cultpass.db"]
       /\ Forall (work_event "sqlite:///data/external/cultpass.db") evs.
Proof.
  pose proof (@account_and_knowledge_agents_only_read toy_runtime
                "gpt-4o-mini" (workflow.GetUserSubscription "u1") toy_world
                (or_introl (or_intror (or_introl eq_refl)))) as H.
  exact (conj (proj1 H)
           (conj (proj1 (proj2 H))
              (proj1 (proj2 (proj2 H)) (or_intror (or_introl eq_refl))))).
Defined.

(** ** Writing tools *)

Section Writers.

Context {R : Runtime}.

Lemma find_app_last {A} (p : A -> bool) (l : list A) (x : A) :
  p x = true -> exists y, find p (l ++ [x]) = Some y /\ p y = true.
Proof.
  intros Hx. induction l as [| a l IH]; cbn [app find].
  - rewrite Hx. now exists x.
  - destruct (p a) eqn:Ha; [now exists a | exact IH].
Qed.


End Writers.

(** ** The stable sort, for any order *)

Section GenSort.

Context {A : Type}.
Variable before : A -> A -> bool.

Lemma insert_sorted_permutation (x : A) (l : list A) :
  Permutation (insert_sorted before x l) (x :: l).
Proof.
  induction l as [| y l IH]; simpl; [reflexivity |].
  destruct (before x y); [reflexivity |].
  rewrite IH. apply perm_swap.
Qed.

Lemma stable_sort_permutation (l : list A) :
  Permutation (stable_sort before l) l.
Proof.
  induction l as [| x l IH]; [reflexivity |].
  unfold stable_sort in *. cbn [fold_right].
  rewrite insert_sorted_permutation. now constructor.
Qed.

Hypothesis before_total : forall x y, before x y = false -> before y x = true.
Hypothesis before_trans :
  forall x y z, before x y = true -> before y z = true -> before x z = true.

Lemma insert_sorted_ordered (x : A) (l : list A) :
  StronglySorted (fun a b => before a b = true) l ->
  StronglySorted (fun a b => before a b = true) (insert_sorted before x l).
Proof.
  induction 1 as [| y l Hl IH Hy]; cbn [insert_sorted].
  - constructor; constructor.
  - destruct (before x y) eqn:E.
    + constructor; [now constructor |]. constructor; [exact E |].
      rewrite Forall_forall in *. intros z Hz.
      exact (before_trans _ _ _ E (Hy z Hz)).
    + constructor; [exact IH |].
      rewrite Forall_forall in *. intros z Hz.
      apply (Permutation_in _ (insert_sorted_permutation x l)) in Hz.
      destruct Hz as [<- | Hz]; [now apply before_total | now apply Hy].
Qed.

Lemma stable_sort_ordered (l : list A) :
  StronglySorted (fun a b => before a b = true) (stable_sort before l).
Proof.
  induction l as [| x l IH]; [constructor |].
  unfold stable_sort in *. cbn [fold_right]. now apply insert_sorted_ordered.
Qed.

End GenSort.

Lemma opt_le_total (a b : option datetime) :
  opt_le a b = false -> opt_le b a = true.
Proof.
  destruct a, b; cbn; try discriminate; auto.
  intros H. apply Z.leb_gt in H. apply Z.leb_le. lia.
Qed.

Lemma opt_le_trans (a b c : option datetime) :
  opt_le a b = true -> opt_le b c = true -> opt_le a c = true.
Proof.
  destruct a, b, c; cbn; try discriminate; auto.
  intros H1 H2. apply Z.leb_le in H1, H2. apply Z.leb_le. lia.
Qed.

(** ** Writing, then reading back *)

Lemma find_update_first {A} (p : A -> bool) (f : A -> A) (l : list A)
    (m : A) :
  (forall x, p (f x) = p x) ->
  find p l = Some m -> find p (update_first p f l) = Some (f m).
Proof.
  intros Hp. induction l as [| x l IH]; [discriminate |].
  cbn [find update_first]. destruct (p x) eqn:Hx.
  - intros H. injection H as <-. cbn [find]. now rewrite Hp, Hx.
  - intros H. cbn [find]. rewrite Hx. now apply IH.
Qed.

Lemma update_first_idempotent {A} (p : A -> bool) (f : A -> A)
    (l : list A) :
  (forall x, p (f x) = p x) -> (forall x, f (f x) = f x) ->
  update_first p f (update_first p f l) = update_first p f l.
Proof.
  intros Hp Hf. induction l as [| x l IH]; [reflexivity |].
  cbn [update_first]. destruct (p x) eqn:Hx; cbn [update_first].
  - now rewrite Hp, Hx, Hf.
  - now rewrite Hx, IH.
Qed.

Section RoundTrips.

Context {R : Runtime}.

(** The dict [get_ticket_info] builds for a ticket, from the content of the
    udahub database. *)
Lemma get_ticket_info_run (ticket_id : string) (w : world) :
  w_faults w = [] ->
  fst (ticket_tools.get_ticket_info ticket_id w)
  = match find (fun t => String.eqb (udahub.ticket_id t) ticket_id)
            (udahub.tickets (w_udahub w)) with
    | None =>
        Return
          (VDict [("error",
                   VStr ("Ticket with ID " ++ ticket_id
                         ++ " not found")%string)])
    | Some ticket =>
        let metadata :=
          find (fun m => String.eqb (udahub.md_ticket_id m) ticket_id)
            (udahub.ticket_metadata (w_udahub w)) in
        let user :=
          find (fun u => String.eqb (udahub.u_user_id u)
                           (udahub.user_id ticket))
            (udahub.users (w_udahub w)) in
        Return
          (VDict
             [ ("ticket_id", VStr (udahub.ticket_id ticket));
               ("channel", VStr (udahub.channel ticket));
               ("created_at", opt_iso (udahub.created_at ticket));
               ("user",
                VDict
                  [ ("user_id", opt_str (option_map udahub.u_user_id user));
                    ("user_name", opt_str (option_map udahub.user_name user));
                    ("external_user_id",
                     opt_str (option_map udahub.external_user_id user)) ]);
               ("metadata",
                VDict
                  [ ("status", opt_str (option_map udahub.status metadata));
                    ("main_issue_type",
                     match metadata with
                     | Some m => opt_str (udahub.main_issue_type m)
                     | None => VNone
                     end);
                    ("tags",
                     match metadata with
                     | Some m => opt_str (udahub.md_tags m)
                     | None => VNone
                     end) ]);
               ("messages",
                VList
                  (map (fun m => VDict (ticket_tools.message_dict m))
                     (stable_sort
                        (fun x y =>
                           opt_le (udahub.msg_created_at x)
                             (udahub.msg_created_at y))
                        (filter
                           (fun m =>
                              String.eqb (udahub.msg_ticket_id m) ticket_id)
                           (udahub.ticket_messages (w_udahub w)))))) ])
    end.
Proof.
  intros Hf.
  unfold ticket_tools.get_ticket_info, ticket_tools.get_db_session,
    open_session, try_finally, query_udahub, round_trip, close, log, bind,
    ret.
  cbn -[stable_sort]. rewrite Hf. cbn -[stable_sort].
  destruct (find _ (udahub.tickets (w_udahub w))); reflexivity.
Qed.

Lemma update_ticket_status_run (ticket_id status : string)
    (issue_type : option string) (w : world) (m : udahub.TicketMetadata) :
  w_faults w = [] ->
  find (fun m => String.eqb (udahub.md_ticket_id m) ticket_id)
    (udahub.ticket_metadata (w_udahub w)) = Some m ->
  let r := ticket_tools.update_ticket_status ticket_id status issue_type w in
  w_faults (snd r) = []
  /\ w_cultpass (snd r) = w_cultpass w
  /\ w_udahub (snd r)
     = udahub.set_ticket_metadata
         (update_first
            (fun m => String.eqb (udahub.md_ticket_id m) ticket_id)
            (ticket_tools.updated_metadata status issue_type)
            (udahub.ticket_metadata (w_udahub w)))
         (w_udahub w)
  /\ fst r
     = Return
         (VDict
            [ ("success", VBool true);
              ("ticket_id", VStr ticket_id);
              ("new_status", VStr status);
              ("issue_type",
               if truthy issue_type then opt_str issue_type
               else opt_str (udahub.main_issue_type m)) ]).
Proof.
  intros Hf Hm r. subst r.
  pose proof (CultPassFacts.refreshed_metadata ticket_id status issue_type
                _ _ Hm) as Hread. cbv zeta in Hread.
  unfold ticket_tools.update_ticket_status, ticket_tools.get_db_session,
    open_session, try_finally, try_except, refresh, query_udahub, commit,
    rollback, round_trip, close, log, bind, ret, raise.
  cbn -[ticket_tools.updated_metadata truthy update_first].
  rewrite Hf. cbn -[ticket_tools.updated_metadata truthy update_first].
  rewrite Hm. cbn -[ticket_tools.updated_metadata truthy update_first].
  destruct (truthy issue_type) eqn:Ht;
    cbn -[ticket_tools.updated_metadata truthy update_first].
  - repeat split.
  - rewrite Hread.
    cbn -[ticket_tools.updated_metadata truthy update_first].
    repeat split. unfold ticket_tools.updated_metadata. now rewrite Ht.
Qed.

(** A status written by [update_ticket_status] is the status
    [get_ticket_info] reads back for that ticket, and a given non-empty
    issue type likewise. *)
Theorem update_then_get_ticket_info (ticket_id status : string)
    (issue_type : option string) (w : world) (t : udahub.Ticket)
    (m : udahub.TicketMetadata) :
  w_faults w = [] ->
  find (fun t => String.eqb (udahub.ticket_id t) ticket_id)
    (udahub.tickets (w_udahub w)) = Some t ->
  find (fun m => String.eqb (udahub.md_ticket_id m) ticket_id)
    (udahub.ticket_metadata (w_udahub w)) = Some m ->
  let w' :=
    snd (ticket_tools.update_ticket_status ticket_id status issue_type w) in
  exists d md,
    fst (ticket_tools.get_ticket_info ticket_id w') = Return (VDict d)
    /\ dict_get "metadata" d = Some (VDict md)
    /\ dict_get "status" md = Some (VStr status)
    /\ dict_get "main_issue_type" md
       = Some (if truthy issue_type then opt_str issue_type
               else opt_str (udahub.main_issue_type m)).
Proof.
  intros Hf Ht Hm w'.
  destruct (update_ticket_status_run ticket_id status issue_type w m Hf Hm)
    as (Hf' & _ & Hdb & _).
  fold w' in Hf', Hdb.
  rewrite (get_ticket_info_run ticket_id w' Hf'), Hdb.
  cbn [udahub.set_ticket_metadata udahub.tickets udahub.ticket_metadata
       udahub.users udahub.ticket_messages].
  rewrite Ht.
  rewrite (find_update_first _ _ _ m (fun x =>
             f_equal (fun i => String.eqb i ticket_id)
               (proj1 (CultPassFacts.updated_metadata_fields status
                         issue_type x))) Hm).
  destruct (CultPassFacts.updated_metadata_fields status issue_type m)
    as (_ & Hst & _ & Hmain).
  eexists _, _. split; [reflexivity |]. split; [reflexivity |].
  cbn [dict_get find fst snd option_map String.eqb Ascii.eqb Bool.eqb].
  rewrite Hst, Hmain. split; [reflexivity |].
  destruct (truthy issue_type) eqn:E; [| reflexivity].
  reflexivity.
Qed.

End RoundTrips.

Lemma update_then_get_ticket_info_witness :
  exists d md,
    fst (@ticket_tools.get_ticket_info toy_runtime "t1"
           (snd (@ticket_tools.update_ticket_status toy_runtime "t1"
                   "resolved" (Some "billing") toy_world)))
    = Return (VDict d)
    /\ dict_get "metadata" d = Some (VDict md)
    /\ dict_get "status" md = Some (VStr "resolved")
    /\ dict_get "main_issue_type" md = Some (VStr "billing").
Proof.
  exact (@update_then_get_ticket_info toy_runtime "t1" "resolved"
           (Some "billing") toy_world _ _ eq_refl eq_refl eq_refl).
Defined.

Section MoreRoundTrips.

Context {R : Runtime}.

Lemma add_ticket_message_run (ticket_id content role : string) (w : world)
    (t : udahub.Ticket) (member : EnumMember) :
  w_faults w = [] ->
  find (fun t => String.eqb (udahub.ticket_id t) ticket_id)
    (udahub.tickets (w_udahub w)) = Some t ->
  role_member role = Some member ->
  let r := ticket_tools.add_ticket_message ticket_id content role w in
  w_faults (snd r) = []
  /\ w_udahub (snd r)
     = udahub.set_ticket_messages
         (udahub.ticket_messages (w_udahub w)
          ++ [udahub.mkTicketMessage (uuid4 (w_uuid_seed w)) ticket_id
                (Some member) content (default_created_at (w_now w))])
         (w_udahub w)
  /\ fst r
     = Return
         (VDict
            [ ("success", VBool true);
              ("message_id", VStr (uuid4 (w_uuid_seed w)));
              ("ticket_id", VStr ticket_id) ]).
Proof.
  intros Hf Ht Hrole r. subst r.
  unfold ticket_tools.add_ticket_message, ticket_tools.get_db_session,
    ticket_tools.fresh_uuid, open_session, try_finally, try_except, refresh,
    query_udahub, commit, rollback, round_trip, close, log, now, bind, ret,
    raise.
  cbn. rewrite Hf. cbn. rewrite Ht. cbn. rewrite Hrole. cbn.
  match goal with
  | |- context [find ?p (?l ++ [?x])] =>
      destruct (find_app_last p l x) as (y & Hy & Hp);
        [cbn; apply String.eqb_refl |]
  end.
  rewrite Hy. cbn. apply String.eqb_eq in Hp. rewrite Hp.
  repeat split.
Qed.

(** A message added by [add_ticket_message], with a role that designates
    a member of the enum, is among the messages [get_ticket_info] reads back
    for that ticket, which are one more than before; its role is rendered
    as the value of that member (as [None] if the member is false). *)
Theorem add_then_get_ticket_info (ticket_id content role : string)
    (w : world) (t : udahub.Ticket) (member : EnumMember) :
  w_faults w = [] ->
  find (fun t => String.eqb (udahub.ticket_id t) ticket_id)
    (udahub.tickets (w_udahub w)) = Some t ->
  role_member role = Some member ->
  let w' :=
    snd (ticket_tools.add_ticket_message ticket_id content role w) in
  exists d msgs,
    fst (ticket_tools.get_ticket_info ticket_id w') = Return (VDict d)
    /\ dict_get "messages" d = Some (VList msgs)
    /\ In (VDict [ ("role",
                    if member_truthy member then VStr (value member)
                    else VNone);
                   ("content", VStr content);
                   ("created_at", opt_iso (default_created_at (w_now w))) ])
         msgs
    /\ List.length msgs
       = S (List.length
              (filter (fun m => String.eqb (udahub.msg_ticket_id m) ticket_id)
                 (udahub.ticket_messages (w_udahub w)))).
Proof.
  intros Hf Ht Hrole w'.
  destruct (add_ticket_message_run ticket_id content role w t member Hf Ht
              Hrole) as (Hf' & Hdb & _).
  fold w' in Hf', Hdb.
  rewrite (get_ticket_info_run ticket_id w' Hf'), Hdb.
  cbn [udahub.set_ticket_messages udahub.tickets udahub.ticket_metadata
       udahub.users udahub.ticket_messages].
  rewrite Ht. cbv zeta.
  eexists _, _. split; [reflexivity |]. split; [reflexivity |].
  set (message := udahub.mkTicketMessage _ _ _ _ _).
  assert (Hfilter :
    filter (fun m => String.eqb (udahub.msg_ticket_id m) ticket_id)
      (udahub.ticket_messages (w_udahub w) ++ [message])
    = filter (fun m => String.eqb (udahub.msg_ticket_id m) ticket_id)
        (udahub.ticket_messages (w_udahub w)) ++ [message]).
  { rewrite filter_app. cbn [filter]. subst message.
    cbn [udahub.msg_ticket_id]. now rewrite String.eqb_refl. }
  rewrite Hfilter. split.
  - match goal with
    | |- In ?x _ =>
        change x with (VDict (ticket_tools.message_dict message))
    end.
    apply (in_map (fun m => VDict (ticket_tools.message_dict m))).
    apply (Permutation_in _
             (Permutation_sym (stable_sort_permutation _ _))).
    apply in_or_app. right. now left.
  - rewrite length_map.
    rewrite (Permutation_length (stable_sort_permutation _ _)).
    rewrite length_app. cbn. lia.
Qed.

(** Repeating [update_ticket_status] with the same arguments changes
    nothing more and gives the same answer. *)
Theorem update_ticket_status_idempotent (ticket_id status : string)
    (issue_type : option string) (w : world) :
  w_faults w = [] ->
  let r1 := ticket_tools.update_ticket_status ticket_id status issue_type w in
  let r2 :=
    ticket_tools.update_ticket_status ticket_id status issue_type (snd r1) in
  fst r2 = fst r1
  /\ w_udahub (snd r2) = w_udahub (snd r1)
  /\ w_cultpass (snd r2) = w_cultpass (snd r1).
Proof.
  intros Hf r1 r2.
  assert (Hkey : forall x,
    String.eqb
      (udahub.md_ticket_id (ticket_tools.updated_metadata status issue_type x))
      ticket_id
    = String.eqb (udahub.md_ticket_id x) ticket_id).
  { intros x.
    now rewrite (proj1 (CultPassFacts.updated_metadata_fields status
                          issue_type x)). }
  assert (Hidem : forall x,
    ticket_tools.updated_metadata status issue_type
      (ticket_tools.updated_metadata status issue_type x)
    = ticket_tools.updated_metadata status issue_type x).
  { intros x. unfold ticket_tools.updated_metadata.
    destruct (truthy issue_type) eqn:E; cbn; now rewrite ?E. }
  destruct (find (fun m => String.eqb (udahub.md_ticket_id m) ticket_id)
              (udahub.ticket_metadata (w_udahub w))) as [m |] eqn:Hm.
  - destruct (update_ticket_status_run ticket_id status issue_type w m Hf Hm)
      as (Hf1 & Hc1 & Hdb1 & Hr1).
    fold r1 in Hf1, Hc1, Hdb1, Hr1.
    assert (Hm1 :
      find (fun m => String.eqb (udahub.md_ticket_id m) ticket_id)
        (udahub.ticket_metadata (w_udahub (snd r1)))
      = Some (ticket_tools.updated_metadata status issue_type m)).
    { rewrite Hdb1. cbn [udahub.set_ticket_metadata udahub.ticket_metadata].
      now apply find_update_first. }
    destruct (update_ticket_status_run ticket_id status issue_type (snd r1)
                _ Hf1 Hm1) as (_ & Hc2 & Hdb2 & Hr2).
    fold r2 in Hc2, Hdb2, Hr2.
    split; [| split].
    + rewrite Hr2, Hr1.
      destruct (CultPassFacts.updated_metadata_fields status issue_type m)
        as (_ & _ & _ & Hmain).
      rewrite Hmain. destruct (truthy issue_type); reflexivity.
    + rewrite Hdb2, Hdb1.
      cbn [udahub.set_ticket_metadata udahub.ticket_metadata udahub.knowledge
           udahub.tickets udahub.ticket_messages udahub.users].
      now rewrite update_first_idempotent.
    + exact Hc2.
  - subst r2 r1.
    unfold ticket_tools.update_ticket_status, ticket_tools.get_db_session,
      open_session, try_finally, try_except, query_udahub, commit, rollback,
      round_trip, close, log, bind, ret.
    cbn -[ticket_tools.updated_metadata truthy update_first].
    rewrite Hf. cbn -[ticket_tools.updated_metadata truthy update_first].
    rewrite Hm. cbn -[ticket_tools.updated_metadata truthy update_first].
    rewrite Hm. cbn. repeat split.
Qed.

End MoreRoundTrips.

Lemma add_then_get_ticket_info_witness :
  exists d msgs,
    fst (@ticket_tools.get_ticket_info toy_runtime "t1"
           (snd (@ticket_tools.add_ticket_message toy_runtime "t1"
                   "Please reset your password" "ai" toy_world)))
    = Return (VDict d)
    /\ dict_get "messages" d = Some (VList msgs)
    /\ In (VDict [ ("role", VStr "ai");
                   ("content", VStr "Please reset your password");
                   ("created_at", VStr "2024-01-01T00:00:00") ])
         msgs
    /\ List.length msgs = 2%nat.
Proof.
  exact (@add_then_get_ticket_info toy_runtime "t1"
           "Please reset your password" "ai" toy_world _
           (mkEnumMember "ai" "ai") eq_refl eq_refl eq_refl).
Defined.

Lemma update_ticket_status_idempotent_witness :
  let r1 :=
    @ticket_tools.update_ticket_status toy_runtime "t1" "resolved" None
      toy_world in
  let r2 :=
    @ticket_tools.update_ticket_status toy_runtime "t1" "resolved" None
      (snd r1) in
  fst r2 = fst r1
  /\ w_udahub (snd r2) = w_udahub (snd r1)
  /\ w_cultpass (snd r2) = w_cultpass (snd r1).
Proof.
  exact (@update_ticket_status_idempotent toy_runtime "t1" "resolved" None
           toy_world eq_refl).
Defined.

(** ** What the listing tools offer *)

Section Listings.

Context {R : Runtime}.

Lemma get_available_experiences_run (location : option string)
    (is_premium : option bool) (w : world) :
  let exps :=
    stable_sort (fun x y => opt_le (cultpass.when x) (cultpass.when y))
      (filter (fun e => 0 <? cultpass.slots_available e)
         (match is_premium with
          | Some b => filter (fun e => Bool.eqb (cultpass.is_premium e) b)
          | None => fun l => l
          end
            ((if truthy location
              then
                filter
                  (fun e =>
                     sql_ilike ("%" ++ match location with
                                       | Some l => l
                                       | None => ""
                                       end ++ "%")%string
                       (cultpass.location e))
              else fun l => l)
               (filter (experience_tools.not_before (w_now w))
                  (cultpass.experiences (w_cultpass w)))))) in
  fst (experience_tools.get_available_experiences location is_premium w)
  = if hd false (w_faults w) then Raise OperationalError
    else
      Return
        (VList
           (match exps with
            | [] =>
                [VDict [("message",
                         VStr "No experiences found matching your criteria")]]
            | _ =>
                map (fun e => VDict (experience_tools.experience_dict e)) exps
            end)).
Proof.
  intros exps. subst exps.
  unfold experience_tools.get_available_experiences,
    experience_tools.get_db_session, open_session, try_finally,
    query_cultpass, round_trip, close, log, now, bind, ret.
  cbn -[stable_sort truthy]. destruct (hd false (w_faults w));
    cbn -[stable_sort truthy]; [reflexivity |].
  destruct (truthy location), is_premium;
    match goal with
    | |- context [map _ ?l] => destruct l; reflexivity
    end.
Qed.

(** [get_available_experiences] offers exactly the experiences that are
    not in the past, have a free slot and pass the optional location and
    premium filters; it lists them by ascending date, and says so when
    there is none. *)
Theorem get_available_experiences_offers (location : option string)
    (is_premium : option bool) (w : world) :
  exists exps,
    fst (experience_tools.get_available_experiences location is_premium w)
    = (if hd false (w_faults w) then Raise OperationalError
       else
         Return
           (VList
              (match exps with
               | [] =>
                   [VDict
                      [("message",
                        VStr "No experiences found matching your criteria")]]
               | _ =>
                   map (fun e => VDict (experience_tools.experience_dict e))
                     exps
               end)))
    /\ (forall e,
          In e exps <->
          In e (cultpass.experiences (w_cultpass w))
          /\ (exists t, cultpass.when e = Some t /\ w_now w <= t)
          /\ 0 < cultpass.slots_available e
          /\ (forall b, is_premium = Some b -> cultpass.is_premium e = b)
          /\ (forall l, location = Some l -> l <> "" ->
              sql_ilike ("%" ++ l ++ "%")%string (cultpass.location e)
              = true))
    /\ StronglySorted
         (fun a b => opt_le (cultpass.when a) (cultpass.when b) = true) exps.
Proof.
  eexists. split; [apply get_available_experiences_run |]. split.
  - intros e. split.
    + intros Hin.
      apply (Permutation_in _ (stable_sort_permutation _ _)) in Hin.
      apply filter_In in Hin. destruct Hin as [Hin Hslots].
      apply Z.ltb_lt in Hslots.
      assert (Hprem :
        In e ((if truthy location
               then
                 filter
                   (fun e =>
                      sql_ilike ("%" ++ match location with
                                        | Some l => l
                                        | None => ""
                                        end ++ "%")%string
                        (cultpass.location e))
               else fun l => l)
                (filter (experience_tools.not_before (w_now w))
                   (cultpass.experiences (w_cultpass w))))
        /\ (forall b, is_premium = Some b -> cultpass.is_premium e = b)).
      { destruct is_premium as [b |].
        - apply filter_In in Hin. destruct Hin as [Hin Hb].
          split; [exact Hin |]. intros b' H. injection H as <-.
          now apply Bool.eqb_prop.
        - split; [exact Hin | discriminate]. }
      destruct Hprem as [Hin' Hprem].
      assert (Hloc :
        In e (filter (experience_tools.not_before (w_now w))
                (cultpass.experiences (w_cultpass w)))
        /\ (forall l, location = Some l -> l <> "" ->
            sql_ilike ("%" ++ l ++ "%")%string (cultpass.location e) = true)).
      { destruct location as [l |]; cbn [truthy] in Hin'.
        - destruct (String.eqb l "") eqn:El; cbn [negb] in Hin'.
          + split; [exact Hin' |]. intros l' H Hne. injection H as <-.
            apply String.eqb_eq in El. contradiction.
          + apply filter_In in Hin'. destruct Hin' as [Hin' Hl].
            split; [exact Hin' |]. intros l' H _. now injection H as <-.
        - split; [exact Hin' | discriminate]. }
      destruct Hloc as [Hin'' Hloc].
      apply filter_In in Hin''. destruct Hin'' as [Hexp Hwhen].
      unfold experience_tools.not_before in Hwhen.
      repeat split; auto.
      destruct (cultpass.when e) as [t |]; [| discriminate].
      exists t. split; [reflexivity | now apply Z.leb_le].
    + intros (Hexp & (t & Hwhen & Ht) & Hslots & Hprem & Hloc).
      apply (Permutation_in _
               (Permutation_sym (stable_sort_permutation _ _))).
      apply filter_In. split; [| now apply Z.ltb_lt].
      assert (H0 : In e (filter (experience_tools.not_before (w_now w))
                           (cultpass.experiences (w_cultpass w)))).
      { apply filter_In. split; [exact Hexp |].
        unfold experience_tools.not_before. rewrite Hwhen.
        now apply Z.leb_le. }
      assert (H1 :
        In e ((if truthy location
               then
                 filter
                   (fun e =>
                      sql_ilike ("%" ++ match location with
                                        | Some l => l
                                        | None => ""
                                        end ++ "%")%string
                        (cultpass.location e))
               else fun l => l)
                (filter (experience_tools.not_before (w_now w))
                   (cultpass.experiences (w_cultpass w))))).
      { destruct location as [l |]; cbn [truthy]; [| exact H0].
        destruct (String.eqb l "") eqn:El; cbn [negb]; [exact H0 |].
        apply filter_In. split; [exact H0 |].
        apply Hloc; [reflexivity |]. now apply String.eqb_neq. }
      destruct is_premium as [b |]; [| exact H1].
      apply filter_In. split; [exact H1 |].
      rewrite (Hprem b eq_refl). apply Bool.eqb_reflx.
  - apply stable_sort_ordered.
    + intros x y. apply opt_le_total.
    + intros x y z. apply opt_le_trans.
Qed.

End Listings.

(** ** More on the knowledge search *)

Section Search.

Import knowledge_tools.
Context {R : Runtime}.

Lemma score_articles_filter (query_lower : string)
    (articles : list udahub.Knowledge) :
  score_articles query_lower articles
  = map (fun a => mkScored a (article_score query_lower a))
      (filter (fun a => 0 <? article_score query_lower a) articles).
Proof.
  unfold score_articles.
  induction articles as [| a articles IH]; [reflexivity |].
  cbn [flat_map filter].
  destruct (0 <? article_score query_lower a); cbn; now rewrite IH.
Qed.

Lemma search_run (query account_id : string) (w : world) :
  hd false (w_faults w) = false ->
  fst (search_knowledge_base query account_id w)
  = Return
      (VList
         (map (fun r => VDict (result_dict r))
            (top_results
               (score_articles (str_lower query)
                  (filter
                     (fun a => String.eqb (udahub.account_id a) account_id)
                     (udahub.knowledge (w_udahub w))))))).
Proof.
  intros Hf.
  unfold search_knowledge_base, get_db_session, open_session, try_finally,
    query_udahub, round_trip, close, log, bind, ret.
  cbn. rewrite Hf. reflexivity.
Qed.

(** A query without any term (empty or all blanks) finds nothing: the
    answer is the empty list, whatever the knowledge base holds. *)
Theorem search_knowledge_base_no_terms (query account_id : string)
    (w : world) :
  hd false (w_faults w) = false ->
  str_split (str_lower query) = [] ->
  fst (search_knowledge_base query account_id w) = Return (VList []).
Proof.
  intros Hf Hterms. rewrite (search_run _ _ _ Hf).
  rewrite score_articles_filter.
  assert (Hnone : forall arts,
    filter (fun a => 0 <? article_score (str_lower query) a) arts = []).
  { intros arts. induction arts as [| a arts IH]; [reflexivity |].
    cbn [filter]. unfold article_score at 1. rewrite Hterms. cbn. exact IH. }
  now rewrite Hnone.
Qed.

(** When at most five articles of the account match the query, every one
    of them is returned: the answer holds exactly the matching articles,
    each with its score. *)
Theorem search_knowledge_base_keeps_every_hit (query account_id : string)
    (w : world) :
  let hits :=
    filter (fun a => 0 <? article_score (str_lower query) a)
      (filter (fun a => String.eqb (udahub.account_id a) account_id)
         (udahub.knowledge (w_udahub w))) in
  hd false (w_faults w) = false ->
  (List.length hits <= 5)%nat ->
  exists results,
    fst (search_knowledge_base query account_id w)
    = Return (VList (map (fun r => VDict (result_dict r)) results))
    /\ Permutation results
         (map (fun a => mkScored a (article_score (str_lower query) a)) hits).
Proof.
  intros hits Hf Hlen. eexists. split; [apply (search_run _ _ _ Hf) |].
  rewrite score_articles_filter. fold hits. unfold top_results.
  rewrite firstn_all2.
  - apply stable_sort_permutation.
  - rewrite (Permutation_length (stable_sort_permutation _ _)).
    now rewrite length_map.
Qed.

End Search.

Lemma search_knowledge_base_no_terms_witness :
  fst (@knowledge_tools.search_knowledge_base toy_runtime "   " "cultpass"
         toy_world)
  = Return (VList []).
Proof.
  exact (@search_knowledge_base_no_terms toy_runtime "   " "cultpass"
           toy_world eq_refl eq_refl).
Defined.

Lemma search_knowledge_base_keeps_every_hit_witness :
  exists results,
    fst (@knowledge_tools.search_knowledge_base toy_runtime "login refund"
           "cultpass" toy_world)
    = Return
        (VList (map (fun r => VDict (knowledge_tools.result_dict r)) results))
    /\ Permutation results
         (map
            (fun a =>
               knowledge_tools.mkScored a
                 (@knowledge_tools.article_score toy_runtime "login refund"
                    a))
            (filter
               (fun a =>
                  0 <? @knowledge_tools.article_score toy_runtime
                         "login refund" a)
               (filter
                  (fun a => String.eqb (udahub.account_id a) "cultpass")
                  (udahub.knowledge (w_udahub toy_world))))).
Proof.
  apply (@search_knowledge_base_keeps_every_hit toy_runtime "login refund"
           "cultpass" toy_world eq_refl).
  vm_compute. lia.
Defined.

(** ** Reservations, subscriptions, tickets *)

Section Records.

Context {R : Runtime}.

(** The loop of [get_user_reservations] when no query fails: one round
    trip per reservation, the data untouched. *)
Lemma reservations_loop (s : session) (l : list cultpass.Reservation)
    (cp : cultpass.db) (ud : udahub.db) (t : datetime) (seed : nat)
    (lg : list event) :
  s_url s = sqlite_url user_tools.CULTPASS_DB ->
  mapM (fun res =>
          bind (query_cultpass s)
            (fun d' =>
               ret (VDict
                      (user_tools.reservation_dict res
                         (find (fun e =>
                                  String.eqb (cultpass.experience_id e)
                                    (cultpass.res_experience_id res))
                            (cultpass.experiences d'))))))
    l (mkWorld cp ud t seed [] lg)
  = (Return
       (map (fun res =>
               VDict
                 (user_tools.reservation_dict res
                    (find (fun e =>
                             String.eqb (cultpass.experience_id e)
                               (cultpass.res_experience_id res))
                       (cultpass.experiences cp))))
          l),
     mkWorld cp ud t seed []
       (lg ++ repeat (Executed (s_url s)) (List.length l))).
Proof.
  intros Hs. destruct s as [u dirty]. cbn in Hs. subst u. cbn [s_url].
  revert lg. induction l as [| res l IH]; intros lg.
  - cbn. now rewrite app_nil_r.
  - cbn [mapM]. unfold bind at 1. unfold bind at 1.
    unfold query_cultpass at 1, round_trip. unfold bind at 1.
    cbn -[mapM]. unfold bind at 1. rewrite IH. cbn [ret].
    cbn [List.length repeat map]. rewrite <- app_assoc. reflexivity.
Qed.

Lemma get_user_reservations_run (user_id : string) (cp : cultpass.db)
    (ud : udahub.db) (t : datetime) (seed : nat) (lg : list event) :
  let reservations :=
    filter (fun r => String.eqb (cultpass.res_user_id r) user_id)
      (cultpass.reservations cp) in
  user_tools.get_user_reservations user_id (mkWorld cp ud t seed [] lg)
  = (Return
       (VList
          (match reservations with
           | [] =>
               [VDict [("message",
                        VStr "No reservations found for this user")]]
           | _ =>
               map (fun res =>
                      VDict
                        (user_tools.reservation_dict res
                           (find (fun e =>
                                    String.eqb (cultpass.experience_id e)
                                      (cultpass.res_experience_id res))
                              (cultpass.experiences cp))))
                 reservations
           end)),
     mkWorld cp ud t seed []
       (lg
        ++ Opened (sqlite_url user_tools.CULTPASS_DB)
           :: repeat (Executed (sqlite_url user_tools.CULTPASS_DB))
                (S (List.length reservations))
        ++ [Closed (sqlite_url user_tools.CULTPASS_DB)])).
Proof.
  intros reservations.
  unfold user_tools.get_user_reservations, user_tools.get_db_session,
    open_session, try_finally.
  unfold bind at 1. unfold bind at 1. unfold log, ret at 1.
  unfold bind at 1. unfold query_cultpass at 1, round_trip.
  unfold bind at 1. cbn -[mapM]. unfold bind at 1.
  rewrite (reservations_loop
             (mkSession (sqlite_url user_tools.CULTPASS_DB) None) _ cp ud t
             seed _ eq_refl).
  cbn [s_url]. fold reservations.
  assert (Hlog : forall n,
    ((lg ++ [Opened (sqlite_url user_tools.CULTPASS_DB)])
     ++ [Executed (sqlite_url user_tools.CULTPASS_DB)])
    ++ repeat (Executed (sqlite_url user_tools.CULTPASS_DB)) n
    = lg ++ Opened (sqlite_url user_tools.CULTPASS_DB)
         :: repeat (Executed (sqlite_url user_tools.CULTPASS_DB)) (S n)).
  { intros n. now rewrite <- !app_assoc. }
  destruct reservations as [| res0 rest]; cbn [map List.length ret close log
    w_log w_cultpass w_udahub w_now w_uuid_seed w_faults s_url fst snd];
    f_equal; f_equal;
    change (String "s" _) with (sqlite_url user_tools.CULTPASS_DB);
    rewrite Hlog, <- app_assoc; reflexivity.
Qed.

(** [get_user_reservations] answers with one entry per reservation of the
    user, in table order; a reservation whose experience row is missing is
    reported with the title "Unknown" instead of failing; a user without
    reservations gets a single "message" entry; and the tool makes one
    round trip plus one per reservation. *)
Theorem get_user_reservations_entries (user_id : string) (w : world) :
  w_faults w = [] ->
  let reservations :=
    filter (fun r => String.eqb (cultpass.res_user_id r) user_id)
      (cultpass.reservations (w_cultpass w)) in
  let r := user_tools.get_user_reservations user_id w in
  fst r
  = Return
      (VList
         (match reservations with
          | [] =>
              [VDict [("message",
                       VStr "No reservations found for this user")]]
          | _ =>
              map (fun res =>
                     VDict
                       (user_tools.reservation_dict res
                          (find (fun e =>
                                   String.eqb (cultpass.experience_id e)
                                     (cultpass.res_experience_id res))
                             (cultpass.experiences (w_cultpass w)))))
                reservations
          end))
  /\ (forall res,
        find (fun e => String.eqb (cultpass.experience_id e)
                         (cultpass.res_experience_id res))
          (cultpass.experiences (w_cultpass w)) = None ->
        dict_get "experience_title" (user_tools.reservation_dict res None)
        = Some (VStr "Unknown"))
  /\ w_log (snd r)
     = w_log w
       ++ Opened (sqlite_url user_tools.CULTPASS_DB)
          :: repeat (Executed (sqlite_url user_tools.CULTPASS_DB))
               (S (List.length reservations))
       ++ [Closed (sqlite_url user_tools.CULTPASS_DB)].
Proof.
  intros Hf reservations r. subst r reservations.
  destruct w as [cp ud t seed faults lg]. cbn in Hf. subst faults.
  cbn [w_cultpass w_log].
  rewrite get_user_reservations_run. cbn [fst snd w_log].
  repeat split.
Qed.

(** [get_user_subscription] leaves the data alone and, when the query does
    not raise, returns the first subscription of the user or an "error"
    dict naming the user. *)
Theorem get_user_subscription_found_or_error (user_id : string)
    (w : world) :
  let r := user_tools.get_user_subscription user_id w in
  same_data w (snd r)
  /\ fst r
     = (if hd false (w_faults w) then Raise OperationalError
        else
          match find (fun x => String.eqb (cultpass.sub_user_id x) user_id)
                  (cultpass.subscriptions (w_cultpass w)) with
          | Some sub =>
              Return
                (VDict
                   [ ("subscription_id", VStr (cultpass.subscription_id sub));
                     ("user_id", VStr (cultpass.sub_user_id sub));
                     ("status", VStr (cultpass.status sub));
                     ("tier", VStr (cultpass.tier sub));
                     ("monthly_quota", VInt (cultpass.monthly_quota sub));
                     ("started_at", opt_iso (cultpass.started_at sub));
                     ("ended_at", opt_iso (cultpass.ended_at sub)) ])
          | None =>
              Return
                (VDict [("error",
                         VStr ("No subscription found for user "
                               ++ user_id)%string)])
          end)
  /\ contains user_id ("No subscription found for user " ++ user_id)%string
     = true.
Proof.
  intros r. split; [| split].
  - exact (reading_tool_preserves_data (workflow.GetUserSubscription user_id)
             eq_refl w).
  - subst r.
    unfold user_tools.get_user_subscription, user_tools.get_db_session,
      open_session, try_finally, query_cultpass, round_trip, close, log,
      bind, ret.
    cbn. destruct (hd false (w_faults w)); cbn; [reflexivity |].
    destruct (find _ (cultpass.subscriptions (w_cultpass w))); reflexivity.
  - assert (Hnil : forall x : string, (x ++ "")%string = x).
    { intros x. induction x as [| c x IH]; cbn; congruence. }
    pose proof (CultPassFacts.contains_middle
                  "No subscription found for user " user_id "") as H.
    now rewrite Hnil in H.
Qed.

(** For a ticket that exists, [get_ticket_info] answers without an "error"
    entry even when the ticket has no metadata row and no user row (the
    fields are then [None]), and its "messages" are exactly the messages
    of that ticket, by ascending [created_at] with undated ones first. *)
Theorem get_ticket_info_of_existing_ticket (ticket_id : string) (w : world)
    (t : udahub.Ticket) :
  w_faults w = [] ->
  find (fun t => String.eqb (udahub.ticket_id t) ticket_id)
    (udahub.tickets (w_udahub w)) = Some t ->
  exists d msgs,
    fst (ticket_tools.get_ticket_info ticket_id w) = Return (VDict d)
    /\ dict_get "error" d = None
    /\ dict_get "ticket_id" d = Some (VStr (udahub.ticket_id t))
    /\ dict_get "messages" d
       = Some (VList (map (fun m => VDict (ticket_tools.message_dict m))
                        msgs))
    /\ (forall m,
          In m msgs <->
          In m (udahub.ticket_messages (w_udahub w))
          /\ udahub.msg_ticket_id m = ticket_id)
    /\ StronglySorted
         (fun a b =>
            opt_le (udahub.msg_created_at a) (udahub.msg_created_at b) = true)
         msgs
    /\ (find (fun m => String.eqb (udahub.md_ticket_id m) ticket_id)
          (udahub.ticket_metadata (w_udahub w)) = None ->
        dict_get "metadata" d
        = Some (VDict [ ("status", VNone);
                        ("main_issue_type", VNone);
                        ("tags", VNone) ]))
    /\ (find (fun u => String.eqb (udahub.u_user_id u) (udahub.user_id t))
          (udahub.users (w_udahub w)) = None ->
        dict_get "user" d
        = Some (VDict [ ("user_id", VNone);
                        ("user_name", VNone);
                        ("external_user_id", VNone) ])).
Proof.
  intros Hf Ht. rewrite (get_ticket_info_run ticket_id w Hf), Ht. cbv zeta.
  eexists _, _. split; [reflexivity |].
  split; [reflexivity |]. split; [reflexivity |]. split; [reflexivity |].
  split; [| split; [| split]].
  - intros m. split.
    + intros Hin.
      apply (Permutation_in _ (stable_sort_permutation _ _)) in Hin.
      apply filter_In in Hin. destruct Hin as [Hin Hid].
      split; [exact Hin | now apply String.eqb_eq].
    + intros [Hin Hid].
      apply (Permutation_in _
               (Permutation_sym (stable_sort_permutation _ _))).
      apply filter_In. split; [exact Hin | now apply String.eqb_eq].
  - apply stable_sort_ordered.
    + intros x y. apply opt_le_total.
    + intros x y z. apply opt_le_trans.
  - intros ->. reflexivity.
  - intros ->. reflexivity.
Qed.

End Records.

Lemma get_user_reservations_entries_witness :
  w_log (snd (@user_tools.get_user_reservations toy_runtime "u1" toy_world))
  = [ Opened (sqlite_url user_tools.CULTPASS_DB);
      Executed (sqlite_url user_tools.CULTPASS_DB);
      Executed (sqlite_url user_tools.CULTPASS_DB);
      Closed (sqlite_url user_tools.CULTPASS_DB) ].
Proof.
  exact (proj2 (proj2 (@get_user_reservations_entries toy_runtime "u1"
                         toy_world eq_refl))).
Defined.

Lemma get_ticket_info_of_existing_ticket_witness :
  exists d msgs,
    fst (@ticket_tools.get_ticket_info toy_runtime "t1" toy_world)
    = Return (VDict d)
    /\ dict_get "error" d = None
    /\ dict_get "messages" d
       = Some (VList (map (fun m =>
                             VDict (@ticket_tools.message_dict toy_runtime m))
                        msgs)).
Proof.
  destruct (@get_ticket_info_of_existing_ticket toy_runtime "t1" toy_world
              _ eq_refl eq_refl) as (d & msgs & H1 & H2 & _ & H4 & _).
  exists d, msgs. auto.
Defined.

End CultPassExtra.

(** * More facts about course-01 *)

Module AgentExtra.
Import Agent.

Section WithFramework.

Context {F : Framework}.


(** The agent the router selects for an intent string uses the system
    prompt [get_chat_prompt_template] chooses for that same string: the two
    dispatches agree on every string, the fallback to Q&A included. *)
Theorem routed_agent_uses_prompt_of_intent (llm : LLM) (tools : list Tool)
    (it input : string) (chat_history : list BaseMessage) :
  exists prompt_intent schema,
    lookup (next_step_of_intent it)
      (g_nodes (cg_graph (create_workflow llm tools)))
    = Some (agent_node (next_step_of_intent it) prompt_intent schema)
    /\ chat_prompt_messages prompt_intent input chat_history
       = chat_prompt_messages it input chat_history.
Proof.
  rewrite AgentFacts.workflow_nodes.
  unfold next_step_of_intent, chat_prompt_messages.
  destruct (String.eqb it "qa") eqn:E1.
  { exists "qa", AnswerResponse. split; reflexivity. }
  destruct (String.eqb it "summarization") eqn:E2.
  { exists "summarization", SummarizationResponse. split; reflexivity. }
  destruct (String.eqb it "calculation") eqn:E3.
  { exists "calculation", CalculationResponse. split; reflexivity. }
  exists "qa", AnswerResponse. split; reflexivity.
Qed.

(** Only the last ten messages reach the classification prompt: whatever
    precedes them does not change the history text. *)
Theorem format_history_last_ten (older recent : list BaseMessage) :
  List.length recent = 10%nat ->
  format_history (older ++ recent) = format_history recent.
Proof.
  intros Hlen. unfold format_history.
  assert (H1 : last_n 10 (older ++ recent) = recent).
  { unfold last_n. rewrite length_app, Hlen.
    replace (List.length older + 10 - 10)%nat with (List.length older) by lia.
    rewrite skipn_app, skipn_all, Nat.sub_diag. reflexivity. }
  assert (H2 : last_n 10 recent = recent).
  { unfold last_n. now rewrite Hlen. }
  rewrite H1, H2.
  destruct recent as [| m recent]; [discriminate Hlen |].
  destruct older; reflexivity.
Qed.

(** What a completed run leaves in the state: the classified intent, the
    selected agent's result with the names of the tools it used, the
    agent's messages merged into the history, a memory summary computed
    over that merged history, and [next_step = "end"]. *)
Theorem invoke_final_state (llm : LLM) (tools : list Tool)
    (config : RunnableConfig) (s : AgentState) (v : option string) :
  user_input s = Some v ->
  exists s' i prompt_intent schema,
    invoke (create_workflow llm tools) config s
    = Return (s', ["classify_intent";
                   next_step_of_intent (intent_type i);
                   "update_memory"])
    /\ In (next_step_of_intent (intent_type i), prompt_intent, schema)
         [ ("qa_agent", "qa", AnswerResponse);
           ("summarization_agent", "summarization", SummarizationResponse);
           ("calculation_agent", "calculation", CalculationResponse) ]
    /\ intent s' = Some i
    /\ (let rt :=
          invoke_react_agent schema
            (chat_prompt_messages prompt_intent (str_of v) (messages s))
            (cfg_llm config) (cfg_tools config) in
        current_response s' = Some (fst rt)
        /\ tools_used s' = Some (snd rt)
        /\ messages s'
           = add_messages (messages s)
               (match result_messages (fst rt) with
                | Some l => l
                | None => []
                end))
    /\ conversation_summary s'
       = Some (summary (structured_memory (cfg_llm config)
                          (SystemMessage MEMORY_SUMMARY_PROMPT :: messages s')))
    /\ active_documents s'
       = Some (document_ids
                 (structured_memory (cfg_llm config)
                    (SystemMessage MEMORY_SUMMARY_PROMPT :: messages s')))
    /\ next_step s' = Some "end".
Proof.
  intros Hin.
  destruct (AgentFacts.classify_intent_returns s config v Hin) as (i & Hc).
  pose proof (AgentFacts.next_step_of_intent_cases (intent_type i)) as Hcase.
  set (name := next_step_of_intent (intent_type i)) in *.
  assert (Hnode : exists prompt_intent schema,
    In (name, prompt_intent, schema)
      [ ("qa_agent", "qa", AnswerResponse);
        ("summarization_agent", "summarization", SummarizationResponse);
        ("calculation_agent", "calculation", CalculationResponse) ]
    /\ lookup name (g_nodes (cg_graph (create_workflow llm tools)))
       = Some (agent_node name prompt_intent schema)
    /\ lookup name (g_conditional_edges
                      (cg_graph (create_workflow llm tools))) = None
    /\ lookup name (g_edges (cg_graph (create_workflow llm tools)))
       = Some (Node "update_memory")).
  { rewrite AgentFacts.workflow_nodes, AgentFacts.workflow_conditional_edges,
      AgentFacts.workflow_edges.
    destruct Hcase as [<- | [<- | [<- | []]]].
    - exists "qa", AnswerResponse. cbn. auto.
    - exists "summarization", SummarizationResponse. cbn. auto.
    - exists "calculation", CalculationResponse. cbn. auto 6. }
  destruct Hnode as (pi & sch & Htab & Hf & Hce & He).
  eexists _, i, pi, sch.
  unfold invoke. rewrite AgentFacts.workflow_entry_point.
  change 25%nat with (S (S (S 22))).
  rewrite (AgentFacts.run_from_step _ (cg_graph (create_workflow llm tools))
             config "classify_intent" s classify_intent _ (Node name)
             eq_refl Hc).
  2:{ unfold route. rewrite AgentFacts.workflow_conditional_edges.
      cbn [lookup find fst snd option_map String.eqb Ascii.eqb Bool.eqb].
      change (should_continue _) with name.
      now rewrite (AgentFacts.intent_path_map_agent _ Hcase). }
  set (s1 := apply_update s _).
  assert (Hu : agent_node name pi sch s1 config
               = Return
                   (let rt :=
                      invoke_react_agent sch
                        (chat_prompt_messages pi (str_of v) (messages s))
                        (cfg_llm config) (cfg_tools config) in
                    {| u_messages :=
                         Some (match result_messages (fst rt) with
                               | Some l => l
                               | None => []
                               end);
                       u_actions_taken := Some [name];
                       u_intent := None;
                       u_next_step := Some "update_memory";
                       u_conversation_summary := None;
                       u_active_documents := None;
                       u_current_response := Some (fst rt);
                       u_tools_used := Some (snd rt) |})).
  { unfold agent_node, get_user_input.
    change (user_input s1) with (user_input s). rewrite Hin. reflexivity. }
  rewrite (AgentFacts.run_from_step _ _ _ _ _ _ _ (Node "update_memory")
             Hf Hu).
  2:{ unfold route. now rewrite Hce, He. }
  set (s2 := apply_update s1 _).
  rewrite (AgentFacts.run_from_step 22
             (cg_graph (create_workflow llm tools)) config "update_memory"
             s2 update_memory _ END eq_refl eq_refl eq_refl).
  cbn [obind fst snd]. split; [reflexivity |].
  split; [exact Htab |]. repeat split.
Qed.

End WithFramework.

Lemma format_history_last_ten_witness :
  @format_history
    ([SystemMessage "setup"; HumanMessage "old question"]
     ++ [ HumanMessage "q1"; AIMessage "a1"; HumanMessage "q2";
          AIMessage "a2"; HumanMessage "q3"; AIMessage "a3";
          HumanMessage "q4"; AIMessage "a4"; HumanMessage "q5";
          AIMessage "a5" ])
  = @format_history
      [ HumanMessage "q1"; AIMessage "a1"; HumanMessage "q2";
        AIMessage "a2"; HumanMessage "q3"; AIMessage "a3";
        HumanMessage "q4"; AIMessage "a4"; HumanMessage "q5";
        AIMessage "a5" ].
Proof.
  exact (format_history_last_ten
           [SystemMessage "setup"; HumanMessage "old question"]
           [ HumanMessage "q1"; AIMessage "a1"; HumanMessage "q2";
             AIMessage "a2"; HumanMessage "q3"; AIMessage "a3";
             HumanMessage "q4"; AIMessage "a4"; HumanMessage "q5";
             AIMessage "a5" ]
           eq_refl).
Defined.

Lemma invoke_final_state_witness :
  exists s',
    @invoke toy_framework (@create_workflow toy_framework "gpt-4o-mini" [])
      toy_config toy_state
    = Return (s', ["classify_intent"; "calculation_agent"; "update_memory"])
    /\ tools_used s' = Some ["calculator"]
    /\ next_step s' = Some "end".
Proof.
  destruct (@invoke_final_state toy_framework "gpt-4o-mini" [] toy_config
              toy_state (Some "What is 2 + 2?") eq_refl)
    as (s' & i & pi & sch & Hrun & Htab & Hi & (_ & Htools & _) & _ & _ & Hn).
  exists s'. unfold invoke in Hrun.
  cbn in Hrun. injection Hrun as <-. repeat split.
Defined.

End AgentExtra.

(** * More facts about course-02 *)

Module EcoHomeExtra.
Import EcoHome EnergyData EnergySpec.

(** ** The price table *)

Lemma in_range (lo hi x : Z) : lo <= x < hi -> In x (range lo hi).
Proof.
  intros H. unfold range. apply in_map_iff.
  exists (Z.to_nat (x - lo)). split; [lia |]. apply in_seq. lia.
Qed.

(** The three tiers split the day: every hour 0..23 is listed by exactly
    one tier, so the default set before the scan is never what an hour
    gets, and the rate found for an hour is the rate the summary announces
    for its period. *)
Theorem pricing_tiers_partition (hour : Z) :
  0 <= hour < 24 ->
  List.length
    (filter (fun t => existsb (Z.eqb hour) (tier_hours (snd t)))
       pricing_tiers) = 1%nat
  /\ In (fst (tier_of hour)) (map fst pricing_tiers)
  /\ snd (tier_of hour) = summary_rate (fst (tier_of hour)).
Proof.
  intros H. apply (in_range 0 24) in H. vm_compute in H.
  repeat (destruct H as [<- | H];
          [split; [reflexivity | split; [cbn; auto | reflexivity]] |]).
  destruct H.
Qed.

Lemma pricing_tiers_partition_witness :
  List.length
    (filter (fun t => existsb (Z.eqb 23) (tier_hours (snd t)))
       pricing_tiers) = 1%nat
  /\ In (fst (tier_of 23)) (map fst pricing_tiers)
  /\ snd (tier_of 23) = summary_rate (fst (tier_of 23)).
Proof. apply (pricing_tiers_partition 23). lia. Defined.

(** ** The forecast *)

Section Forecast.

Variable py_round : float -> Z -> float.
Variable rng : Type.
Variable random_random : rng -> float * rng.
Variable random_uniform : float -> float -> rng -> float * rng.
Variable random_randint : Z -> Z -> rng -> Z * rng.
Variable random_choice : list string -> rng -> string * rng.
Variable random_choices : list string -> list float -> rng -> string * rng.
Variable strftime_now_plus : Z -> string.

Local Abbreviation forecast_ :=
  (get_weather_forecast py_round rng random_random random_uniform
     random_randint random_choice random_choices strftime_now_plus).

(** The contract of [random.choice] and [random.choices]: the drawn item
    belongs to the population. *)
Hypothesis random_choice_in :
  forall l g, l <> [] -> In (fst (random_choice l g)) l.
Hypothesis random_choices_in :
  forall l w g, l <> [] -> In (fst (random_choices l w g)) l.

Local Abbreviation forecast_hour_ :=
  (forecast_hour py_round rng random_random random_uniform random_randint
     random_choice).
Local Abbreviation forecast_day_ :=
  (forecast_day py_round rng random_random random_uniform random_randint
     random_choice random_choices strftime_now_plus).

Ltac split_draws :=
  repeat (cbv beta iota;
          match goal with
          | |- context [let (_, _) := ?d in _] => destruct d
          end).

Ltac hour_tail c Hc :=
  match goal with
  | |- context [(6 <=? ?hour) && (?hour <=? 20)] =>
      destruct ((6 <=? hour) && (hour <=? 20));
      [ let wt := fresh "wt" in
        destruct (EcoHomeFacts.lookup_weather_in c Hc) as (wt & ->)
      | ];
      split_draws;
      do 4 eexists; (split; [reflexivity |]);
      cbn [h_condition]; exact Hc
  end.

Lemma forecast_hour_condition (day : Z) (day_condition : string) (hour : Z)
    (acc : hour_acc) (g : rng) :
  In day_condition weather_keys ->
  exists e t pot g',
    forecast_hour_ day day_condition hour acc g
    = Return ({| acc_temps := acc_temps acc ++ [t];
                 acc_potential := pot;
                 acc_hourly := acc_hourly acc ++ [e] |}, g')
    /\ In (h_condition e) weather_keys.
Proof.
  intros Hday. unfold forecast_hour, bind, draw, ret, lift.
  destruct (random_uniform _ _ g) as [u g1].
  destruct (random_random g1) as [r g2].
  destruct (PrimFloat.ltb r 0.8%float).
  - hour_tail day_condition Hday.
  - pose proof (random_choice_in weather_keys g2
                  EcoHomeFacts.weather_keys_nonempty) as Hc.
    destruct (random_choice weather_keys g2) as [c g3]. simpl in Hc.
    hour_tail c Hc.
Qed.

Lemma forecast_hours_condition (day : Z) (day_condition : string)
    (hours : list Z) (acc : hour_acc) (g : rng) :
  In day_condition weather_keys ->
  exists es ts pot g',
    for_each hours (forecast_hour_ day day_condition) acc g
    = Return ({| acc_temps := acc_temps acc ++ ts;
                 acc_potential := pot;
                 acc_hourly := acc_hourly acc ++ es |}, g')
    /\ List.length ts = List.length hours
    /\ Forall (fun e => In (h_condition e) weather_keys) es.
Proof.
  intros Hday. revert acc g.
  induction hours as [| hour hours IH]; intros acc g.
  - exists [], [], (acc_potential acc), g. simpl. unfold ret.
    rewrite !app_nil_r. destruct acc. repeat split. constructor.
  - destruct (forecast_hour_condition day day_condition hour acc g Hday)
      as (e & t & pot & g1 & Hrun & Hc).
    match type of Hrun with _ = Return (?a, _) =>
      destruct (IH a g1) as (es & ts & pot' & g2 & Hrun2 & Hlen & Hall)
    end.
    exists (e :: es), (t :: ts), pot', g2. simpl in *. unfold bind.
    rewrite Hrun, Hrun2. rewrite <- !app_assoc. simpl.
    repeat split; [now rewrite Hlen | now constructor].
Qed.

Lemma forecast_day_condition (day : Z) (f : forecast) (g : rng) :
  exists es d g',
    forecast_day_ day f g
    = Return ({| fc_location := fc_location f;
                 fc_forecast_days := fc_forecast_days f;
                 fc_current := fc_current f;
                 fc_hourly := fc_hourly f ++ es;
                 fc_daily := fc_daily f ++ [d] |}, g')
    /\ In (d_condition d) weather_keys
    /\ Forall (fun e => In (h_condition e) weather_keys) es.
Proof.
  unfold forecast_day, pick_condition.
  unfold bind at 1. unfold draw at 1.
  pose proof (random_choices_in weather_keys weather_weights g
                EcoHomeFacts.weather_keys_nonempty) as Hday.
  destruct (random_choices weather_keys weather_weights g) as [dc g1].
  simpl in Hday.
  unfold bind at 1.
  match goal with |- context [for_each _ _ ?a g1] =>
    destruct (forecast_hours_condition day dc (range 0 24) a g1 Hday)
      as (es & ts & pot & g2 & Hrun & Hlen & Hall)
  end.
  rewrite Hrun. simpl acc_temps in *. simpl acc_hourly in *.
  assert (Hne : ts <> []).
  { intros ->. discriminate Hlen. }
  destruct (EcoHomeFacts.py_max_returns ts Hne) as (hi & Hhi).
  destruct (EcoHomeFacts.py_min_returns ts Hne) as (lo & Hlo).
  unfold bind, lift, ret. simpl acc_temps. rewrite Hhi, Hlo.
  eexists es, _, g2. split; [reflexivity |]. simpl. auto.
Qed.

Lemma forecast_days_condition (days : list Z) (f : forecast) (g : rng) :
  exists es ds g',
    for_each days forecast_day_ f g
    = Return ({| fc_location := fc_location f;
                 fc_forecast_days := fc_forecast_days f;
                 fc_current := fc_current f;
                 fc_hourly := fc_hourly f ++ es;
                 fc_daily := fc_daily f ++ ds |}, g')
    /\ Forall (fun d => In (d_condition d) weather_keys) ds
    /\ Forall (fun e => In (h_condition e) weather_keys) es.
Proof.
  revert f g. induction days as [| day days IH]; intros f g.
  - exists [], [], g. simpl. unfold ret. rewrite !app_nil_r.
    destruct f. repeat split; constructor.
  - destruct (forecast_day_condition day f g)
      as (es & d & g1 & Hrun & Hd & Hall).
    match type of Hrun with _ = Return (?a, _) =>
      destruct (IH a g1) as (es' & ds & g2 & Hrun2 & Hds & Hall2)
    end.
    exists (es ++ es'), (d :: ds), g2. simpl in *. unfold bind.
    rewrite Hrun, Hrun2. rewrite <- !app_assoc. simpl.
    repeat split; [now constructor | now apply Forall_app].
Qed.

(** Every condition a forecast names (the current one, each day's, each
    hour's) is one of the four weather types, provided the random choices
    are drawn from the population they are given. *)
Theorem get_weather_forecast_conditions (location : string) (days : Z)
    (g : rng) :
  exists f g',
    forecast_ location days g = Return (f, g')
    /\ weather_keys = ["sunny"; "partly_cloudy"; "cloudy"; "rainy"]
    /\ In (cur_condition (fc_current f)) weather_keys
    /\ Forall (fun d => In (d_condition d) weather_keys) (fc_daily f)
    /\ Forall (fun e => In (h_condition e) weather_keys) (fc_hourly f).
Proof.
  unfold get_weather_forecast, pick_condition, bind, draw.
  pose proof (random_choices_in weather_keys weather_weights g
                EcoHomeFacts.weather_keys_nonempty) as Hcur.
  destruct (random_choices weather_keys weather_weights g) as [cc g1].
  destruct (random_uniform 15%float 28%float g1) as [ct g2].
  destruct (random_randint 40 80 g2) as [ch g3].
  destruct (random_uniform 5%float 25%float g3) as [cw g4].
  match goal with |- context [for_each ?ds _ ?f0 g4] =>
    destruct (forecast_days_condition ds f0 g4)
      as (es & ds' & g5 & Hrun & Hds & Hes)
  end.
  rewrite Hrun. eexists _, g5. split; [reflexivity |].
  cbn [fc_current fc_daily fc_hourly cur_condition app].
  repeat split; auto.
Qed.

End Forecast.

Lemma get_weather_forecast_conditions_witness :
  exists f g',
    get_weather_forecast round0 rng0 random0 uniform0 randint0 choice0
      choices0 strftime0 "Lisbon" 2 0%nat = Return (f, g')
    /\ weather_keys = ["sunny"; "partly_cloudy"; "cloudy"; "rainy"]
    /\ In (cur_condition (fc_current f)) weather_keys
    /\ Forall (fun d => In (d_condition d) weather_keys) (fc_daily f)
    /\ Forall (fun e => In (h_condition e) weather_keys) (fc_hourly f).
Proof.
  exact (get_weather_forecast_conditions round0 rng0 random0 uniform0
           randint0 choice0 choices0 strftime0 EcoHomeFacts.choice0_in
           EcoHomeFacts.choices0_in "Lisbon" 2 0%nat).
Defined.

(** ** The energy database tools *)

Lemma usage_count_snoc (k : string) (l : list usage_record)
    (r : usage_record) :
  usage_count k (l ++ [r])
  = usage_count k l + (if String.eqb (device_key r) k then 1 else 0).
Proof.
  unfold usage_count. rewrite filter_app, length_app. simpl.
  destruct (String.eqb (device_key r) k); simpl; lia.
Qed.

Lemma usage_count_none (k : string) (l : list usage_record) :
  (forall r, In r l -> device_key r <> k) -> usage_count k l = 0.
Proof.
  intros H. unfold usage_count.
  induction l as [| a l IH]; simpl; [reflexivity |].
  destruct (String.eqb_spec (device_key a) k) as [E | E].
  - exfalso. apply (H a); simpl; auto.
  - apply IH. intros r Hr. apply H. simpl. auto.
Qed.

Lemma has_key_spec (device : string) (bd : list (string * device_data)) :
  existsb (fun p => String.eqb (fst p) device) bd = true
  <-> In device (map fst bd).
Proof.
  rewrite existsb_exists, in_map_iff.
  split; intros (p & H1 & H2); exists p.
  - apply String.eqb_eq in H2. auto.
  - split; [exact H2 | now apply String.eqb_eq].
Qed.

Lemma update_device_keys (d : string) (f : device_data -> device_data)
    (bd : list (string * device_data)) :
  map fst (update_device d f bd) = map fst bd.
Proof.
  induction bd as [| [k v] rest IH]; simpl; [reflexivity |].
  destruct (String.eqb k d); simpl; [reflexivity | now rewrite IH].
Qed.

Lemma update_device_In (d : string) (f : device_data -> device_data)
    (bd : list (string * device_data)) (k : string) (v : device_data) :
  NoDup (map fst bd) ->
  In (k, v) (update_device d f bd) ->
  (k <> d /\ In (k, v) bd)
  \/ (k = d /\ exists v0, In (k, v0) bd /\ v = f v0).
Proof.
  induction bd as [| [k0 v0] rest IH]; simpl; intros Hnd Hin;
    [destruct Hin |].
  inversion Hnd as [| ? ? Hnotin Hnd']; subst.
  destruct (String.eqb_spec k0 d) as [E | E].
  - subst k0. destruct Hin as [Heq | Hin].
    + inversion Heq; subst. right. split; [reflexivity |].
      exists v0. auto.
    + left. split; [| auto]. intros ->. apply Hnotin.
      apply in_map_iff. exists (d, v). auto.
  - destruct Hin as [Heq | Hin].
    + inversion Heq; subst. left. auto.
    + destruct (IH Hnd' Hin) as [[H1 H2] | [H1 (v1 & H2 & H3)]].
      * left. auto.
      * right. split; [exact H1 |]. exists v1. auto.
Qed.

Lemma add_usage_ok (l : list usage_record)
    (bd : list (string * device_data)) (r : usage_record) :
  breakdown_ok l bd -> breakdown_ok (l ++ [r]) (add_usage bd r).
Proof.
  intros (Hnd & Hkeys & Hcount). unfold add_usage.
  set (device := device_key r).
  set (f := fun d : device_data => mkDeviceData _ _ (dd_records d + 1)).
  match goal with |- breakdown_ok _ (update_device _ _ ?b) => set (bd' := b) end.
  assert (Hbd' : NoDup (map fst bd')
                 /\ (forall k, In k (map fst bd')
                               <-> k = device \/ In k (map fst bd))
                 /\ (forall k v, In (k, v) bd' ->
                                 dd_records v = usage_count k l)).
  { subst bd'.
    destruct (existsb (fun p => String.eqb (fst p) device) bd) eqn:Hex.
    - apply has_key_spec in Hex. split; [exact Hnd |]. split; [| exact Hcount].
      intros k. split; [auto |]. intros [-> | H]; assumption.
    - assert (Hnot : ~ In device (map fst bd)).
      { intros H. apply has_key_spec in H. congruence. }
      split; [| split].
      + rewrite map_app. simpl. apply NoDup_app; [exact Hnd | |].
        * repeat constructor. simpl. tauto.
        * intros a Ha [<- | []]. exact (Hnot Ha).
      + intros k. rewrite map_app, in_app_iff. simpl. intuition.
      + intros k v Hin. apply in_app_iff in Hin.
        destruct Hin as [Hin | [Heq | []]]; [now apply Hcount |].
        inversion Heq; subst. simpl. symmetry. apply usage_count_none.
        intros r0 Hr0 Hk. apply Hnot. apply Hkeys. exists r0. auto. }
  destruct Hbd' as (Hnd' & Hkeys' & Hcount').
  split; [| split].
  - now rewrite update_device_keys.
  - intros k. rewrite update_device_keys, Hkeys', Hkeys. split.
    + intros [-> | (r0 & Hr0 & Hk)].
      * exists r. split; [apply in_app_iff; simpl; auto | reflexivity].
      * exists r0. split; [apply in_app_iff; auto | exact Hk].
    + intros (r0 & Hr0 & Hk). apply in_app_iff in Hr0.
      destruct Hr0 as [Hr0 | [<- | []]].
      * right. exists r0. auto.
      * left. now subst device.
  - intros k v Hin. rewrite usage_count_snoc.
    destruct (update_device_In _ _ _ _ _ Hnd' Hin)
      as [[Hk Hin'] | [Hk (v0 & Hin' & ->)]].
    + destruct (String.eqb_spec (device_key r) k) as [E | E];
        [exfalso; apply Hk; now subst device |].
      rewrite (Hcount' _ _ Hin'). lia.
    + subst k. fold device. rewrite String.eqb_refl.
      subst f. cbn [dd_records]. rewrite (Hcount' _ _ Hin'). reflexivity.
Qed.

Lemma device_breakdown_ok (l : list usage_record) :
  breakdown_ok l (device_breakdown l).
Proof.
  induction l as [| r l IH] using rev_ind.
  - split; [constructor |]. split.
    + intros k. simpl. split; [tauto | intros (r & [] & _)].
    + intros k v [].
  - unfold device_breakdown. rewrite fold_left_app. simpl.
    now apply add_usage_ok.
Qed.

Section Queries.

Variable py_round : float -> Z -> float.
Variable strptime : string -> outcome date.
Variable isoformat : timestamp -> string.
Variable str_exn : exn -> string.
Variable get_usage_by_date_range : date -> date -> outcome (list usage_record).
Variable get_generation_by_date_range :
  date -> date -> outcome (list generation_record).
Variable get_recent_usage : Z -> outcome (list usage_record).
Variable get_recent_generation : Z -> outcome (list generation_record).

(** The summary of recent energy files every usage record under exactly
    one device: the breakdown has one entry per device seen (a record
    with no device type, or an empty one, goes under "unknown"), no
    entry for a device that was not seen, and the "records" count of an
    entry is the number of usage records of that device. *)
Theorem get_recent_energy_summary_device_breakdown (hours : Z)
    (usage_records : list usage_record)
    (generation_records : list generation_record) :
  get_recent_usage hours = Return usage_records ->
  get_recent_generation hours = Return generation_records ->
  exists summary usage breakdown,
    get_recent_energy_summary py_round str_exn get_recent_usage
      get_recent_generation hours = JDict summary
    /\ jdict_get "error" summary = None
    /\ jdict_get "usage" summary = Some (JDict usage)
    /\ jdict_get "device_breakdown" usage
       = Some (JDict (map (fun p => (fst p,
                                     device_data_dict py_round (snd p)))
                        breakdown))
    /\ NoDup (map fst breakdown)
    /\ (forall k, In k (map fst breakdown)
                  <-> exists r, In r usage_records /\ device_key r = k)
    /\ (forall k v, In (k, v) breakdown ->
                    dd_records v = usage_count k usage_records).
Proof.
  intros Hu Hg.
  unfold get_recent_energy_summary, get_recent_energy_summary_try.
  rewrite Hu, Hg. cbn [obind].
  destruct (device_breakdown_ok usage_records) as (Hnd & Hkeys & Hcount).
  do 2 eexists. exists (device_breakdown usage_records).
  split; [reflexivity |].
  repeat (split; [reflexivity |]).
  split; [exact Hnd |]. split; [exact Hkeys | exact Hcount].
Qed.

(** A solar query whose dates parse and whose database call returns never
    fails: the number of days the total is divided by is at least 1, also
    when the end date lies before the start date, where the average is the
    total itself over one day. *)
Theorem query_solar_generation_average (start_date end_date : string)
    (start_dt end_dt : date) (records : list generation_record) :
  strptime start_date = Return start_dt ->
  strptime end_date = Return end_dt ->
  get_generation_by_date_range start_dt (end_dt + 1) = Return records ->
  exists data,
    query_solar_generation py_round strptime isoformat str_exn
      get_generation_by_date_range start_date end_date = JDict data
    /\ jdict_get "error" data = None
    /\ jdict_get "total_records" data
       = Some (JNum (PInt (Z.of_nat (List.length records))))
    /\ jdict_get "records" data
       = Some (JList (map (generation_record_dict isoformat) records))
    /\ jdict_get "average_daily_generation" data
       = Some (JNum (PFloat
           (py_round
              (to_float
                 (py_sum (map (fun r => PFloat (generation_kwh r)) records))
               / float_of_Z (if end_dt <? start_dt then 1
                             else end_dt + 1 - start_dt)%Z)%float
              2))).
Proof.
  intros Hs He Hr.
  unfold query_solar_generation, query_solar_generation_try.
  rewrite Hs, He. cbn [obind]. rewrite Hr. cbn [obind].
  unfold num_truediv.
  assert (Hmax : Z.max 1 (end_dt + 1 - start_dt)
                 = if end_dt <? start_dt then 1 else end_dt + 1 - start_dt).
  { destruct (Z.ltb_spec end_dt start_dt); lia. }
  rewrite Hmax.
  assert (Hnz : ((if end_dt <? start_dt then 1 else end_dt + 1 - start_dt)
                 =? 0) = false).
  { apply Z.eqb_neq. destruct (Z.ltb_spec end_dt start_dt); lia. }
  rewrite Hnz. cbn [obind]. eexists. split; [reflexivity |].
  repeat split.
Qed.

(** A usage query whose dates parse and whose database call returns
    reports the rows of the range ending one day after the end date;
    with a device type it reports exactly the rows of that device, and
    without one, or with the empty string, every row; the number of
    records announced is the number of records listed. *)
Theorem query_energy_usage_device_filter (start_date end_date : string)
    (device_type : option string) (start_dt end_dt : date)
    (records : list usage_record) :
  strptime start_date = Return start_dt ->
  strptime end_date = Return end_dt ->
  get_usage_by_date_range start_dt (end_dt + 1) = Return records ->
  exists data kept,
    query_energy_usage py_round strptime isoformat str_exn
      get_usage_by_date_range start_date end_date device_type = JDict data
    /\ jdict_get "error" data = None
    /\ jdict_get "records" data
       = Some (JList (map (usage_record_dict isoformat) kept))
    /\ jdict_get "total_records" data
       = Some (JNum (PInt (Z.of_nat (List.length kept))))
    /\ (device_type = None \/ device_type = Some "" -> kept = records)
    /\ (forall d, device_type = Some d -> d <> "" ->
          kept = filter (fun r =>
                           match EnergyData.device_type r with
                           | Some a => String.eqb a d
                           | None => false
                           end) records
          /\ forall r, In r kept
                       <-> In r records /\ EnergyData.device_type r = Some d).
Proof.
  intros Hs He Hr.
  unfold query_energy_usage, query_energy_usage_try.
  rewrite Hs, He. cbn [obind]. rewrite Hr. cbn [obind].
  eexists. exists (if str_truthy device_type
                   then filter (same_device device_type) records
                   else records).
  split; [reflexivity |]. repeat (split; [reflexivity |]).
  split.
  - intros [-> | ->]; reflexivity.
  - intros d -> Hd. unfold str_truthy.
    apply String.eqb_neq in Hd. rewrite Hd. cbn [negb].
    split; [reflexivity |].
    intros r. rewrite filter_In. unfold same_device.
    destruct (EnergyData.device_type r) as [a |].
    + rewrite String.eqb_eq. split; intros [H1 H2]; split; congruence.
    + split; intros [H1 H2]; discriminate.
Qed.

End Queries.

Lemma get_recent_energy_summary_device_breakdown_witness :
  exists summary usage breakdown,
    get_recent_energy_summary round0 (fun _ => "failure")
      (fun _ => Return toy_usage) (fun _ => Return toy_generation) 24
    = JDict summary
    /\ jdict_get "error" summary = None
    /\ jdict_get "usage" summary = Some (JDict usage)
    /\ jdict_get "device_breakdown" usage
       = Some (JDict (map (fun p => (fst p, device_data_dict round0 (snd p)))
                        breakdown))
    /\ NoDup (map fst breakdown)
    /\ (forall k, In k (map fst breakdown)
                  <-> exists r, In r toy_usage /\ device_key r = k)
    /\ (forall k v, In (k, v) breakdown ->
                    dd_records v = usage_count k toy_usage).
Proof.
  exact (get_recent_energy_summary_device_breakdown round0
           (fun _ => "failure") (fun _ => Return toy_usage)
           (fun _ => Return toy_generation) 24 toy_usage toy_generation
           eq_refl eq_refl).
Defined.

Lemma query_solar_generation_average_witness :
  exists data,
    query_solar_generation round0 toy_strptime (fun _ => "t")
      (fun _ => "failure") (fun _ _ => Return toy_generation) "5" "3"
    = JDict data
    /\ jdict_get "error" data = None
    /\ jdict_get "total_records" data
       = Some (JNum (PInt (Z.of_nat (List.length toy_generation))))
    /\ jdict_get "records" data
       = Some (JList (map (generation_record_dict (fun _ => "t"))
                        toy_generation))
    /\ jdict_get "average_daily_generation" data
       = Some (JNum (PFloat
           (round0
              (to_float
                 (py_sum (map (fun r => PFloat (generation_kwh r))
                            toy_generation))
               / float_of_Z (if 3 <? 5 then 1 else 3 + 1 - 5)%Z)%float
              2))).
Proof.
  exact (query_solar_generation_average round0 toy_strptime (fun _ => "t")
           (fun _ => "failure") (fun _ _ => Return toy_generation)
           "5" "3" 5 3 toy_generation eq_refl eq_refl eq_refl).
Defined.

Lemma query_energy_usage_device_filter_witness :
  exists data kept,
    query_energy_usage round0 toy_strptime (fun _ => "t")
      (fun _ => "failure") (fun _ _ => Return toy_usage) "1" "2" (Some "EV")
    = JDict data
    /\ jdict_get "error" data = None
    /\ jdict_get "records" data
       = Some (JList (map (usage_record_dict (fun _ => "t")) kept))
    /\ jdict_get "total_records" data
       = Some (JNum (PInt (Z.of_nat (List.length kept))))
    /\ (Some "EV" = None \/ Some "EV" = Some "" -> kept = toy_usage)
    /\ (forall d, Some "EV" = Some d -> d <> "" ->
          kept = filter (fun r =>
                           match EnergyData.device_type r with
                           | Some a => String.eqb a d
                           | None => false
                           end) toy_usage
          /\ forall r, In r kept
                       <-> In r toy_usage
                           /\ EnergyData.device_type r = Some d).
Proof.
  exact (query_energy_usage_device_filter round0 toy_strptime (fun _ => "t")
           (fun _ => "failure") (fun _ _ => Return toy_usage)
           "1" "2" (Some "EV") 1 2 toy_usage eq_refl eq_refl eq_refl).
Defined.

End EcoHomeExtra.
